(** * Virtual factory demo: the simulation engine [FactorySimulation]

    A shallow embedding of the simulation engine of [src/js/scene.js]
    (class [FactorySimulation]) and of the constants of [CONFIG]
    ([src/unnamed/part_001]), followed by the properties of the
    specification that concern it.  Further sections cover the parts
    of the classes around the engine that compute on its telemetry:
    [ChartsManager], [FactoryApp], [AIIntegration] and the conveyor and
    status lights of [SceneManager].

    Modelling conventions.
    - A JavaScript number holding a physical quantity (sensor value,
      battery level, stability score) is an exact rational [Q]; the
      rounding of IEEE doubles is not modelled.  [Math.max] and
      [Math.min] are [Qmax] and [Qmin].  What is stated of repeated
      additions is stated step by step or as an order that rounding
      keeps, not as a closed form that only exact arithmetic gives.
    - Tick counters and millisecond time stamps are integers [Z].
    - [this] is the record [FactorySimulation]; what the engine takes
      from the browser lives in the record [World] around it: the
      wall clock read by [Date.now()], the cursor into the sequence of
      values returned by [Math.random()], the pending timers created
      by [setTimeout] and [setInterval], and the log of dispatched
      telemetry events.
    - The k-th call of [Math.random()] returns [random k], for a
      sequence [random : nat -> Q] fixed for the whole development. *)

From Stdlib Require Import QArith Qminmax Qround ZArith List String Bool.
From Stdlib Require Import Lia Lqa DecimalString Qabs.
Import ListNotations.

Open Scope Q_scope.

(** ** Comparisons of numbers, as booleans *)

Definition Qlt_bool (x y : Q) : bool := negb (Qle_bool y x).
Definition Qge_bool (x y : Q) : bool := Qle_bool y x.
Definition Qgt_bool (x y : Q) : bool := Qlt_bool y x.

(** ** [CONFIG] *)

Module CONFIG.

Module SIMULATION.
Definition TICK_INTERVAL : Z := 6000.
Definition STARTUP_STABLE_DURATION : Z := 15000.
Definition SCENARIO_DELAY : Z := 10000.
End SIMULATION.

(** Power and pressure carry low-side thresholds, temperature
    high-side ones. *)
Record LowSide : Type :=
  { NOMINAL_MIN : Q; WARNING_LOW : Q; CRITICAL_LOW : Q }.
Record HighSide : Type :=
  { NOMINAL_MAX : Q; WARNING_THRESHOLD : Q; CRITICAL_THRESHOLD : Q }.

Module SENSORS.
Definition POWER : LowSide :=
  {| NOMINAL_MIN := 38; WARNING_LOW := 38; CRITICAL_LOW := 32 |}.
Definition PRESSURE : LowSide :=
  {| NOMINAL_MIN := 135; WARNING_LOW := 135; CRITICAL_LOW := 125 |}.
Definition TEMPERATURE : HighSide :=
  {| NOMINAL_MAX := 75; WARNING_THRESHOLD := 75;
     CRITICAL_THRESHOLD := 85 |}.
End SENSORS.

Module COOLING.
Definition DEFAULT : Q := 30.
End COOLING.

Module STABILITY.
Definition PENALTY_WARNING : Q := 10.
Definition PENALTY_CRITICAL : Q := 25.
Definition PENALTY_TREND : Q := 5.
Definition THRESHOLD_NORMAL : Q := 86.
Definition THRESHOLD_DEGRADED : Q := 71.
Definition THRESHOLD_CRITICAL : Q := 0.
End STABILITY.

(** [CONFIG.STATES] *)
Inductive STATES : Type := NORMAL | DEGRADED | CRITICAL | PAUSED.

(** [CONFIG.SCENARIOS] *)
Inductive SCENARIOS : Type := NONE | POWER_SAG | PRESSURE_DRIFT | OVERHEAT.

(** [CONFIG.SCENARIO_WEIGHTS], "for random selection". *)
Module SCENARIO_WEIGHTS.
Definition POWER_SAG : Q := 0.40.
Definition PRESSURE_DRIFT : Q := 0.35.
Definition OVERHEAT : Q := 0.25.
End SCENARIO_WEIGHTS.

Module CHARTS.
Definition MAX_DATA_POINTS : nat := 60.
End CHARTS.

Module AUTO_STOP.
Definition ENABLED : bool := false.
Definition CRITICAL_TICKS : Z := 10.
End AUTO_STOP.

Module ACTIONS.
Definition SWITCH_BACKUP_POWER : string := "switch_backup_power".
Definition INCREASE_PRESSURE : string := "increase_pressure".
Definition DECREASE_PRESSURE : string := "decrease_pressure".
Definition INCREASE_COOLING : string := "increase_cooling".
Definition PAUSE_LINE : string := "pause_line".
Definition RESUME_LINE : string := "resume_line".
End ACTIONS.

End CONFIG.

Import CONFIG.

Definition STATES_eqb (a b : STATES) : bool :=
  match a, b with
  | NORMAL, NORMAL | DEGRADED, DEGRADED
  | CRITICAL, CRITICAL | PAUSED, PAUSED => true
  | _, _ => false
  end.

Definition SCENARIOS_eqb (a b : SCENARIOS) : bool :=
  match a, b with
  | NONE, NONE | POWER_SAG, POWER_SAG
  | PRESSURE_DRIFT, PRESSURE_DRIFT | OVERHEAT, OVERHEAT => true
  | _, _ => false
  end.

(** The state name as it is spliced into a message. *)
Definition STATES_name (a : STATES) : string :=
  match a with
  | NORMAL => "NORMAL"
  | DEGRADED => "DEGRADED"
  | CRITICAL => "CRITICAL"
  | PAUSED => "PAUSED"
  end.

(** ** Data of the engine *)

(** The three keys of [this.sensors]. *)
Inductive SensorName : Type := K_power | K_pressure | K_temperature.

Record Sensors : Type :=
  { power : Q; pressure : Q; temperature : Q }.

Definition sensor_get (s : Sensors) (k : SensorName) : Q :=
  match k with
  | K_power => power s
  | K_pressure => pressure s
  | K_temperature => temperature s
  end.

Definition sensor_set (s : Sensors) (k : SensorName) (v : Q) : Sensors :=
  match k with
  | K_power => {| power := v; pressure := pressure s;
                  temperature := temperature s |}
  | K_pressure => {| power := power s; pressure := v;
                     temperature := temperature s |}
  | K_temperature => {| power := power s; pressure := pressure s;
                        temperature := v |}
  end.

(** [this.activeScenario]; the object built by [startRandomScenario]
    has no [duration] property, hence the option. *)
Module ActiveScenario.
Record t : Type :=
  { type : SCENARIOS; active : bool; tickCount : Z; duration : option Z }.
End ActiveScenario.

(** One entry of [this.sensorHistory]. *)
Module HistoryEntry.
Record t : Type :=
  { time : Z; power : Q; pressure : Q; temperature : Q;
    stability : Q; state : STATES }.
End HistoryEntry.

(** The fields of [this]. [tickInterval] is the handle returned by
    [setInterval], or [None] for [null]. *)
Record FactorySimulation : Type :=
  { state : STATES;
    stability : Q;
    sensors : Sensors;
    previousSensors : Sensors;
    cooling : Q;
    backupPower : bool;
    mainBatteryLevel : Q;
    backupBatteryLevel : Q;
    batteryRechargeRate : Q;
    activeScenario : ActiveScenario.t;
    startTime : Z;
    tickCount : Z;
    criticalTickCount : Z;
    stableTickCount : Z;
    lastScenarioEndTime : Z;
    scenarioScheduled : bool;
    sensorHistory : list HistoryEntry.t;
    tickInterval : option nat }.

(** The detail of a dispatched [telemetry] event, also the value of
    [getTelemetrySnapshot]. *)
Module Telemetry.
Record t : Type :=
  { timestamp : Z;
    state : STATES;
    stability : Q;
    sensors : Sensors;
    cooling : Q;
    backupPower : bool;
    mainBatteryLevel : Q;
    backupBatteryLevel : Q;
    scenario_active : bool;
    scenario_type : SCENARIOS;
    powerDelta : Q;
    pressureDelta : Q;
    tempDelta : Q }.
End Telemetry.

(** What an action returns. *)
Record ActionResult : Type := { success : bool; message : string }.

(** *** Timers *)

(** The closures handed to [setInterval] and [setTimeout].  The one of
    [gradualRestore] captures [sensorType], [steps], [stepChange],
    [targetValue] and the mutable counter [step]. *)
Inductive Callback : Type :=
| TickCb
| PowerRestoredCb
| NextScenarioCb
| RestoreStepCb (sensorType : SensorName) (steps : Z)
                (stepChange targetValue : Q) (step : Z).

(** A pending timer: its handle, when it is due, its period when it
    comes from [setInterval], and its callback. *)
Record Timer : Type :=
  { handle : nat; due : Z; period : option Z; callback : Callback }.

Record World : Type :=
  { sim : FactorySimulation;
    clock : Z;
    drawn : nat;
    timers : list Timer;
    nextHandle : nat;
    dispatched : list Telemetry.t }.

(** ** Assignments to the fields of [this]

    [set_f v s] is [s] after [this.f = v]. *)

Definition set_state (v : STATES) (s : FactorySimulation)
  : FactorySimulation :=
  {| state := v; stability := stability s; sensors := sensors s;
     previousSensors := previousSensors s; cooling := cooling s;
     backupPower := backupPower s;
     mainBatteryLevel := mainBatteryLevel s;
     backupBatteryLevel := backupBatteryLevel s;
     batteryRechargeRate := batteryRechargeRate s;
     activeScenario := activeScenario s; startTime := startTime s;
     tickCount := tickCount s;
     criticalTickCount := criticalTickCount s;
     stableTickCount := stableTickCount s;
     lastScenarioEndTime := lastScenarioEndTime s;
     scenarioScheduled := scenarioScheduled s;
     sensorHistory := sensorHistory s; tickInterval := tickInterval s |}.

Definition set_stability (v : Q) (s : FactorySimulation)
  : FactorySimulation :=
  {| state := state s; stability := v; sensors := sensors s;
     previousSensors := previousSensors s; cooling := cooling s;
     backupPower := backupPower s;
     mainBatteryLevel := mainBatteryLevel s;
     backupBatteryLevel := backupBatteryLevel s;
     batteryRechargeRate := batteryRechargeRate s;
     activeScenario := activeScenario s; startTime := startTime s;
     tickCount := tickCount s;
     criticalTickCount := criticalTickCount s;
     stableTickCount := stableTickCount s;
     lastScenarioEndTime := lastScenarioEndTime s;
     scenarioScheduled := scenarioScheduled s;
     sensorHistory := sensorHistory s; tickInterval := tickInterval s |}.

Definition set_sensors (v : Sensors) (s : FactorySimulation)
  : FactorySimulation :=
  {| state := state s; stability := stability s; sensors := v;
     previousSensors := previousSensors s; cooling := cooling s;
     backupPower := backupPower s;
     mainBatteryLevel := mainBatteryLevel s;
     backupBatteryLevel := backupBatteryLevel s;
     batteryRechargeRate := batteryRechargeRate s;
     activeScenario := activeScenario s; startTime := startTime s;
     tickCount := tickCount s;
     criticalTickCount := criticalTickCount s;
     stableTickCount := stableTickCount s;
     lastScenarioEndTime := lastScenarioEndTime s;
     scenarioScheduled := scenarioScheduled s;
     sensorHistory := sensorHistory s; tickInterval := tickInterval s |}.

Definition set_previousSensors (v : Sensors) (s : FactorySimulation)
  : FactorySimulation :=
  {| state := state s; stability := stability s; sensors := sensors s;
     previousSensors := v; cooling := cooling s;
     backupPower := backupPower s;
     mainBatteryLevel := mainBatteryLevel s;
     backupBatteryLevel := backupBatteryLevel s;
     batteryRechargeRate := batteryRechargeRate s;
     activeScenario := activeScenario s; startTime := startTime s;
     tickCount := tickCount s;
     criticalTickCount := criticalTickCount s;
     stableTickCount := stableTickCount s;
     lastScenarioEndTime := lastScenarioEndTime s;
     scenarioScheduled := scenarioScheduled s;
     sensorHistory := sensorHistory s; tickInterval := tickInterval s |}.

Definition set_cooling (v : Q) (s : FactorySimulation)
  : FactorySimulation :=
  {| state := state s; stability := stability s; sensors := sensors s;
     previousSensors := previousSensors s; cooling := v;
     backupPower := backupPower s;
     mainBatteryLevel := mainBatteryLevel s;
     backupBatteryLevel := backupBatteryLevel s;
     batteryRechargeRate := batteryRechargeRate s;
     activeScenario := activeScenario s; startTime := startTime s;
     tickCount := tickCount s;
     criticalTickCount := criticalTickCount s;
     stableTickCount := stableTickCount s;
     lastScenarioEndTime := lastScenarioEndTime s;
     scenarioScheduled := scenarioScheduled s;
     sensorHistory := sensorHistory s; tickInterval := tickInterval s |}.

Definition set_backupPower (v : bool) (s : FactorySimulation)
  : FactorySimulation :=
  {| state := state s; stability := stability s; sensors := sensors s;
     previousSensors := previousSensors s; cooling := cooling s;
     backupPower := v; mainBatteryLevel := mainBatteryLevel s;
     backupBatteryLevel := backupBatteryLevel s;
     batteryRechargeRate := batteryRechargeRate s;
     activeScenario := activeScenario s; startTime := startTime s;
     tickCount := tickCount s;
     criticalTickCount := criticalTickCount s;
     stableTickCount := stableTickCount s;
     lastScenarioEndTime := lastScenarioEndTime s;
     scenarioScheduled := scenarioScheduled s;
     sensorHistory := sensorHistory s; tickInterval := tickInterval s |}.

Definition set_mainBatteryLevel (v : Q) (s : FactorySimulation)
  : FactorySimulation :=
  {| state := state s; stability := stability s; sensors := sensors s;
     previousSensors := previousSensors s; cooling := cooling s;
     backupPower := backupPower s; mainBatteryLevel := v;
     backupBatteryLevel := backupBatteryLevel s;
     batteryRechargeRate := batteryRechargeRate s;
     activeScenario := activeScenario s; startTime := startTime s;
     tickCount := tickCount s;
     criticalTickCount := criticalTickCount s;
     stableTickCount := stableTickCount s;
     lastScenarioEndTime := lastScenarioEndTime s;
     scenarioScheduled := scenarioScheduled s;
     sensorHistory := sensorHistory s; tickInterval := tickInterval s |}.

Definition set_backupBatteryLevel (v : Q) (s : FactorySimulation)
  : FactorySimulation :=
  {| state := state s; stability := stability s; sensors := sensors s;
     previousSensors := previousSensors s; cooling := cooling s;
     backupPower := backupPower s;
     mainBatteryLevel := mainBatteryLevel s; backupBatteryLevel := v;
     batteryRechargeRate := batteryRechargeRate s;
     activeScenario := activeScenario s; startTime := startTime s;
     tickCount := tickCount s;
     criticalTickCount := criticalTickCount s;
     stableTickCount := stableTickCount s;
     lastScenarioEndTime := lastScenarioEndTime s;
     scenarioScheduled := scenarioScheduled s;
     sensorHistory := sensorHistory s; tickInterval := tickInterval s |}.

Definition set_activeScenario (v : ActiveScenario.t) (s : FactorySimulation)
  : FactorySimulation :=
  {| state := state s; stability := stability s; sensors := sensors s;
     previousSensors := previousSensors s; cooling := cooling s;
     backupPower := backupPower s;
     mainBatteryLevel := mainBatteryLevel s;
     backupBatteryLevel := backupBatteryLevel s;
     batteryRechargeRate := batteryRechargeRate s;
     activeScenario := v; startTime := startTime s;
     tickCount := tickCount s;
     criticalTickCount := criticalTickCount s;
     stableTickCount := stableTickCount s;
     lastScenarioEndTime := lastScenarioEndTime s;
     scenarioScheduled := scenarioScheduled s;
     sensorHistory := sensorHistory s; tickInterval := tickInterval s |}.

Definition set_tickCount (v : Z) (s : FactorySimulation)
  : FactorySimulation :=
  {| state := state s; stability := stability s; sensors := sensors s;
     previousSensors := previousSensors s; cooling := cooling s;
     backupPower := backupPower s;
     mainBatteryLevel := mainBatteryLevel s;
     backupBatteryLevel := backupBatteryLevel s;
     batteryRechargeRate := batteryRechargeRate s;
     activeScenario := activeScenario s; startTime := startTime s;
     tickCount := v; criticalTickCount := criticalTickCount s;
     stableTickCount := stableTickCount s;
     lastScenarioEndTime := lastScenarioEndTime s;
     scenarioScheduled := scenarioScheduled s;
     sensorHistory := sensorHistory s; tickInterval := tickInterval s |}.

Definition set_criticalTickCount (v : Z) (s : FactorySimulation)
  : FactorySimulation :=
  {| state := state s; stability := stability s; sensors := sensors s;
     previousSensors := previousSensors s; cooling := cooling s;
     backupPower := backupPower s;
     mainBatteryLevel := mainBatteryLevel s;
     backupBatteryLevel := backupBatteryLevel s;
     batteryRechargeRate := batteryRechargeRate s;
     activeScenario := activeScenario s; startTime := startTime s;
     tickCount := tickCount s; criticalTickCount := v;
     stableTickCount := stableTickCount s;
     lastScenarioEndTime := lastScenarioEndTime s;
     scenarioScheduled := scenarioScheduled s;
     sensorHistory := sensorHistory s; tickInterval := tickInterval s |}.

Definition set_stableTickCount (v : Z) (s : FactorySimulation)
  : FactorySimulation :=
  {| state := state s; stability := stability s; sensors := sensors s;
     previousSensors := previousSensors s; cooling := cooling s;
     backupPower := backupPower s;
     mainBatteryLevel := mainBatteryLevel s;
     backupBatteryLevel := backupBatteryLevel s;
     batteryRechargeRate := batteryRechargeRate s;
     activeScenario := activeScenario s; startTime := startTime s;
     tickCount := tickCount s;
     criticalTickCount := criticalTickCount s; stableTickCount := v;
     lastScenarioEndTime := lastScenarioEndTime s;
     scenarioScheduled := scenarioScheduled s;
     sensorHistory := sensorHistory s; tickInterval := tickInterval s |}.

Definition set_lastScenarioEndTime (v : Z) (s : FactorySimulation)
  : FactorySimulation :=
  {| state := state s; stability := stability s; sensors := sensors s;
     previousSensors := previousSensors s; cooling := cooling s;
     backupPower := backupPower s;
     mainBatteryLevel := mainBatteryLevel s;
     backupBatteryLevel := backupBatteryLevel s;
     batteryRechargeRate := batteryRechargeRate s;
     activeScenario := activeScenario s; startTime := startTime s;
     tickCount := tickCount s;
     criticalTickCount := criticalTickCount s;
     stableTickCount := stableTickCount s; lastScenarioEndTime := v;
     scenarioScheduled := scenarioScheduled s;
     sensorHistory := sensorHistory s; tickInterval := tickInterval s |}.

Definition set_scenarioScheduled (v : bool) (s : FactorySimulation)
  : FactorySimulation :=
  {| state := state s; stability := stability s; sensors := sensors s;
     previousSensors := previousSensors s; cooling := cooling s;
     backupPower := backupPower s;
     mainBatteryLevel := mainBatteryLevel s;
     backupBatteryLevel := backupBatteryLevel s;
     batteryRechargeRate := batteryRechargeRate s;
     activeScenario := activeScenario s; startTime := startTime s;
     tickCount := tickCount s;
     criticalTickCount := criticalTickCount s;
     stableTickCount := stableTickCount s;
     lastScenarioEndTime := lastScenarioEndTime s;
     scenarioScheduled := v; sensorHistory := sensorHistory s;
     tickInterval := tickInterval s |}.

Definition set_sensorHistory (v : list HistoryEntry.t) (s : FactorySimulation)
  : FactorySimulation :=
  {| state := state s; stability := stability s; sensors := sensors s;
     previousSensors := previousSensors s; cooling := cooling s;
     backupPower := backupPower s;
     mainBatteryLevel := mainBatteryLevel s;
     backupBatteryLevel := backupBatteryLevel s;
     batteryRechargeRate := batteryRechargeRate s;
     activeScenario := activeScenario s; startTime := startTime s;
     tickCount := tickCount s;
     criticalTickCount := criticalTickCount s;
     stableTickCount := stableTickCount s;
     lastScenarioEndTime := lastScenarioEndTime s;
     scenarioScheduled := scenarioScheduled s; sensorHistory := v;
     tickInterval := tickInterval s |}.

Definition set_tickInterval (v : option nat) (s : FactorySimulation)
  : FactorySimulation :=
  {| state := state s; stability := stability s; sensors := sensors s;
     previousSensors := previousSensors s; cooling := cooling s;
     backupPower := backupPower s;
     mainBatteryLevel := mainBatteryLevel s;
     backupBatteryLevel := backupBatteryLevel s;
     batteryRechargeRate := batteryRechargeRate s;
     activeScenario := activeScenario s; startTime := startTime s;
     tickCount := tickCount s;
     criticalTickCount := criticalTickCount s;
     stableTickCount := stableTickCount s;
     lastScenarioEndTime := lastScenarioEndTime s;
     scenarioScheduled := scenarioScheduled s;
     sensorHistory := sensorHistory s; tickInterval := v |}.

(** The same for the surroundings. *)

Definition set_sim (v : FactorySimulation) (w : World) : World :=
  {| sim := v; clock := clock w; drawn := drawn w; timers := timers w;
     nextHandle := nextHandle w; dispatched := dispatched w |}.

Definition set_clock (v : Z) (w : World) : World :=
  {| sim := sim w; clock := v; drawn := drawn w; timers := timers w;
     nextHandle := nextHandle w; dispatched := dispatched w |}.

Definition set_drawn (v : nat) (w : World) : World :=
  {| sim := sim w; clock := clock w; drawn := v; timers := timers w;
     nextHandle := nextHandle w; dispatched := dispatched w |}.

Definition set_timers (v : list Timer) (w : World) : World :=
  {| sim := sim w; clock := clock w; drawn := drawn w; timers := v;
     nextHandle := nextHandle w; dispatched := dispatched w |}.

Definition set_nextHandle (v : nat) (w : World) : World :=
  {| sim := sim w; clock := clock w; drawn := drawn w;
     timers := timers w; nextHandle := v; dispatched := dispatched w |}.

Definition set_dispatched (v : list Telemetry.t) (w : World) : World :=
  {| sim := sim w; clock := clock w; drawn := drawn w;
     timers := timers w; nextHandle := nextHandle w; dispatched := v |}.

(** ** The engine *)

Section Engine.

(** The values returned by the successive calls of [Math.random()]. *)
Variable random : nat -> Q.

(** *** What the browser provides *)

Definition Math_random (w : World) : Q * World :=
  (random (drawn w), set_drawn (S (drawn w)) w).

Definition Date_now (w : World) : Z := clock w.

Definition arm (cb : Callback) (delay : Z) (per : option Z) (w : World)
  : nat * World :=
  let h := nextHandle w in
  let t := {| handle := h; due := clock w + delay; period := per;
              callback := cb |} in
  (h, set_nextHandle (S h) (set_timers (timers w ++ [t]) w)).

Definition setTimeout (cb : Callback) (delay : Z) (w : World) : World :=
  snd (arm cb delay None w).

Definition setInterval (cb : Callback) (delay : Z) (w : World)
  : nat * World :=
  arm cb delay (Some delay) w.

Definition clearInterval (h : nat) (w : World) : World :=
  set_timers (filter (fun t => negb (Nat.eqb (handle t) h)) (timers w)) w.

Definition on_sim (f : FactorySimulation -> FactorySimulation) (w : World)
  : World :=
  set_sim (f (sim w)) w.

(** [this.sensors[k] = v] *)
Definition assign_sensor (k : SensorName) (v : Q) (s : FactorySimulation)
  : FactorySimulation :=
  set_sensors (sensor_set (sensors s) k v) s.

(** *** [constructor], [start], [stop] *)

Definition new_FactorySimulation (now : Z) : FactorySimulation :=
  {| state := NORMAL;
     stability := 100;
     sensors := {| power := 42.0; pressure := 140.0; temperature := 70.0 |};
     previousSensors :=
       {| power := 42.0; pressure := 140.0; temperature := 70.0 |};
     cooling := COOLING.DEFAULT;
     backupPower := false;
     mainBatteryLevel := 100;
     backupBatteryLevel := 100;
     batteryRechargeRate := 2;
     activeScenario :=
       {| ActiveScenario.type := NONE; ActiveScenario.active := false;
          ActiveScenario.tickCount := 0;
          ActiveScenario.duration := Some 0%Z |};
     startTime := now;
     tickCount := 0;
     criticalTickCount := 0;
     stableTickCount := 0;
     lastScenarioEndTime := now;
     scenarioScheduled := false;
     sensorHistory := [];
     tickInterval := None |}.

Definition start (w : World) : World :=
  let (h, w) := setInterval TickCb SIMULATION.TICK_INTERVAL w in
  on_sim (set_tickInterval (Some h)) w.

Definition stop (w : World) : World :=
  match tickInterval (sim w) with
  | Some h => on_sim (set_tickInterval None) (clearInterval h w)
  | None => w
  end.

(** *** Scenarios *)

(** [scenarios[Math.floor(Math.random() * scenarios.length)]].  The
    default of [nth] stands for an index outside the array, which a
    draw in [0,1) never produces (lemma [scenario_index_in_range]). *)
Definition startRandomScenario (w : World) : World :=
  let scenarios := [POWER_SAG; PRESSURE_DRIFT; OVERHEAT] in
  let (r, w) := Math_random w in
  let scenario :=
    nth (Z.to_nat (Qfloor (r * inject_Z (Z.of_nat (List.length scenarios)))))
        scenarios NONE in
  on_sim (set_activeScenario
            {| ActiveScenario.type := scenario;
               ActiveScenario.active := true;
               ActiveScenario.tickCount := 0;
               ActiveScenario.duration := None |}) w.

Definition manageScenarios (elapsed : Z) (w : World) : World :=
  if (elapsed <? SIMULATION.STARTUP_STABLE_DURATION)%Z then
    on_sim (fun s => set_stableTickCount (stableTickCount s + 1)%Z s) w
  else if STATES_eqb (state (sim w)) PAUSED then w
  else if scenarioScheduled (sim w) then w
  else if negb (ActiveScenario.active (activeScenario (sim w))) then
    let timeSinceLastScenario :=
      (Date_now w - lastScenarioEndTime (sim w))%Z in
    if (SIMULATION.SCENARIO_DELAY <=? timeSinceLastScenario)%Z
    then startRandomScenario w
    else w
  else
    on_sim (fun s =>
      let a := activeScenario s in
      set_activeScenario
        {| ActiveScenario.type := ActiveScenario.type a;
           ActiveScenario.active := ActiveScenario.active a;
           ActiveScenario.tickCount := (ActiveScenario.tickCount a + 1)%Z;
           ActiveScenario.duration := ActiveScenario.duration a |} s) w.

(** End the current scenario, reset the line and schedule the next
    scenario. *)
Definition endScenarioAndScheduleNext (w : World) : World :=
  let s := sim w in
  let s := set_activeScenario
             {| ActiveScenario.type := NONE;
                ActiveScenario.active := false;
                ActiveScenario.tickCount := 0;
                ActiveScenario.duration := Some 0%Z |} s in
  let s := set_backupPower false s in
  let s := set_cooling COOLING.DEFAULT s in
  let s := set_state NORMAL s in
  let s := set_stability 100 s in
  let s := set_stableTickCount 0 s in
  let s := set_criticalTickCount 0 s in
  let s := set_lastScenarioEndTime (Date_now w) s in
  let s := set_mainBatteryLevel 100 s in
  let s := set_backupBatteryLevel 100 s in
  let s := set_scenarioScheduled true s in
  let w := set_sim s w in
  let delay := SIMULATION.SCENARIO_DELAY in
  setTimeout NextScenarioCb delay w.

Definition endScenario (w : World) : World :=
  endScenarioAndScheduleNext w.

(** *** Sensors *)

(** The inactive battery recharges. *)
Definition rechargeBattery (s : FactorySimulation) : FactorySimulation :=
  if backupPower s then
    if Qlt_bool (mainBatteryLevel s) 100
    then set_mainBatteryLevel
           (Qmin 100 (mainBatteryLevel s + batteryRechargeRate s)) s
    else s
  else
    if Qlt_bool (backupBatteryLevel s) 100
    then set_backupBatteryLevel
           (Qmin 100 (backupBatteryLevel s + batteryRechargeRate s)) s
    else s.

(** The perturbation of the channel targeted by the scenario;
    [scenario] is [None] for [null]. *)
Definition perturbPower (scenario : option SCENARIOS) (w : World) : World :=
  match scenario with
  | Some POWER_SAG =>
      let (r, w) := Math_random w in
      let drop := r * 4 + 2 in
      let w := on_sim (fun s =>
                 assign_sensor K_power (power (sensors s) - drop) s) w in
      let (r', w) := Math_random w in
      let batteryDrain := r' * 8 + 5 in
      if backupPower (sim w) then
        on_sim (fun s => set_backupBatteryLevel
                  (Qmax 0 (backupBatteryLevel s - batteryDrain)) s) w
      else
        on_sim (fun s => set_mainBatteryLevel
                  (Qmax 0 (mainBatteryLevel s - batteryDrain)) s) w
  | _ => w
  end.

Definition perturbPressure (scenario : option SCENARIOS) (w : World)
  : World :=
  match scenario with
  | Some PRESSURE_DRIFT =>
      let (r, w) := Math_random w in
      let drop := r * 3 + 2 in
      on_sim (fun s =>
        assign_sensor K_pressure (pressure (sensors s) - drop) s) w
  | _ => w
  end.

Definition perturbTemperature (scenario : option SCENARIOS) (w : World)
  : World :=
  match scenario with
  | Some OVERHEAT =>
      let (r, w) := Math_random w in
      let rise := r * 2 + 2 in
      on_sim (fun s =>
        assign_sensor K_temperature (temperature (sensors s) + rise) s) w
  | _ => w
  end.

(** The fluctuation applied to all three channels. *)
Definition fluctuate (w : World) : World :=
  let (r1, w) := Math_random w in
  let w := on_sim (fun s =>
    assign_sensor K_power (power (sensors s) + (r1 - 0.5) * 2) s) w in
  let (r2, w) := Math_random w in
  let w := on_sim (fun s =>
    assign_sensor K_temperature
      (temperature (sensors s) + (r2 - 0.5) * 1) s) w in
  let (r3, w) := Math_random w in
  on_sim (fun s =>
    assign_sensor K_pressure (pressure (sensors s) + (r3 - 0.5) * 2) s) w.

(** Clamp to hardware limits. *)
Definition clampSensors (s : FactorySimulation) : FactorySimulation :=
  let s := assign_sensor K_power
             (Qmax 0 (Qmin 100 (power (sensors s)))) s in
  let s := assign_sensor K_pressure
             (Qmax 100 (Qmin 200 (pressure (sensors s)))) s in
  assign_sensor K_temperature
    (Qmax 20 (Qmin 120 (temperature (sensors s)))) s.

Definition updateSensors (w : World) : World :=
  let a := activeScenario (sim w) in
  let scenario :=
    if ActiveScenario.active a then Some (ActiveScenario.type a)
    else None in
  let w := on_sim rechargeBattery w in
  let w := perturbPower scenario w in
  let w := perturbPressure scenario w in
  let w := perturbTemperature scenario w in
  let w := fluctuate w in
  on_sim clampSensors w.

(** *** Stability and operating state *)

Inductive SensorStatus : Type := normal | warning | critical.

Definition SensorStatus_eqb (a b : SensorStatus) : bool :=
  match a, b with
  | normal, normal | warning, warning | critical, critical => true
  | _, _ => false
  end.

(** [config] is [CONFIG.SENSORS[sensorName.toUpperCase()]]: high-side
    thresholds for temperature, low-side ones for power and
    pressure. *)
Definition getSensorStatus (s : FactorySimulation) (sensorName : SensorName)
  : SensorStatus :=
  let value := sensor_get (sensors s) sensorName in
  match sensorName with
  | K_temperature =>
      let config := SENSORS.TEMPERATURE in
      if Qge_bool value (CRITICAL_THRESHOLD config) then critical
      else if Qge_bool value (WARNING_THRESHOLD config) then warning
      else normal
  | _ =>
      let config := match sensorName with
                    | K_pressure => SENSORS.PRESSURE
                    | _ => SENSORS.POWER
                    end in
      if Qle_bool value (CRITICAL_LOW config) then critical
      else if Qle_bool value (WARNING_LOW config) then warning
      else normal
  end.

(** [this.sensorHistory[this.sensorHistory.length - 1]] is read under
    the guard [length >= 2]; without an entry there the score is
    left as it is. *)
Definition calculateStability (s : FactorySimulation) : FactorySimulation :=
  let score := 100 in
  let powerStatus := getSensorStatus s K_power in
  let pressureStatus := getSensorStatus s K_pressure in
  let tempStatus := getSensorStatus s K_temperature in
  let score :=
    if SensorStatus_eqb powerStatus warning
       || SensorStatus_eqb pressureStatus warning
       || SensorStatus_eqb tempStatus warning
    then score - STABILITY.PENALTY_WARNING else score in
  let score :=
    if SensorStatus_eqb powerStatus critical
       || SensorStatus_eqb pressureStatus critical
       || SensorStatus_eqb tempStatus critical
    then score - STABILITY.PENALTY_CRITICAL else score in
  let score :=
    if (2 <=? List.length (sensorHistory s))%nat then
      match nth_error (sensorHistory s)
                      (List.length (sensorHistory s) - 1) with
      | Some prev =>
          let powerTrend := power (sensors s) - HistoryEntry.power prev in
          let pressureTrend :=
            pressure (sensors s) - HistoryEntry.pressure prev in
          let tempTrend :=
            temperature (sensors s) - HistoryEntry.temperature prev in
          if (Qlt_bool powerTrend 0
              && Qlt_bool (power (sensors s))
                          (NOMINAL_MIN SENSORS.POWER))
             || (Qlt_bool pressureTrend 0
                 && Qlt_bool (pressure (sensors s))
                             (NOMINAL_MIN SENSORS.PRESSURE))
             || (Qgt_bool tempTrend 0
                 && Qgt_bool (temperature (sensors s))
                             (NOMINAL_MAX SENSORS.TEMPERATURE))
          then score - STABILITY.PENALTY_TREND else score
      | None => score
      end
    else score in
  set_stability (Qmax 0 (Qmin 100 score)) s.

Definition updateState (s : FactorySimulation) : FactorySimulation :=
  if STATES_eqb (state s) PAUSED then s
  else if Qge_bool (stability s) STABILITY.THRESHOLD_NORMAL then
    let s := set_state NORMAL s in
    set_stableTickCount (stableTickCount s + 1)%Z s
  else if Qge_bool (stability s) STABILITY.THRESHOLD_DEGRADED then
    let s := set_state DEGRADED s in
    set_stableTickCount 0 s
  else
    let s := set_state CRITICAL s in
    set_stableTickCount 0 s.

(** *** Operator actions *)

Definition pauseLine (w : World) : ActionResult * World :=
  let w := on_sim (set_state PAUSED) w in
  let w := on_sim (fun s =>
    let a := activeScenario s in
    set_activeScenario
      {| ActiveScenario.type := ActiveScenario.type a;
         ActiveScenario.active := false;
         ActiveScenario.tickCount := ActiveScenario.tickCount a;
         ActiveScenario.duration := ActiveScenario.duration a |} s) w in
  ({| success := true; message := "Production line paused" |}, w).

Definition checkAutoStop (w : World) : World :=
  if negb AUTO_STOP.ENABLED then w
  else if STATES_eqb (state (sim w)) CRITICAL then
    let w := on_sim (fun s =>
      set_criticalTickCount (criticalTickCount s + 1)%Z s) w in
    if (AUTO_STOP.CRITICAL_TICKS <=? criticalTickCount (sim w))%Z
    then snd (pauseLine w)
    else w
  else on_sim (set_criticalTickCount 0) w.

Definition switchBackupPower (w : World) : ActionResult * World :=
  let w := on_sim (set_backupPower true) w in
  let w := on_sim (set_mainBatteryLevel 100) w in
  let w := setTimeout PowerRestoredCb 2000 w in
  ({| success := true; message := "Backup power activated" |}, w).

(** Gradual restore helper: returns the sensor to nominal over
    [duration], in [steps] firings of an interval timer. *)
Definition gradualRestore (sensorType : SensorName) (duration : Z)
           (w : World) : World :=
  let steps := 10%Z in
  let interval := (duration / steps)%Z in
  let step := 0%Z in
  let startValue := sensor_get (sensors (sim w)) sensorType in
  let targetValue :=
    match sensorType with
    | K_pressure => 140
    | K_temperature => 70
    | K_power => 42
    end in
  let stepChange := (targetValue - startValue) / inject_Z steps in
  snd (setInterval
         (RestoreStepCb sensorType steps stepChange targetValue step)
         interval w).

Definition increasePressure (w : World) : ActionResult * World :=
  let w := gradualRestore K_pressure 5000 w in
  ({| success := true; message := "Increasing pressure..." |}, w).

Definition decreasePressure (w : World) : ActionResult * World :=
  let w := gradualRestore K_pressure 5000 w in
  ({| success := true; message := "Decreasing pressure..." |}, w).

Definition increaseCooling (w : World) : ActionResult * World :=
  let w := gradualRestore K_temperature 10000 w in
  ({| success := true; message := "Cooling system engaged..." |}, w).

Definition resumeLine (w : World) : ActionResult * World :=
  if negb (STATES_eqb (state (sim w)) PAUSED) then
    ({| success := false; message := "Line is not paused" |}, w)
  else
    let powerStatus := getSensorStatus (sim w) K_power in
    let pressureStatus := getSensorStatus (sim w) K_pressure in
    let tempStatus := getSensorStatus (sim w) K_temperature in
    if SensorStatus_eqb powerStatus critical
       || SensorStatus_eqb pressureStatus critical
       || SensorStatus_eqb tempStatus critical
    then ({| success := false;
             message := "Cannot resume: Sensors still critical" |}, w)
    else
      let w :=
        if Qge_bool (stability (sim w)) STABILITY.THRESHOLD_NORMAL
        then on_sim (set_state NORMAL) w
        else if Qge_bool (stability (sim w)) STABILITY.THRESHOLD_DEGRADED
        then on_sim (set_state DEGRADED) w
        else on_sim (set_state CRITICAL) w in
      let w := on_sim (set_stableTickCount 0) w in
      let w := on_sim (set_criticalTickCount 0) w in
      let w := on_sim (set_lastScenarioEndTime (Date_now w)) w in
      ({| success := true;
          message := "Production line resumed ("
                     ++ STATES_name (state (sim w)) ++ ")" |}, w).

Definition executeAction (actionType : string) (w : World)
  : ActionResult * World :=
  if String.eqb actionType ACTIONS.SWITCH_BACKUP_POWER
  then switchBackupPower w
  else if String.eqb actionType ACTIONS.INCREASE_PRESSURE
  then increasePressure w
  else if String.eqb actionType ACTIONS.DECREASE_PRESSURE
  then decreasePressure w
  else if String.eqb actionType ACTIONS.INCREASE_COOLING
  then increaseCooling w
  else if String.eqb actionType ACTIONS.PAUSE_LINE
  then pauseLine w
  else if String.eqb actionType ACTIONS.RESUME_LINE
  then resumeLine w
  else ({| success := false; message := "Unknown action" |}, w).


(** *** Telemetry *)

Definition getTelemetrySnapshot (w : World) : Telemetry.t :=
  let s := sim w in
  {| Telemetry.timestamp := Date_now w;
     Telemetry.state := state s;
     Telemetry.stability := stability s;
     Telemetry.sensors := sensors s;
     Telemetry.cooling := cooling s;
     Telemetry.backupPower := backupPower s;
     Telemetry.mainBatteryLevel := mainBatteryLevel s;
     Telemetry.backupBatteryLevel := backupBatteryLevel s;
     Telemetry.scenario_active := ActiveScenario.active (activeScenario s);
     Telemetry.scenario_type := ActiveScenario.type (activeScenario s);
     Telemetry.powerDelta :=
       power (sensors s) - power (previousSensors s);
     Telemetry.pressureDelta :=
       pressure (sensors s) - pressure (previousSensors s);
     Telemetry.tempDelta :=
       temperature (sensors s) - temperature (previousSensors s) |}.

(** [window.dispatchEvent] of a [telemetry] event with the same
    content. *)
Definition emitTelemetry (w : World) : World :=
  set_dispatched (dispatched w ++ [getTelemetrySnapshot w]) w.

(** *** The tick *)

Definition recordHistory (w : World) : World :=
  let entry :=
    {| HistoryEntry.time := Date_now w;
       HistoryEntry.power := power (sensors (sim w));
       HistoryEntry.pressure := pressure (sensors (sim w));
       HistoryEntry.temperature := temperature (sensors (sim w));
       HistoryEntry.stability := stability (sim w);
       HistoryEntry.state := state (sim w) |} in
  let w := on_sim (fun s =>
    set_sensorHistory (sensorHistory s ++ [entry]) s) w in
  if (CHARTS.MAX_DATA_POINTS <? List.length (sensorHistory (sim w)))%nat
  then on_sim (fun s => set_sensorHistory (tl (sensorHistory s)) s) w
  else w.

Definition tick (w : World) : World :=
  let w := on_sim (fun s => set_tickCount (tickCount s + 1)%Z s) w in
  let elapsed := (Date_now w - startTime (sim w))%Z in
  let w := on_sim (fun s => set_previousSensors (sensors s) s) w in
  let w := manageScenarios elapsed w in
  let w := updateSensors w in
  let w := on_sim calculateStability w in
  let w := on_sim updateState w in
  let w := checkAutoStop w in
  let w := recordHistory w in
  emitTelemetry w.

(** *** Timer callbacks and the event loop *)

(** The body of a callback, run for the timer with handle [h].  The
    result carries the closure as the run leaves it: the callback of
    [gradualRestore] increments its captured [step]. *)
Definition run_callback (h : nat) (cb : Callback) (w : World)
  : World * Callback :=
  match cb with
  | TickCb => (tick w, cb)
  | PowerRestoredCb =>
      let w := on_sim (assign_sensor K_power 42) w in
      (endScenarioAndScheduleNext w, cb)
  | NextScenarioCb =>
      let w := on_sim (set_scenarioScheduled false) w in
      (startRandomScenario w, cb)
  | RestoreStepCb sensorType steps stepChange targetValue step =>
      let step := (step + 1)%Z in
      let w := on_sim (fun s =>
        assign_sensor sensorType
          (sensor_get (sensors s) sensorType + stepChange) s) w in
      let w :=
        if (steps <=? step)%Z then
          let w := clearInterval h w in
          let w := on_sim (assign_sensor sensorType targetValue) w in
          endScenarioAndScheduleNext w
        else w in
      (w, RestoreStepCb sensorType steps stepChange targetValue step)
  end.

(** The pending timer that runs next: the one due first and, among
    those due together, the one armed first. *)
Fixpoint next_due (ts : list Timer) : option Timer :=
  match ts with
  | [] => None
  | t :: ts' =>
      match next_due ts' with
      | Some u => if (due u <? due t)%Z then Some u else Some t
      | None => Some t
      end
  end.

Definition same_handle (h : nat) (t : Timer) : bool := Nat.eqb (handle t) h.

(** A timer that fires leaves the queue; an interval timer re-enters
    it, one period later. *)
Definition reschedule (t : Timer) (w : World) : World :=
  let rest := filter (fun u => negb (same_handle (handle t) u)) (timers w) in
  match period t with
  | None => set_timers rest w
  | Some p =>
      set_timers (rest ++ [{| handle := handle t; due := (due t + p)%Z;
                              period := period t;
                              callback := callback t |}]) w
  end.

Definition store_closure (h : nat) (cb : Callback) (w : World) : World :=
  set_timers
    (map (fun u => if same_handle h u
                   then {| handle := handle u; due := due u;
                           period := period u; callback := cb |}
                   else u) (timers w)) w.

Definition dispatch (t : Timer) (w : World) : World :=
  let w := set_clock (Z.max (clock w) (due t)) w in
  let w := reschedule t w in
  let (w, cb) := run_callback (handle t) (callback t) w in
  store_closure (handle t) cb w.

Definition runNextTimer (w : World) : World :=
  match next_due (timers w) with
  | Some t => dispatch t w
  | None => w
  end.

(** *** Runs of the system *)

(** What can happen to a running simulation: the next pending timer
    fires, the operator (or the AI adapter) issues an action, or time
    passes. *)
Inductive Event : Type :=
| TimerFires
| Operator (action : string)
| TimePasses (dt : Z).

Definition react (w : World) (e : Event) : World :=
  match e with
  | TimerFires => runNextTimer w
  | Operator a => snd (executeAction a w)
  | TimePasses dt => set_clock (clock w + dt)%Z w
  end.

Definition run (es : list Event) (w : World) : World :=
  fold_left react es w.

(** The page at load time [now]: a fresh engine, started. *)
Definition boot (now : Z) : World :=
  start {| sim := new_FactorySimulation now; clock := now; drawn := 0;
           timers := []; nextHandle := 1; dispatched := [] |}.

(** [n] consecutive runs of a callback, the closure threaded along. *)
Fixpoint run_callback_times (n : nat) (h : nat) (cb : Callback) (w : World)
  : World * Callback :=
  match n with
  | O => (w, cb)
  | S n' =>
      let (w', cb') := run_callback_times n' h cb w in
      run_callback h cb' w'
  end.

End Engine.

(** ** Specification-side definitions *)

(** The hard ranges of the three channels. *)
Definition within_hard_ranges (x : Sensors) : Prop :=
  (0 <= power x /\ power x <= 100)
  /\ (100 <= pressure x /\ pressure x <= 200)
  /\ (20 <= temperature x /\ temperature x <= 120).

(** The classification of a channel, in the words of the
    specification: temperature is judged on its high side only, power
    and pressure on their low side only. *)
Definition classify_spec (k : SensorName) (v : Q) : SensorStatus :=
  match k with
  | K_power =>
      if Qlt_le_dec 38 v then normal
      else if Qlt_le_dec 32 v then warning else critical
  | K_pressure =>
      if Qlt_le_dec 135 v then normal
      else if Qlt_le_dec 125 v then warning else critical
  | K_temperature =>
      if Qlt_le_dec v 75 then normal
      else if Qlt_le_dec v 85 then warning else critical
  end.

Definition some_channel_is (st : SensorStatus) (x : Sensors) : bool :=
  existsb (fun k => SensorStatus_eqb (classify_spec k (sensor_get x k)) st)
          [K_power; K_pressure; K_temperature].

(** Some channel moves further from nominal with respect to the
    latest history entry [prev]. *)
Definition moving_away (x : Sensors) (prev : HistoryEntry.t) : bool :=
  (if Qlt_le_dec (power x) (HistoryEntry.power prev) then
     if Qlt_le_dec (power x) 38 then true else false
   else false)
  || (if Qlt_le_dec (pressure x) (HistoryEntry.pressure prev) then
        if Qlt_le_dec (pressure x) 135 then true else false
      else false)
  || (if Qlt_le_dec (HistoryEntry.temperature prev) (temperature x) then
        if Qlt_le_dec 75 (temperature x) then true else false
      else false).

Definition trend_penalty_applies (s : FactorySimulation) : bool :=
  match rev (sensorHistory s) with
  | prev :: _ :: _ => moving_away (sensors s) prev
  | _ => false
  end.

(** The stability score, in the words of the specification. *)
Definition stability_spec (s : FactorySimulation) : Q :=
  let raw :=
    100
    - (if some_channel_is warning (sensors s) then 10 else 0)
    - (if some_channel_is critical (sensors s) then 25 else 0)
    - (if trend_penalty_applies s then 5 else 0) in
  Qmax 0 (Qmin 100 raw).

(** The operating state that a stability score maps to. *)
Definition state_of_score (score : Q) : STATES :=
  if Qlt_le_dec score 71 then CRITICAL
  else if Qlt_le_dec score 86 then DEGRADED
  else NORMAL.

(** The scenario record never reads "inactive" with a fault kind. *)
Definition scenario_inv (s : FactorySimulation) : Prop :=
  ActiveScenario.active (activeScenario s) = false ->
  ActiveScenario.type (activeScenario s) = NONE.

(** The nominal target of a gradual restore. *)
Definition nominal_target (k : SensorName) : Q :=
  match k with
  | K_power => 42
  | K_pressure => 140
  | K_temperature => 70
  end.

(** The fields that say how the line is run: the sensor update and
    the scoring leave them alone. *)
Definition line_control (s : FactorySimulation) : STATES * ActiveScenario.t :=
  (state s, activeScenario s).

(** The world of a tick once its scenario check is done. *)
Definition tick_scenario_check (random : nat -> Q) (w : World) : World :=
  let w := on_sim (fun s => set_tickCount (tickCount s + 1)%Z s) w in
  let elapsed := (Date_now w - startTime (sim w))%Z in
  let w := on_sim (fun s => set_previousSensors (sensors s) s) w in
  manageScenarios random elapsed w.

(** A sequence of draws, constant at one half. *)
Definition half (_ : nat) : Q := 0.5.

(** The kind chosen when [Math.random()] returns [r]. *)
Definition kind_drawn (r : Q) : SCENARIOS :=
  ActiveScenario.type
    (activeScenario (sim (startRandomScenario (fun _ => r) (boot 0)))).

(** The share of a kind among the draws 0.00, 0.01, ..., 0.99. *)
Definition share (kind : SCENARIOS) : Q :=
  let draws := map (fun k => inject_Z (Z.of_nat k) / 100) (seq 0 100) in
  inject_Z
    (Z.of_nat
       (List.length
          (filter (fun r => SCENARIOS_eqb (kind_drawn r) kind) draws)))
  / 100.

(** ** Definitions for the further properties of the engine *)

(** [Math.random()] returns values in [0,1). *)
Definition unit_draws (random : nat -> Q) : Prop :=
  forall k, 0 <= random k /\ random k < 1.

Definition clamp (lo hi v : Q) : Q := Qmax lo (Qmin hi v).

(** The battery that feeds the line, and the one at rest. *)
Definition activeBattery (s : FactorySimulation) : Q :=
  if backupPower s then backupBatteryLevel s else mainBatteryLevel s.

Definition inactiveBattery (s : FactorySimulation) : Q :=
  if backupPower s then mainBatteryLevel s else backupBatteryLevel s.

(** A scenario of kind [kind] is under way. *)
Definition running (kind : SCENARIOS) (s : FactorySimulation) : Prop :=
  ActiveScenario.active (activeScenario s) = true
  /\ ActiveScenario.type (activeScenario s) = kind.

Definition batteries_in_range (s : FactorySimulation) : Prop :=
  batteryRechargeRate s = 2
  /\ (0 <= mainBatteryLevel s /\ mainBatteryLevel s <= 100)
  /\ (0 <= backupBatteryLevel s /\ backupBatteryLevel s <= 100).

(** Handles are handed out in increasing order: those of the pending
    timers lie below the next one. *)
Definition fresh_handles (w : World) : Prop :=
  forall t, In t (timers w) -> (handle t < nextHandle w)%nat.

(** The conditions under which the scenario check of a tick starts a
    scenario. *)
Definition start_conditions (w : World) : Prop :=
  (SIMULATION.STARTUP_STABLE_DURATION <= clock w - startTime (sim w))%Z
  /\ state (sim w) <> PAUSED
  /\ scenarioScheduled (sim w) = false
  /\ (SIMULATION.SCENARIO_DELAY <= clock w - lastScenarioEndTime (sim w))%Z.

(** The history entry that a tick ending in world [w] records. *)
Definition reading (w : World) : HistoryEntry.t :=
  {| HistoryEntry.time := clock w;
     HistoryEntry.power := power (sensors (sim w));
     HistoryEntry.pressure := pressure (sensors (sim w));
     HistoryEntry.temperature := temperature (sensors (sim w));
     HistoryEntry.stability := stability (sim w);
     HistoryEntry.state := state (sim w) |}.

(** *** Footprints

    A world with the fields written by the sensor update blanked, and
    likewise for the scenario check and the state update: two worlds
    with the same blanked form differ in those fields only. *)
Definition blank_sensor_update (w : World) : World :=
  set_drawn 0
    (on_sim (fun s =>
       set_sensors {| power := 0; pressure := 0; temperature := 0 |}
         (set_mainBatteryLevel 0 (set_backupBatteryLevel 0 s))) w).

Definition blank_scenario_check (w : World) : World :=
  set_drawn 0
    (on_sim (fun s =>
       set_activeScenario
         {| ActiveScenario.type := NONE; ActiveScenario.active := false;
            ActiveScenario.tickCount := 0; ActiveScenario.duration := None |}
         (set_stableTickCount 0 s)) w).

Definition blank_state_update (s : FactorySimulation) : FactorySimulation :=
  set_state NORMAL (set_stableTickCount 0 s).

(** The scenario that [updateSensors] acts on: [None] for [null]. *)
Definition current_scenario (s : FactorySimulation) : option SCENARIOS :=
  if ActiveScenario.active (activeScenario s)
  then Some (ActiveScenario.type (activeScenario s))
  else None.

(** The fields of the power domain. *)
Definition power_supply (s : FactorySimulation) : bool * Q * Q * Q :=
  (backupPower s, batteryRechargeRate s, mainBatteryLevel s,
   backupBatteryLevel s).

(** The world of a tick once sensors, score and state are updated. *)
Definition tick_scored (random : nat -> Q) (w : World) : World :=
  on_sim updateState
    (on_sim calculateStability
       (updateSensors random (tick_scenario_check random w))).

(** What the scenario check, the sensor update and the scoring of a tick
    do not write, except for [previousSensors]. *)
Definition ledger (w : World)
  : Z * list Timer * nat * list Telemetry.t * list HistoryEntry.t * Sensors :=
  (clock w, timers w, nextHandle w, dispatched w, sensorHistory (sim w),
   previousSensors (sim w)).

(** The action names that [executeAction] knows. *)
Definition known_actions : list string :=
  [ACTIONS.SWITCH_BACKUP_POWER; ACTIONS.INCREASE_PRESSURE;
   ACTIONS.DECREASE_PRESSURE; ACTIONS.INCREASE_COOLING;
   ACTIONS.PAUSE_LINE; ACTIONS.RESUME_LINE].


(** No two pending timers share a handle, and a handle is never handed
    out twice. *)
Definition unique_handles (w : World) : Prop :=
  NoDup (map handle (timers w)) /\ fresh_handles w.

(** A timer that will start the next scenario is pending. *)
Definition start_pending (w : World) : Prop :=
  exists t, In t (timers w) /\ callback t = NextScenarioCb
            /\ period t = None.

(** Such a timer is pending under a handle other than [h]. *)
Definition start_pending_besides (h : nat) (w : World) : Prop :=
  exists t, In t (timers w) /\ callback t = NextScenarioCb
            /\ period t = None /\ handle t <> h.

(** While [scenarioScheduled] holds the ticks back from starting a
    scenario, a timer that will start one is pending. *)
Definition scheduled_start_pending (w : World) : Prop :=
  scenarioScheduled (sim w) = true -> start_pending w.
(** ** The classes around the engine

    The parts of [ChartsManager] ([src/unnamed/part_001]), [FactoryApp]
    ([src/unnamed/part_000]), [AIIntegration]
    ([src/js/ai-integration.js]) and [SceneManager] ([src/js/scene.js])
    that compute on telemetry; what they draw on the page or in the
    scene is left out. *)

(** *** More of [CONFIG]: [CONFIG.ROBOT], [CONFIG.CONVEYOR],
    [CONFIG.COLORS] *)

Module ROBOT.
Definition SPEED_NORMAL : Q := 1.0.
Definition SPEED_DEGRADED : Q := 0.8.
Definition SPEED_CRITICAL : Q := 0.0.
Definition SPEED_PAUSED : Q := 0.0.
End ROBOT.

Module CONVEYOR.
Definition SPEED_NORMAL : Q := 0.02.
Definition SPEED_DEGRADED : Q := 0.015.
Definition ITEM_SPACING : Q := 2.0.
End CONVEYOR.

Module COLORS.
Definition NORMAL : string := "#7dd3c0".
Definition DEGRADED : string := "#d4a574".
Definition CRITICAL : string := "#d4847a".
Definition PAUSED : string := "#9ca3af".
End COLORS.

(** [CONFIG.COLORS[state]] *)
Definition COLORS_of (st : STATES) : string :=
  match st with
  | NORMAL => COLORS.NORMAL
  | DEGRADED => COLORS.DEGRADED
  | CRITICAL => COLORS.CRITICAL
  | PAUSED => COLORS.PAUSED
  end.

(** [CONFIG.SENSORS.POWER] and [CONFIG.SENSORS.PRESSURE] have no
    [CRITICAL_HIGH] and no [WARNING_HIGH] key: reading one gives
    [undefined], here [None]. *)
Definition CRITICAL_HIGH (config : LowSide) : option Q := None.
Definition WARNING_HIGH (config : LowSide) : option Q := None.

(** [value >= x] where [x] may be [undefined]: a comparison with
    [undefined] is false. *)
Definition Number_ge (value : Q) (x : option Q) : bool :=
  match x with
  | Some y => Qge_bool value y
  | None => false
  end.

(** [x.toFixed(0)] for a rational [x]: the nearest integer, a tie going
    away from zero, in decimal, with the sign of [x]. *)
Definition Number_toFixed0 (x : Q) : string :=
  let n := Qfloor (Qabs x + 0.5) in
  ((if Qlt_bool x 0 then "-" else "")
   ++ NilZero.string_of_uint (N.to_uint (Z.to_N n)))%string.

(** *** [ChartsManager] *)

Module ChartsManager.

Record t : Type :=
  { labels : list string;
    dataPoints_power : list Q;
    dataPoints_pressure : list Q;
    dataPoints_temperature : list Q;
    maxDataPoints : nat }.

Definition new : t :=
  {| labels := []; dataPoints_power := []; dataPoints_pressure := [];
     dataPoints_temperature := [];
     maxDataPoints := CHARTS.MAX_DATA_POINTS |}.

(** The data part of [update]; [toLocaleTimeString] is the rendering of
    a time stamp by the browser. *)
Definition update (toLocaleTimeString : Z -> string)
           (telemetry : Telemetry.t) (c : t) : t :=
  let timeLabel := toLocaleTimeString (Telemetry.timestamp telemetry) in
  let c :=
    {| labels := labels c ++ [timeLabel];
       dataPoints_power :=
         dataPoints_power c ++ [power (Telemetry.sensors telemetry)];
       dataPoints_pressure :=
         dataPoints_pressure c ++ [pressure (Telemetry.sensors telemetry)];
       dataPoints_temperature :=
         dataPoints_temperature c
         ++ [temperature (Telemetry.sensors telemetry)];
       maxDataPoints := maxDataPoints c |} in
  if (maxDataPoints c <? List.length (labels c))%nat then
    {| labels := tl (labels c);
       dataPoints_power := tl (dataPoints_power c);
       dataPoints_pressure := tl (dataPoints_pressure c);
       dataPoints_temperature := tl (dataPoints_temperature c);
       maxDataPoints := maxDataPoints c |}
  else c.

Definition getStatusClass (sensorName : SensorName) (value : Q)
  : SensorStatus :=
  match sensorName with
  | K_temperature =>
      let config := SENSORS.TEMPERATURE in
      if Qge_bool value (CRITICAL_THRESHOLD config) then critical
      else if Qge_bool value (WARNING_THRESHOLD config) then warning
      else normal
  | _ =>
      let config := match sensorName with
                    | K_pressure => SENSORS.PRESSURE
                    | _ => SENSORS.POWER
                    end in
      if Qle_bool value (CRITICAL_LOW config)
         || Number_ge value (CRITICAL_HIGH config) then critical
      else if Qle_bool value (WARNING_LOW config)
              || Number_ge value (WARNING_HIGH config) then warning
      else normal
  end.

End ChartsManager.

(** *** [FactoryApp] *)

Module FactoryApp.

Definition getStabilityColor (stability : Q) : string :=
  if Qge_bool stability STABILITY.THRESHOLD_NORMAL then COLORS.NORMAL
  else if Qge_bool stability STABILITY.THRESHOLD_DEGRADED
  then COLORS.DEGRADED
  else COLORS.CRITICAL.

End FactoryApp.

(** *** [AIIntegration] *)

Module AIIntegration.

Inductive Status : Type := NOMINAL | WARNING | CRITICAL.

Definition Status_eqb (a b : Status) : bool :=
  match a, b with
  | NOMINAL, NOMINAL | WARNING, WARNING | CRITICAL, CRITICAL => true
  | _, _ => false
  end.

Definition Status_name (a : Status) : string :=
  match a with
  | NOMINAL => "NOMINAL"
  | WARNING => "WARNING"
  | CRITICAL => "CRITICAL"
  end.

Definition getSensorStatus (sensorName : SensorName) (value : Q) : Status :=
  match sensorName with
  | K_temperature =>
      let config := SENSORS.TEMPERATURE in
      if Qge_bool value (CRITICAL_THRESHOLD config) then CRITICAL
      else if Qge_bool value (WARNING_THRESHOLD config) then WARNING
      else NOMINAL
  | _ =>
      let config := match sensorName with
                    | K_pressure => SENSORS.PRESSURE
                    | _ => SENSORS.POWER
                    end in
      if Qle_bool value (CRITICAL_LOW config) then CRITICAL
      else if Qle_bool value (WARNING_LOW config) then WARNING
      else NOMINAL
  end.

(** The argument of [spacesInstance.sendMessage]. *)
Record Message : Type :=
  { text : string; triggerResponse : bool; role : string }.

Module LastSensorStatus.
Record t : Type := { power : Status; pressure : Status; temperature : Status }.
End LastSensorStatus.

(** The fields that [sendTelemetry] reads and writes.  The SDK instance
    is [None] for [null] and otherwise holds the messages sent to it,
    oldest first. *)
Record t : Type :=
  { spacesInstance : option (list Message);
    telemetrySendCount : Z;
    minTelemetryBeforeAlert : Z;
    lastState : STATES;
    lastStability : Q;
    lastSensorStatus : LastSensorStatus.t }.

(** The fields as the constructor leaves them, with an SDK instance or
    without. *)
Definition new (instance : option (list Message)) : t :=
  {| spacesInstance := instance;
     telemetrySendCount := 0;
     minTelemetryBeforeAlert := 5;
     lastState := NORMAL;
     lastStability := 100;
     lastSensorStatus :=
       {| LastSensorStatus.power := NOMINAL;
          LastSensorStatus.pressure := NOMINAL;
          LastSensorStatus.temperature := NOMINAL |} |}.

(** One entry of the array [sensors] of [sendTelemetry]; [fix_] is its
    property [fix]. *)
Module SensorView.
Record t : Type :=
  { name : string; value : Q; unit : string; status : Status;
    fix_ : string; changed : bool; lastStatus : Status }.
End SensorView.

(** The message for a sensor, if the loop of [sendTelemetry] sends one
    for it. *)
Definition alert_for (sensor : SensorView.t) : option Message :=
  let isAlert := negb (Status_eqb (SensorView.status sensor) NOMINAL) in
  let wasAlert :=
    negb (Status_eqb (SensorView.lastStatus sensor) NOMINAL) in
  let recoveredToNominal :=
    SensorView.changed sensor && negb isAlert && wasAlert in
  let shouldAlert :=
    SensorView.changed sensor && (isAlert || recoveredToNominal) in
  if shouldAlert then
    let message :=
      (if recoveredToNominal then
         "✅ " ++ SensorView.name sensor ++ ": "
         ++ Number_toFixed0 (SensorView.value sensor)
         ++ SensorView.unit sensor ++ " has returned to NOMINAL."
       else
         "⚠️ " ++ SensorView.name sensor ++ ": "
         ++ Number_toFixed0 (SensorView.value sensor)
         ++ SensorView.unit sensor ++ " is "
         ++ Status_name (SensorView.status sensor) ++ ". Recommend: "
         ++ SensorView.fix_ sensor ++ ".")%string in
    Some {| text := message; triggerResponse := true; role := "user" |}
  else None.

(** The loop over [sensors]: it stops at the first message sent. *)
Fixpoint first_alert (sensors : list SensorView.t) : option Message :=
  match sensors with
  | [] => None
  | sensor :: rest =>
      match alert_for sensor with
      | Some m => Some m
      | None => first_alert rest
      end
  end.

(** [sendTelemetry], reading the engine through
    [getTelemetrySnapshot]. *)
Definition sendTelemetry (w : World) (ai : t) : t :=
  match spacesInstance ai with
  | None => ai
  | Some sent =>
      let count := (telemetrySendCount ai + 1)%Z in
      let telemetry := getTelemetrySnapshot w in
      let isStartupPhase := (count <=? minTelemetryBeforeAlert ai)%Z in
      if isStartupPhase then
        {| spacesInstance := Some sent;
           telemetrySendCount := count;
           minTelemetryBeforeAlert := minTelemetryBeforeAlert ai;
           lastState := Telemetry.state telemetry;
           lastStability := Telemetry.stability telemetry;
           lastSensorStatus := lastSensorStatus ai |}
      else
        let power := power (Telemetry.sensors telemetry) in
        let pressure := pressure (Telemetry.sensors telemetry) in
        let temp := temperature (Telemetry.sensors telemetry) in
        let powerStatus := getSensorStatus K_power power in
        let pressureStatus := getSensorStatus K_pressure pressure in
        let tempStatus := getSensorStatus K_temperature temp in
        let last := lastSensorStatus ai in
        let powerChanged :=
          negb (Status_eqb powerStatus (LastSensorStatus.power last)) in
        let pressureChanged :=
          negb (Status_eqb pressureStatus
                           (LastSensorStatus.pressure last)) in
        let tempChanged :=
          negb (Status_eqb tempStatus
                           (LastSensorStatus.temperature last)) in
        let sensors :=
          [ {| SensorView.name := "POWER"; SensorView.value := power;
               SensorView.unit := "kW"; SensorView.status := powerStatus;
               SensorView.fix_ := "switch to backup power";
               SensorView.changed := powerChanged;
               SensorView.lastStatus := LastSensorStatus.power last |};
            {| SensorView.name := "PRESSURE"; SensorView.value := pressure;
               SensorView.unit := "bar";
               SensorView.status := pressureStatus;
               SensorView.fix_ := "increase pressure";
               SensorView.changed := pressureChanged;
               SensorView.lastStatus := LastSensorStatus.pressure last |};
            {| SensorView.name := "TEMPERATURE"; SensorView.value := temp;
               SensorView.unit := "°C"; SensorView.status := tempStatus;
               SensorView.fix_ := "increase cooling";
               SensorView.changed := tempChanged;
               SensorView.lastStatus :=
                 LastSensorStatus.temperature last |} ] in
        let sent :=
          match first_alert sensors with
          | Some m => sent ++ [m]
          | None => sent
          end in
        {| spacesInstance := Some sent;
           telemetrySendCount := count;
           minTelemetryBeforeAlert := minTelemetryBeforeAlert ai;
           lastState := Telemetry.state telemetry;
           lastStability := Telemetry.stability telemetry;
           lastSensorStatus :=
             {| LastSensorStatus.power := powerStatus;
                LastSensorStatus.pressure := pressureStatus;
                LastSensorStatus.temperature := tempStatus |} |}
  end.

(** The messages sent so far. *)
Definition sent_messages (ai : t) : list Message :=
  match spacesInstance ai with
  | Some sent => sent
  | None => []
  end.

End AIIntegration.

(** *** [SceneManager] *)

Module SceneManager.

(** A work piece on the conveyor: [position.x] and
    [userData.welded]. *)
Module Item.
Record t : Type := { x : Q; welded : bool }.
End Item.

(** The status of one of the four cabinet lights. *)
Inductive LightStatus : Type := nominal | warning | critical.

Module Light.
Record t : Type := { status : LightStatus; blinkOn : bool }.
End Light.

Module StatusLightStates.
Record t : Type :=
  { mainBattery : Light.t; backupBattery : Light.t;
    oilBarrel : Light.t; pressureTank : Light.t }.
End StatusLightStates.

(** The argument of [updateStatusLights]; a property may be
    [undefined]. *)
Module SensorData.
Record t : Type :=
  { powerLevel : option Q; backupLevel : option Q;
    oilTemp : option Q; pressure : option Q }.
End SensorData.

(** The fields that drive the conveyor and the cabinet lights. *)
Record t : Type :=
  { items : list Item.t;
    animationSpeed : Q;
    conveyorSpeed : Q;
    state : STATES;
    isWelding : bool;
    weldZone : Q;
    statusLightStates : option StatusLightStates.t }.

Definition new : t :=
  {| items := [];
     animationSpeed := ROBOT.SPEED_NORMAL;
     conveyorSpeed := CONVEYOR.SPEED_NORMAL;
     state := NORMAL;
     isWelding := false;
     weldZone := 2;
     statusLightStates := None |}.

Definition set_items (v : list Item.t) (sm : t) : t :=
  {| items := v; animationSpeed := animationSpeed sm;
     conveyorSpeed := conveyorSpeed sm; state := state sm;
     isWelding := isWelding sm; weldZone := weldZone sm;
     statusLightStates := statusLightStates sm |}.

(** [updateState(newState)]: the speeds that go with a state. *)
Definition updateState (newState : STATES) (sm : t) : t :=
  let speeds :=
    match newState with
    | NORMAL => (ROBOT.SPEED_NORMAL, CONVEYOR.SPEED_NORMAL)
    | DEGRADED => (ROBOT.SPEED_DEGRADED, CONVEYOR.SPEED_DEGRADED)
    | CRITICAL => (ROBOT.SPEED_CRITICAL, 0)
    | PAUSED => (ROBOT.SPEED_PAUSED, 0)
    end in
  {| items := items sm; animationSpeed := fst speeds;
     conveyorSpeed := snd speeds; state := newState;
     isWelding := isWelding sm; weldZone := weldZone sm;
     statusLightStates := statusLightStates sm |}.

(** A new work piece enters at x = -4, not welded. *)
Definition spawnItem (sm : t) : t :=
  set_items (items sm ++ [{| Item.x := -4; Item.welded := false |}]) sm.

(** The loop of [updateItems] runs from the last item to the first,
    moving each item and removing it once past x = 4.5. *)
Definition moveItems (movement : Q) (its : list Item.t) : list Item.t :=
  fold_right
    (fun item kept =>
       let item := {| Item.x := Item.x item + movement;
                      Item.welded := Item.welded item |} in
       if Qgt_bool (Item.x item) 4.5 then kept else item :: kept)
    [] its.

(** [canSpawn]: no item is closer to the spawn point than the
    spacing. *)
Fixpoint canSpawn (spawnX spacing : Q) (its : list Item.t) : bool :=
  match its with
  | [] => true
  | item :: rest =>
      if Qlt_bool (Item.x item) (spawnX + spacing) then false
      else canSpawn spawnX spacing rest
  end.

Definition updateItems (sm : t) : t :=
  let movement := if isWelding sm then 0 else conveyorSpeed sm in
  let sm := set_items (moveItems movement (items sm)) sm in
  if negb (isWelding sm)
     && negb (STATES_eqb (state sm) PAUSED)
     && negb (STATES_eqb (state sm) CRITICAL)
  then
    let spawnX := -4 in
    let spacing := CONVEYOR.ITEM_SPACING in
    if canSpawn spawnX spacing (items sm) then spawnItem sm else sm
  else sm.

(** The first item, in array order, that is not welded and lies in the
    welding zone; [None] for [null]. *)
Definition findItemToWeld (sm : t) : option Item.t :=
  find (fun item =>
          negb (Item.welded item)
          && Qlt_bool (Qabs (Item.x item - weldZone sm)) 0.3)
       (items sm).

(** [Math.pow(x, 2)] is [x * x]. *)
Definition easeInOutQuad (t : Q) : Q :=
  if Qlt_bool t 0.5 then 2 * t * t
  else 1 - ((-2 * t + 2) * (-2 * t + 2)) / 2.

(** The status of a battery light and of the oil and pressure lights,
    from a reading. *)
Definition batteryLight (level : Q) : LightStatus :=
  if Qgt_bool level 50 then nominal
  else if Qgt_bool level 25 then warning
  else critical.

Definition oilLight (oilTemp : Q) : LightStatus :=
  if Qlt_bool oilTemp 75 then nominal
  else if Qlt_bool oilTemp 85 then warning
  else critical.

Definition pressureLight (pressure : Q) : LightStatus :=
  if Qgt_bool pressure 135 then nominal
  else if Qgt_bool pressure 125 then warning
  else critical.

Definition with_status (st : option LightStatus) (l : Light.t) : Light.t :=
  match st with
  | Some s => {| Light.status := s; Light.blinkOn := Light.blinkOn l |}
  | None => l
  end.

(** [updateStatusLights(sensorData)]: the states are created on first
    use, all nominal; a light whose reading is [undefined] keeps its
    status. *)
Definition updateStatusLights (sensorData : SensorData.t) (sm : t) : t :=
  let fresh := {| Light.status := nominal; Light.blinkOn := true |} in
  let states :=
    match statusLightStates sm with
    | Some s => s
    | None =>
        {| StatusLightStates.mainBattery := fresh;
           StatusLightStates.backupBattery := fresh;
           StatusLightStates.oilBarrel := fresh;
           StatusLightStates.pressureTank := fresh |}
    end in
  let states :=
    {| StatusLightStates.mainBattery :=
         with_status (option_map batteryLight
                        (SensorData.powerLevel sensorData))
                     (StatusLightStates.mainBattery states);
       StatusLightStates.backupBattery :=
         with_status (option_map batteryLight
                        (SensorData.backupLevel sensorData))
                     (StatusLightStates.backupBattery states);
       StatusLightStates.oilBarrel :=
         with_status (option_map oilLight (SensorData.oilTemp sensorData))
                     (StatusLightStates.oilBarrel states);
       StatusLightStates.pressureTank :=
         with_status (option_map pressureLight
                        (SensorData.pressure sensorData))
                     (StatusLightStates.pressureTank states) |} in
  {| items := items sm; animationSpeed := animationSpeed sm;
     conveyorSpeed := conveyorSpeed sm; state := state sm;
     isWelding := isWelding sm; weldZone := weldZone sm;
     statusLightStates := Some states |}.

(** The reading that the listener of [FactoryApp.setupEventListeners]
    hands to [updateStatusLights]. *)
Definition lights_input (telemetry : Telemetry.t) : SensorData.t :=
  {| SensorData.powerLevel := Some (Telemetry.mainBatteryLevel telemetry);
     SensorData.backupLevel :=
       Some (Telemetry.backupBatteryLevel telemetry);
     SensorData.oilTemp :=
       Some (temperature (Telemetry.sensors telemetry));
     SensorData.pressure :=
       Some (pressure (Telemetry.sensors telemetry)) |}.

End SceneManager.

(** *** Definitions for the statements about these classes *)

(** Each item is at least [gap] ahead of every item after it in the
    array. *)
Fixpoint spaced (gap : Q) (its : list SceneManager.Item.t) : Prop :=
  match its with
  | [] => True
  | a :: rest =>
      Forall (fun b => SceneManager.Item.x b + gap
                       <= SceneManager.Item.x a) rest
      /\ spaced gap rest
  end.

(** The names of the light statuses and of the engine's sensor statuses
    correspond. *)
Definition light_of (st : SensorStatus) : SceneManager.LightStatus :=
  match st with
  | normal => SceneManager.nominal
  | warning => SceneManager.warning
  | critical => SceneManager.critical
  end.

Definition ai_status_of (st : SensorStatus) : AIIntegration.Status :=
  match st with
  | normal => AIIntegration.NOMINAL
  | warning => AIIntegration.WARNING
  | critical => AIIntegration.CRITICAL
  end.

(** The current statuses of the three channels, as [sendTelemetry]
    computes them. *)
Definition ai_statuses (w : World) : AIIntegration.LastSensorStatus.t :=
  {| AIIntegration.LastSensorStatus.power :=
       AIIntegration.getSensorStatus K_power (power (sensors (sim w)));
     AIIntegration.LastSensorStatus.pressure :=
       AIIntegration.getSensorStatus K_pressure
         (pressure (sensors (sim w)));
     AIIntegration.LastSensorStatus.temperature :=
       AIIntegration.getSensorStatus K_temperature
         (temperature (sensors (sim w))) |}.

(** The four series of the charts have the same number of points. *)
Definition in_sync (c : ChartsManager.t) : Prop :=
  List.length (ChartsManager.dataPoints_power c)
  = List.length (ChartsManager.labels c)
  /\ List.length (ChartsManager.dataPoints_pressure c)
     = List.length (ChartsManager.labels c)
  /\ List.length (ChartsManager.dataPoints_temperature c)
     = List.length (ChartsManager.labels c).

(** Two lists of items with the same places and weld marks. *)
Definition same_items (l l' : list SceneManager.Item.t) : Prop :=
  Forall2 (fun a b =>
             SceneManager.Item.x a == SceneManager.Item.x b
             /\ SceneManager.Item.welded a = SceneManager.Item.welded b)
          l l'.

(** An item lies in the welding zone. *)
Definition in_weld_zone (sm : SceneManager.t) (a : SceneManager.Item.t)
  : Prop :=
  Qabs (SceneManager.Item.x a - SceneManager.weldZone sm) < 0.3.


(** The first channel, in the order power, pressure, temperature, whose
    status differs from the recorded one. *)
Definition first_changed (last now : AIIntegration.LastSensorStatus.t)
  : option SensorName :=
  if negb (AIIntegration.Status_eqb
             (AIIntegration.LastSensorStatus.power now)
             (AIIntegration.LastSensorStatus.power last))
  then Some K_power
  else if negb (AIIntegration.Status_eqb
                  (AIIntegration.LastSensorStatus.pressure now)
                  (AIIntegration.LastSensorStatus.pressure last))
  then Some K_pressure
  else if negb (AIIntegration.Status_eqb
                  (AIIntegration.LastSensorStatus.temperature now)
                  (AIIntegration.LastSensorStatus.temperature last))
  then Some K_temperature
  else None.

(** The name, the unit and the recommended action under which
    [sendTelemetry] reports a channel. *)
Definition reported_as (k : SensorName) : string * string * string :=
  match k with
  | K_power => ("POWER", "kW", "switch to backup power")
  | K_pressure => ("PRESSURE", "bar", "increase pressure")
  | K_temperature => ("TEMPERATURE", "°C", "increase cooling")
  end%string.

(** The message about channel [k] in world [w]: a recovery notice when
    the channel is nominal, an alert with the recommended action
    otherwise. *)
Definition announcement (k : SensorName) (w : World)
  : AIIntegration.Message :=
  let value := sensor_get (sensors (sim w)) k in
  let status := AIIntegration.getSensorStatus k value in
  let '(name, unit, fix_) := reported_as k in
  {| AIIntegration.text :=
       (if AIIntegration.Status_eqb status AIIntegration.NOMINAL
        then "✅ " ++ name ++ ": " ++ Number_toFixed0 value ++ unit
             ++ " has returned to NOMINAL."
        else "⚠️ " ++ name ++ ": " ++ Number_toFixed0 value ++ unit
             ++ " is " ++ AIIntegration.Status_name status
             ++ ". Recommend: " ++ fix_ ++ ".")%string;
     AIIntegration.triggerResponse := true;
     AIIntegration.role := "user" |}.

(** ** Basic facts *)

Lemma Qlt_bool_iff (x y : Q) : Qlt_bool x y = true <-> x < y.
Proof.
  unfold Qlt_bool. rewrite negb_true_iff.
  split; intro H.
  - apply Qnot_le_lt. intro L. apply Qle_bool_iff in L. congruence.
  - destruct (Qle_bool y x) eqn:E; trivial.
    apply Qle_bool_iff in E. apply Qle_not_lt in E. contradiction.
Qed.

Lemma Qle_bool_false_iff (x y : Q) : Qle_bool x y = false <-> y < x.
Proof.
  rewrite <- Qlt_bool_iff. unfold Qlt_bool.
  now rewrite negb_true_iff.
Qed.

Lemma Qlt_bool_false_iff (x y : Q) : Qlt_bool x y = false <-> y <= x.
Proof.
  unfold Qlt_bool. rewrite negb_false_iff. apply Qle_bool_iff.
Qed.

Lemma clamp_bounds (lo hi x : Q) :
  lo <= hi -> lo <= Qmax lo (Qmin hi x) /\ Qmax lo (Qmin hi x) <= hi.
Proof.
  intro H. split.
  - apply Q.le_max_l.
  - apply Q.max_lub; [exact H | apply Q.le_min_l].
Qed.

(** ** Proof automation *)

(** Boolean comparisons in the hypotheses, as propositions. *)
Ltac qbool :=
  repeat match goal with
    | H : Qle_bool _ _ = true |- _ => apply Qle_bool_iff in H
    | H : Qle_bool _ _ = false |- _ => apply Qle_bool_false_iff in H
    | H : Qlt_bool _ _ = true |- _ => apply Qlt_bool_iff in H
    | H : Qlt_bool _ _ = false |- _ => apply Qlt_bool_false_iff in H
    end.

(** Case analysis on every test made on a value that is not bound
    inside the goal. *)
Ltac reduce_draws := cbv beta iota zeta delta [Math_random fst snd].

Ltac open_tests :=
  reduce_draws;
  repeat (match goal with
          | |- context [if ?b then _ else _] => destruct b eqn:?
          | |- context [match ?x with Some _ => _ | None => _ end] =>
              destruct x eqn:?
          | |- context [match ?x with NONE => _ | _ => _ end] =>
              destruct x eqn:?
          end; reduce_draws).

Section Properties.

Variable random : nat -> Q.

Lemma sim_on_sim f w : sim (on_sim f w) = f (sim w).
Proof. reflexivity. Qed.

(** *** Hard ranges *)

Lemma clampSensors_ranges s : within_hard_ranges (sensors (clampSensors s)).
Proof.
  unfold within_hard_ranges, clampSensors; cbn.
  repeat split;
    first [ apply Q.le_max_l
          | apply Q.max_lub; [ discriminate | apply Q.le_min_l ] ].
Qed.

Lemma updateSensors_ranges w :
  within_hard_ranges (sensors (sim (updateSensors random w))).
Proof.
  unfold updateSensors. rewrite sim_on_sim. apply clampSensors_ranges.
Qed.

Lemma sensors_calculateStability s :
  sensors (calculateStability s) = sensors s.
Proof. reflexivity. Qed.

Lemma sensors_updateState s : sensors (updateState s) = sensors s.
Proof.
  unfold updateState.
  destruct (STATES_eqb (state s) PAUSED); trivial.
  destruct (Qge_bool (stability s) STABILITY.THRESHOLD_NORMAL); trivial.
  destruct (Qge_bool (stability s) STABILITY.THRESHOLD_DEGRADED); trivial.
Qed.

Lemma checkAutoStop_disabled w : checkAutoStop w = w.
Proof. reflexivity. Qed.

Lemma sim_recordHistory w :
  exists h, sim (recordHistory w) = set_sensorHistory h (sim w).
Proof.
  unfold recordHistory. cbv zeta.
  match goal with |- context [if ?b then _ else _] => destruct b end;
    eexists; reflexivity.
Qed.

Lemma sim_emitTelemetry w : sim (emitTelemetry w) = sim w.
Proof. reflexivity. Qed.

(** What a tick leaves in the fields other than the history is decided
    by the scenario check, the sensor update, the score and the state
    update. *)
Lemma sim_tick w :
  exists h,
    sim (tick random w)
    = set_sensorHistory h
        (updateState
           (calculateStability
              (sim (updateSensors random (tick_scenario_check random w))))).
Proof.
  unfold tick. cbv zeta. rewrite sim_emitTelemetry, checkAutoStop_disabled.
  match goal with |- context [recordHistory ?x] =>
    destruct (sim_recordHistory x) as [h Hh] end.
  rewrite Hh. exists h. reflexivity.
Qed.

Lemma sensors_set_sensorHistory h s :
  sensors (set_sensorHistory h s) = sensors s.
Proof. reflexivity. Qed.

(** C1. After the sensor update of a tick, and so after the tick, power
    lies in [0,100], pressure in [100,200] and temperature in [20,120],
    whatever scenario is active and whatever values [Math.random()]
    returned. *)
Theorem sensors_clamped_after_update w :
  within_hard_ranges (sensors (sim (updateSensors random w)))
  /\ within_hard_ranges (sensors (sim (tick random w))).
Proof.
  split.
  - apply updateSensors_ranges.
  - destruct (sim_tick w) as (h & E). rewrite E.
    rewrite sensors_set_sensorHistory.
    rewrite sensors_updateState, sensors_calculateStability.
    apply updateSensors_ranges.
Qed.

(** *** Stability score *)

Lemma getSensorStatus_classify s k :
  getSensorStatus s k = classify_spec k (sensor_get (sensors s) k).
Proof.
  unfold getSensorStatus, classify_spec, Qge_bool.
  destruct k; simpl;
    repeat match goal with
      | |- context [Qle_bool ?a ?b] => destruct (Qle_bool a b) eqn:?
      | |- context [Qlt_le_dec ?a ?b] => destruct (Qlt_le_dec a b)
      end;
    qbool; trivial; exfalso; lra.
Qed.

Lemma moving_away_code (x : Sensors) (prev : HistoryEntry.t) :
  (Qlt_bool (power x - HistoryEntry.power prev) 0
   && Qlt_bool (power x) (NOMINAL_MIN SENSORS.POWER))
  || (Qlt_bool (pressure x - HistoryEntry.pressure prev) 0
      && Qlt_bool (pressure x) (NOMINAL_MIN SENSORS.PRESSURE))
  || (Qgt_bool (temperature x - HistoryEntry.temperature prev) 0
      && Qgt_bool (temperature x) (NOMINAL_MAX SENSORS.TEMPERATURE))
  = moving_away x prev.
Proof.
  unfold moving_away, Qgt_bool. simpl.
  repeat match goal with
    | |- context [Qlt_bool ?a ?b] => destruct (Qlt_bool a b) eqn:?
    end;
  repeat match goal with
    | |- context [Qlt_le_dec ?a ?b] => destruct (Qlt_le_dec a b)
    end;
  qbool; trivial; exfalso; lra.
Qed.

(** The entry read at index [length - 1] is the head of the reversed
    history. *)
Lemma latest_entry (A : Type) (h : list A) :
  nth_error h (List.length h - 1) = hd_error (rev h).
Proof.
  destruct h as [|a h] using rev_ind; trivial.
  rewrite rev_app_distr, length_app. simpl.
  replace (List.length h + 1 - 1)%nat with (List.length h) by lia.
  rewrite nth_error_app2, Nat.sub_diag by lia. reflexivity.
Qed.

Lemma two_entries (A : Type) (h : list A) :
  (2 <=? List.length h)%nat = true
  <-> exists prev y rest, rev h = prev :: y :: rest.
Proof.
  rewrite Nat.leb_le, <- length_rev.
  destruct (rev h) as [|a [|b l]]; simpl; split; intro H;
    try lia; try (destruct H as (p & y & r & E); discriminate).
  now exists a, b, l.
Qed.

(** The trend penalty of [calculateStability], isolated: [worse prev]
    is the test made on the latest entry. *)
Lemma trend_penalty_code s (score : Q) (worse : HistoryEntry.t -> bool) :
  (if (2 <=? List.length (sensorHistory s))%nat then
     match nth_error (sensorHistory s)
                     (List.length (sensorHistory s) - 1) with
     | Some prev =>
         if worse prev then score - STABILITY.PENALTY_TREND else score
     | None => score
     end
   else score)
  = match rev (sensorHistory s) with
    | prev :: _ :: _ => if worse prev then score - 5 else score
    | _ => score
    end.
Proof.
  rewrite latest_entry.
  destruct (2 <=? List.length (sensorHistory s))%nat eqn:E.
  - apply two_entries in E. destruct E as (prev & y & rest & E).
    rewrite E. reflexivity.
  - destruct (rev (sensorHistory s)) as [|a [|b l]] eqn:R; trivial.
    assert (H : (2 <=? List.length (sensorHistory s))%nat = true)
      by (apply two_entries; eauto).
    congruence.
Qed.

Lemma calculateStability_score s :
  stability (calculateStability s) == stability_spec s.
Proof.
  unfold calculateStability, stability_spec, some_channel_is,
    trend_penalty_applies.
  cbv zeta. unfold existsb.
  rewrite !getSensorStatus_classify.
  change (stability (set_stability ?v _)) with v.
  rewrite trend_penalty_code.
  change (sensor_get (sensors s) K_power) with (power (sensors s)).
  change (sensor_get (sensors s) K_pressure) with (pressure (sensors s)).
  change (sensor_get (sensors s) K_temperature)
    with (temperature (sensors s)).
  destruct (rev (sensorHistory s)) as [|prev [|y rest]];
    try rewrite moving_away_code;
    destruct (classify_spec K_power (power (sensors s)));
    destruct (classify_spec K_pressure (pressure (sensors s)));
    destruct (classify_spec K_temperature (temperature (sensors s)));
    try destruct (moving_away (sensors s) prev); reflexivity.
Qed.

(** C2. The score left by [calculateStability] is 100, minus 10 when
    some channel classifies warning, minus 25 when some channel
    classifies critical, minus 5 when the history has at least two
    entries and some channel moves further from nominal, clamped to
    [0,100]; the classification judges temperature on the high side
    and power and pressure on the low side, against fixed
    thresholds. *)
Theorem calculateStability_meets_spec s :
  (forall k, getSensorStatus s k = classify_spec k (sensor_get (sensors s) k))
  /\ stability (calculateStability s) == stability_spec s
  /\ (0 <= stability (calculateStability s)
      /\ stability (calculateStability s) <= 100).
Proof.
  split; [| split].
  - intro k. apply getSensorStatus_classify.
  - apply calculateStability_score.
  - unfold calculateStability. cbv zeta.
    change (stability (set_stability ?v _)) with v.
    apply clamp_bounds. discriminate.
Qed.

(** Power in the warning band and temperature critical: both penalties
    apply, and the trend penalty joins them once the history shows
    power falling. *)
Example score_with_both_penalties :
  let s := assign_sensor K_temperature 90
             (assign_sensor K_power 36 (new_FactorySimulation 0)) in
  let entry p :=
    {| HistoryEntry.time := 0; HistoryEntry.power := p;
       HistoryEntry.pressure := 140; HistoryEntry.temperature := 90;
       HistoryEntry.stability := 100; HistoryEntry.state := NORMAL |} in
  stability (calculateStability s) == 65
  /\ stability (calculateStability
                  (set_sensorHistory [entry 42; entry 37] s)) == 60
  /\ stability (calculateStability (set_sensorHistory [entry 37] s)) == 65.
Proof. repeat split. Qed.

(** *** Operating state *)

Lemma line_control_rechargeBattery s :
  line_control (rechargeBattery s) = line_control s.
Proof. unfold rechargeBattery. open_tests; reflexivity. Qed.

Lemma line_control_perturbPower sc w :
  line_control (sim (perturbPower random sc w)) = line_control (sim w).
Proof.
  destruct sc as [[]|]; try reflexivity.
  unfold perturbPower. open_tests; reflexivity.
Qed.

Lemma line_control_perturbPressure sc w :
  line_control (sim (perturbPressure random sc w)) = line_control (sim w).
Proof. destruct sc as [[]|]; reflexivity. Qed.

Lemma line_control_perturbTemperature sc w :
  line_control (sim (perturbTemperature random sc w)) = line_control (sim w).
Proof. destruct sc as [[]|]; reflexivity. Qed.

Lemma line_control_fluctuate w :
  line_control (sim (fluctuate random w)) = line_control (sim w).
Proof. reflexivity. Qed.

Lemma line_control_clampSensors s :
  line_control (clampSensors s) = line_control s.
Proof. reflexivity. Qed.

Lemma line_control_updateSensors w :
  line_control (sim (updateSensors random w)) = line_control (sim w).
Proof.
  unfold updateSensors. cbv zeta.
  rewrite sim_on_sim, line_control_clampSensors, line_control_fluctuate,
    line_control_perturbTemperature, line_control_perturbPressure,
    line_control_perturbPower, sim_on_sim.
  apply line_control_rechargeBattery.
Qed.

Lemma state_updateSensors w :
  state (sim (updateSensors random w)) = state (sim w).
Proof. exact (f_equal fst (line_control_updateSensors w)). Qed.

Lemma activeScenario_updateSensors w :
  activeScenario (sim (updateSensors random w)) = activeScenario (sim w).
Proof. exact (f_equal snd (line_control_updateSensors w)). Qed.

Lemma state_manageScenarios elapsed w :
  state (sim (manageScenarios random elapsed w)) = state (sim w).
Proof. unfold manageScenarios. open_tests; reflexivity. Qed.

Lemma state_calculateStability s : state (calculateStability s) = state s.
Proof. reflexivity. Qed.

Lemma updateState_paused s : state s = PAUSED -> updateState s = s.
Proof. intro H. unfold updateState. now rewrite H. Qed.

Lemma state_tick_scenario_check w :
  state (sim (tick_scenario_check random w)) = state (sim w).
Proof.
  unfold tick_scenario_check. cbv zeta. now rewrite state_manageScenarios.
Qed.

Lemma state_set_sensorHistory h s :
  state (set_sensorHistory h s) = state s.
Proof. reflexivity. Qed.

Lemma state_tick_paused w :
  state (sim w) = PAUSED -> state (sim (tick random w)) = PAUSED.
Proof.
  intro H. destruct (sim_tick w) as (h & E). rewrite E.
  rewrite state_set_sensorHistory.
  assert (P : state (calculateStability
                       (sim (updateSensors random
                               (tick_scenario_check random w))))
              = PAUSED).
  { rewrite state_calculateStability, state_updateSensors,
      state_tick_scenario_check. exact H. }
  rewrite (updateState_paused _ P). exact P.
Qed.

Lemma updateState_not_paused s :
  state s <> PAUSED -> state (updateState s) = state_of_score (stability s).
Proof.
  intro H. unfold updateState, state_of_score, Qge_bool.
  destruct (STATES_eqb (state s) PAUSED) eqn:E.
  - destruct (state s); try discriminate. contradiction.
  - unfold STABILITY.THRESHOLD_NORMAL, STABILITY.THRESHOLD_DEGRADED.
    destruct (Qle_bool 86 (stability s)) eqn:E1;
      destruct (Qle_bool 71 (stability s)) eqn:E2;
      destruct (Qlt_le_dec (stability s) 71);
      destruct (Qlt_le_dec (stability s) 86);
      qbool; trivial; exfalso; lra.
Qed.

(** The per-tick part of the operating-state claim.  The update maps a
    score of at least 86 to NORMAL, a score from 71 up to but excluding
    86 to DEGRADED and a score below 71 to CRITICAL, unless the state is
    PAUSED, which it leaves alone together with every other field; a
    whole tick leaves PAUSED in place as well. *)
Theorem updateState_maps_score s :
  (state s = PAUSED -> updateState s = s)
  /\ (state s <> PAUSED ->
      (86 <= stability s -> state (updateState s) = NORMAL)
      /\ (71 <= stability s -> stability s < 86 ->
          state (updateState s) = DEGRADED)
      /\ (stability s < 71 -> state (updateState s) = CRITICAL))
  /\ (forall w, state (sim w) = PAUSED ->
                state (sim (tick random w)) = PAUSED).
Proof.
  split; [exact (updateState_paused s) | split].
  - intro H. rewrite (updateState_not_paused s H). unfold state_of_score.
    repeat split; intros;
      destruct (Qlt_le_dec (stability s) 71);
      destruct (Qlt_le_dec (stability s) 86);
      trivial; exfalso; lra.
  - exact state_tick_paused.
Qed.

End Properties.

(** The mapping at the scores 90, 80 and 50 of a running line, and a
    paused line kept as it is. *)
Lemma updateState_maps_score_witness :
  let s score := set_stability score (new_FactorySimulation 0) in
  state (updateState (s 90)) = NORMAL
  /\ state (updateState (s 80)) = DEGRADED
  /\ state (updateState (s 50)) = CRITICAL
  /\ updateState (set_state PAUSED (s 50)) = set_state PAUSED (s 50).
Proof.
  intro s. split; [| split; [| split]].
  - apply (updateState_maps_score half (s 90)); vm_compute; discriminate.
  - apply (updateState_maps_score half (s 80)); vm_compute;
      first [discriminate | reflexivity].
  - apply (updateState_maps_score half (s 50)); vm_compute;
      first [discriminate | reflexivity].
  - apply (updateState_maps_score half (set_state PAUSED (s 50))).
    reflexivity.
Defined.

(** C3 fails on the code: PAUSED is left without [resume_line].  The
    scenario-end routine assigns NORMAL without reading the state,
    whereas [updateState] returns early on PAUSED ("Don't auto-change
    from paused") and [resumeLine] is written as the one way around
    that test.  The operator pauses the line and switches to backup
    power; the line is PAUSED.  Two seconds later the timeout of
    [switchBackupPower] fires, the routine runs, and the line is NORMAL
    although nobody resumed it. *)
Theorem paused_left_without_resume :
  let paused :=
    run half [Operator "pause_line"; Operator "switch_backup_power"]
        (boot 0) in
  let fired := react half paused TimerFires in
  (forall w : World, state (sim (endScenarioAndScheduleNext w)) = NORMAL)
  /\ map (fun w => (clock w, state (sim w))) [paused; fired]
     = [(0%Z, PAUSED); (2000%Z, NORMAL)].
Proof. split; [reflexivity | vm_compute; reflexivity]. Qed.

(** *** Pausing and resuming the line *)

Lemma SensorStatus_eqb_eq (a b : SensorStatus) :
  SensorStatus_eqb a b = true <-> a = b.
Proof. destruct a, b; simpl; split; congruence. Qed.

Lemma STATES_eqb_eq (a b : STATES) : STATES_eqb a b = true <-> a = b.
Proof. destruct a, b; simpl; split; congruence. Qed.

(** The test of [resumeLine] on the three channels. *)
Lemma some_critical_iff (s : FactorySimulation) :
  SensorStatus_eqb (getSensorStatus s K_power) critical
  || SensorStatus_eqb (getSensorStatus s K_pressure) critical
  || SensorStatus_eqb (getSensorStatus s K_temperature) critical = true
  <-> exists k, getSensorStatus s k = critical.
Proof.
  rewrite !orb_true_iff, !SensorStatus_eqb_eq. split.
  - intros [[H | H] | H]; eauto.
  - intros [[] H]; auto.
Qed.

Lemma state_of_score_code (x : Q) :
  (if Qge_bool x STABILITY.THRESHOLD_NORMAL then NORMAL
   else if Qge_bool x STABILITY.THRESHOLD_DEGRADED then DEGRADED
   else CRITICAL) = state_of_score x.
Proof.
  unfold state_of_score, Qge_bool, STABILITY.THRESHOLD_NORMAL,
    STABILITY.THRESHOLD_DEGRADED.
  destruct (Qle_bool 86 x) eqn:E1; destruct (Qle_bool 71 x) eqn:E2;
    destruct (Qlt_le_dec x 71); destruct (Qlt_le_dec x 86);
    qbool; trivial; exfalso; lra.
Qed.

(** C6. [resume_line] fails with "Line is not paused" when the state
    is not PAUSED and with "Cannot resume: Sensors still critical" when
    it is PAUSED and some channel classifies critical, and in both
    cases leaves everything as it was; otherwise it succeeds, sets the
    state the current score maps to (never PAUSED), zeroes the stable
    and critical tick counters and sets the scenario-delay anchor to
    the current time. *)
Theorem resumeLine_contract (w : World) :
  (state (sim w) <> PAUSED ->
   resumeLine w = ({| success := false; message := "Line is not paused" |}, w))
  /\ (state (sim w) = PAUSED ->
      (exists k, getSensorStatus (sim w) k = critical) ->
      resumeLine w
      = ({| success := false;
            message := "Cannot resume: Sensors still critical" |}, w))
  /\ (state (sim w) = PAUSED ->
      (forall k, getSensorStatus (sim w) k <> critical) ->
      let w' := snd (resumeLine w) in
      success (fst (resumeLine w)) = true
      /\ state (sim w') = state_of_score (stability (sim w))
      /\ state (sim w') <> PAUSED
      /\ stableTickCount (sim w') = 0%Z
      /\ criticalTickCount (sim w') = 0%Z
      /\ lastScenarioEndTime (sim w') = clock w).
Proof.
  unfold resumeLine. cbv zeta. split; [| split].
  - intro H. destruct (STATES_eqb (state (sim w)) PAUSED) eqn:E; trivial.
    apply STATES_eqb_eq in E. contradiction.
  - intros H C. rewrite H. simpl negb. cbv iota.
    apply some_critical_iff in C. now rewrite C.
  - intros H C. rewrite H. simpl negb. cbv iota.
    match goal with |- context [if ?b then (_, _) else _] =>
      destruct b eqn:E end.
    + apply some_critical_iff in E. destruct E as [k E].
      now elim (C k).
    + pose proof (state_of_score_code (stability (sim w))) as S.
      destruct (Qge_bool (stability (sim w)) STABILITY.THRESHOLD_NORMAL);
        [| destruct (Qge_bool (stability (sim w))
                              STABILITY.THRESHOLD_DEGRADED)];
        cbn; rewrite <- S; repeat split; discriminate.
Qed.

(** A running line, a paused line whose power reads 20 kW, and a
    paused line at nominal values. *)
Lemma resumeLine_contract_witness :
  let running := boot 0 in
  let paused := snd (pauseLine running) in
  let sagged := on_sim (assign_sensor K_power 20) paused in
  message (fst (resumeLine running)) = "Line is not paused"%string
  /\ resumeLine sagged
     = ({| success := false;
           message := "Cannot resume: Sensors still critical" |}, sagged)
  /\ state (sim (snd (resumeLine paused))) = NORMAL.
Proof.
  intros running paused sagged. split; [| split].
  - rewrite (proj1 (resumeLine_contract running)).
    + reflexivity.
    + vm_compute. discriminate.
  - apply (resumeLine_contract sagged).
    + reflexivity.
    + exists K_power. reflexivity.
  - refine (eq_trans
              (proj1 (proj2 (proj2 (proj2 (resumeLine_contract paused))
                                   eq_refl _))) _).
    + intro k. destruct k; vm_compute; discriminate.
    + reflexivity.
Defined.

(** C10. [pause_line] sets the operating state to PAUSED and the
    scenario's [active] flag to false and changes nothing else: not the
    sensors, the battery levels, the cooling level, the backup-power
    flag, the scenario kind, the score, the counters or the history,
    nor the clock, the timers and the telemetry log. *)
Theorem pauseLine_frame (w : World) :
  let s := sim w in
  let w' := snd (pauseLine w) in
  let s' := sim w' in
  (state s' = PAUSED /\ ActiveScenario.active (activeScenario s') = false)
  /\ (sensors s' = sensors s /\ previousSensors s' = previousSensors s)
  /\ (mainBatteryLevel s' = mainBatteryLevel s
      /\ backupBatteryLevel s' = backupBatteryLevel s
      /\ batteryRechargeRate s' = batteryRechargeRate s)
  /\ (cooling s' = cooling s /\ backupPower s' = backupPower s)
  /\ (ActiveScenario.type (activeScenario s')
      = ActiveScenario.type (activeScenario s)
      /\ ActiveScenario.tickCount (activeScenario s')
         = ActiveScenario.tickCount (activeScenario s)
      /\ ActiveScenario.duration (activeScenario s')
         = ActiveScenario.duration (activeScenario s))
  /\ stability s' = stability s
  /\ (tickCount s' = tickCount s
      /\ criticalTickCount s' = criticalTickCount s
      /\ stableTickCount s' = stableTickCount s)
  /\ sensorHistory s' = sensorHistory s
  /\ (startTime s' = startTime s
      /\ lastScenarioEndTime s' = lastScenarioEndTime s
      /\ scenarioScheduled s' = scenarioScheduled s
      /\ tickInterval s' = tickInterval s)
  /\ (clock w' = clock w /\ drawn w' = drawn w /\ timers w' = timers w
      /\ nextHandle w' = nextHandle w /\ dispatched w' = dispatched w)
  /\ fst (pauseLine w)
     = {| success := true; message := "Production line paused" |}.
Proof. cbv zeta. repeat split. Qed.

Section Recovery.

Variable random : nat -> Q.

(** *** What the end of a scenario leaves *)

Lemma sim_setTimeout cb delay w : sim (setTimeout cb delay w) = sim w.
Proof. reflexivity. Qed.

Lemma activeScenario_endScenarioAndScheduleNext w :
  activeScenario (sim (endScenarioAndScheduleNext w))
  = {| ActiveScenario.type := NONE; ActiveScenario.active := false;
       ActiveScenario.tickCount := 0;
       ActiveScenario.duration := Some 0%Z |}.
Proof. reflexivity. Qed.

Lemma sensors_endScenarioAndScheduleNext w :
  sensors (sim (endScenarioAndScheduleNext w)) = sensors (sim w).
Proof. reflexivity. Qed.


Lemma sensor_get_set x k v : sensor_get (sensor_set x k v) k = v.
Proof. destruct k; reflexivity. Qed.

Lemma sim_store_closure h cb w : sim (store_closure h cb w) = sim w.
Proof. reflexivity. Qed.


Lemma sim_reschedule t w : sim (reschedule t w) = sim w.
Proof. unfold reschedule. destruct (period t); reflexivity. Qed.


(** *** Backup power *)



(** *** Gradual restore *)

Lemma gradualRestore_arms k duration w :
  gradualRestore k duration w
  = snd (setInterval
           (RestoreStepCb k 10
              ((nominal_target k - sensor_get (sensors (sim w)) k) / 10)
              (nominal_target k) 0)
           (duration / 10)%Z w).
Proof. destruct k; reflexivity. Qed.

(** A step before the last adds [stepChange]. *)
Lemma restore_step_mid h k steps sc tv step w :
  (step + 1 < steps)%Z ->
  run_callback random h (RestoreStepCb k steps sc tv step) w
  = (on_sim (fun s => assign_sensor k (sensor_get (sensors s) k + sc) s) w,
     RestoreStepCb k steps sc tv (step + 1)).
Proof.
  intro H. unfold run_callback. cbv zeta.
  destruct (steps <=? step + 1)%Z eqn:E; trivial.
  apply Z.leb_le in E. lia.
Qed.

(** The last step clears the interval, assigns the target and ends the
    scenario. *)
Lemma restore_step_last h k steps sc tv step w :
  (steps <= step + 1)%Z ->
  run_callback random h (RestoreStepCb k steps sc tv step) w
  = (endScenarioAndScheduleNext
       (on_sim (assign_sensor k tv)
          (clearInterval h
             (on_sim (fun s =>
                assign_sensor k (sensor_get (sensors s) k + sc) s) w))),
     RestoreStepCb k steps sc tv (step + 1)).
Proof.
  intro H. unfold run_callback. cbv zeta.
  destruct (steps <=? step + 1)%Z eqn:E; trivial.
  apply Z.leb_gt in E. lia.
Qed.

Lemma run_callback_times_S n h cb w :
  run_callback_times random (S n) h cb w
  = let (w', cb') := run_callback_times random n h cb w in
    run_callback random h cb' w'.
Proof. reflexivity. Qed.

(** The steps before the last, uninterrupted: the counter of the
    closure advances and the timers are left alone. *)
Lemma restore_steps_mid h k sc tv (n : nat) w :
  (n <= 9)%nat ->
  exists w',
    run_callback_times random n h (RestoreStepCb k 10 sc tv 0) w
    = (w', RestoreStepCb k 10 sc tv (Z.of_nat n))
    /\ timers w' = timers w /\ nextHandle w' = nextHandle w
    /\ clock w' = clock w.
Proof.
  induction n as [|n IH]; intro H.
  - exists w. repeat split.
  - destruct IH as (w' & E & T & N & C); [lia |].
    rewrite run_callback_times_S, E.
    rewrite restore_step_mid by lia.
    eexists. split; [| split; [| split]].
    + f_equal. f_equal. lia.
    + exact T.
    + exact N.
    + exact C.
Qed.

Lemma restore_steps_complete h k sc tv w :
  exists w9,
    fst (run_callback_times random 10 h (RestoreStepCb k 10 sc tv 0) w)
    = endScenarioAndScheduleNext
        (on_sim (assign_sensor k tv)
           (clearInterval h
              (on_sim (fun s =>
                 assign_sensor k (sensor_get (sensors s) k + sc) s) w9)))
    /\ timers w9 = timers w /\ nextHandle w9 = nextHandle w
    /\ clock w9 = clock w.
Proof.
  destruct (restore_steps_mid h k sc tv 9 w) as (w9 & E & R); [lia |].
  exists w9. rewrite (run_callback_times_S 9), E.
  rewrite restore_step_last by (simpl; lia). split; [reflexivity | exact R].
Qed.

Lemma sensor_after_forced_target k tv w :
  sensor_get
    (sensors (sim (endScenarioAndScheduleNext
                     (on_sim (assign_sensor k tv) w)))) k = tv.
Proof.
  rewrite sensors_endScenarioAndScheduleNext, sim_on_sim.
  unfold assign_sensor. change (sensors (set_sensors ?x _)) with x.
  apply sensor_get_set.
Qed.

(** The timers that the last step of a ramp leaves: the interval of the
    ramp is cleared and the timeout of the next scenario is armed. *)
Lemma timers_after_last_step h k tv f w :
  timers (endScenarioAndScheduleNext
            (on_sim (assign_sensor k tv) (clearInterval h (on_sim f w))))
  = filter (fun t => negb (Nat.eqb (handle t) h)) (timers w)
    ++ [{| handle := nextHandle w;
           due := clock w + SIMULATION.SCENARIO_DELAY;
           period := None; callback := NextScenarioCb |}].
Proof. reflexivity. Qed.

Lemma filter_other_handles h (ts : list Timer) (t : Timer) :
  handle t = h ->
  filter (fun u => negb (Nat.eqb (handle u) h)) (ts ++ [t])
  = filter (fun u => negb (Nat.eqb (handle u) h)) ts.
Proof.
  intros <-. rewrite filter_app. cbn [filter].
  rewrite Nat.eqb_refl. cbn [negb]. apply app_nil_r.
Qed.

(** C7. The gradual restore arms an interval timer of a tenth of the
    duration whose closure holds, as its step, a tenth of the gap
    between the value at call time and the nominal target (140 for
    pressure, 70 for temperature).  Each of the first nine steps adds
    that same step to the value the channel then holds and leaves the
    timers and the scenario alone; uninterrupted, the steps count up to
    nine with the interval still armed.  The tenth step, and more
    generally any step that completes the count, assigns exactly the
    target whatever the channel held, clears the interval of the ramp,
    so that no further step follows, and ends the scenario through the
    scenario-end routine, which arms the timeout of the next scenario.
    The pressure and cooling actions are this ramp. *)
Theorem gradualRestore_ramp (k : SensorName) (duration : Z) (w : World) :
  let start := sensor_get (sensors (sim w)) k in
  let target := nominal_target k in
  let stepChange := (target - start) / 10 in
  let closure := RestoreStepCb k 10 stepChange target in
  let w0 := gradualRestore k duration w in
  let next_scenario (later : World) :=
    {| handle := nextHandle later;
       due := clock later + SIMULATION.SCENARIO_DELAY;
       period := None; callback := NextScenarioCb |} in
  (nominal_target K_pressure = 140 /\ nominal_target K_temperature = 70)
  /\ (snd (increasePressure w) = gradualRestore K_pressure 5000 w
      /\ snd (decreasePressure w) = gradualRestore K_pressure 5000 w
      /\ snd (increaseCooling w) = gradualRestore K_temperature 10000 w)
  /\ (sim w0 = sim w
      /\ nextHandle w0 = S (nextHandle w)
      /\ timers w0
         = timers w ++ [{| handle := nextHandle w;
                           due := clock w + duration / 10;
                           period := Some (duration / 10)%Z;
                           callback := closure 0%Z |}])
  /\ (forall (h : nat) (step : Z) (later : World),
        (0 <= step < 9)%Z ->
        let r := run_callback random h (closure step) later in
        snd r = closure (step + 1)%Z
        /\ sensor_get (sensors (sim (fst r))) k
           = sensor_get (sensors (sim later)) k + stepChange
        /\ timers (fst r) = timers later
        /\ activeScenario (sim (fst r)) = activeScenario (sim later))
  /\ (forall (h n : nat), (n <= 9)%nat ->
        exists w',
          run_callback_times random n h (closure 0%Z) w0
          = (w', closure (Z.of_nat n))
          /\ timers w' = timers w0)
  /\ (forall h : nat,
        let w10 := fst (run_callback_times random 10 h (closure 0%Z) w0) in
        sensor_get (sensors (sim w10)) k = target
        /\ ActiveScenario.active (activeScenario (sim w10)) = false
        /\ ActiveScenario.type (activeScenario (sim w10)) = NONE)
  /\ (let w10 :=
        fst (run_callback_times random 10 (nextHandle w) (closure 0%Z) w0) in
      timers w10
      = filter (fun t => negb (Nat.eqb (handle t) (nextHandle w))) (timers w)
        ++ [next_scenario w0]
      /\ forall t, In t (timers w10) -> handle t <> nextHandle w)
  /\ (forall (h : nat) (later : World),
        let w' := fst (run_callback random h (closure 9%Z) later) in
        sensor_get (sensors (sim w')) k = target
        /\ ActiveScenario.active (activeScenario (sim w')) = false
        /\ timers w'
           = filter (fun t => negb (Nat.eqb (handle t) h)) (timers later)
             ++ [next_scenario later]
        /\ exists before,
             w' = endScenarioAndScheduleNext before
             /\ sensor_get (sensors (sim before)) k = target).
Proof.
  cbv zeta.
  split; [split; reflexivity |].
  split; [repeat split |].
  split; [rewrite gradualRestore_arms; repeat split |].
  split; [| split; [| split; [| split]]].
  - intros h step later H. rewrite restore_step_mid by lia. cbn [fst snd].
    split; [reflexivity |]. split; [| split; reflexivity].
    rewrite sim_on_sim. unfold assign_sensor.
    change (sensors (set_sensors ?x _)) with x. apply sensor_get_set.
  - intros h n H.
    destruct (restore_steps_mid h k
                ((nominal_target k - sensor_get (sensors (sim w)) k) / 10)
                (nominal_target k) n (gradualRestore k duration w) H)
      as (w' & E & T & _).
    exists w'. split; [exact E | exact T].
  - intro h.
    destruct (restore_steps_complete h k
                ((nominal_target k - sensor_get (sensors (sim w)) k) / 10)
                (nominal_target k) (gradualRestore k duration w))
      as (w9 & E & _).
    rewrite E. split; [apply sensor_after_forced_target |].
    rewrite activeScenario_endScenarioAndScheduleNext. split; reflexivity.
  - destruct (restore_steps_complete (nextHandle w) k
                ((nominal_target k - sensor_get (sensors (sim w)) k) / 10)
                (nominal_target k) (gradualRestore k duration w))
      as (w9 & E & T & N & C).
    rewrite E, timers_after_last_step, T, N, C. clear E T N C w9.
    rewrite gradualRestore_arms.
    assert (F : timers
                  (snd (setInterval
                          (RestoreStepCb k 10
                             ((nominal_target k
                               - sensor_get (sensors (sim w)) k) / 10)
                             (nominal_target k) 0)
                          (duration / 10)%Z w))
                = timers w
                  ++ [{| handle := nextHandle w;
                         due := clock w + duration / 10;
                         period := Some (duration / 10)%Z;
                         callback :=
                           RestoreStepCb k 10
                             ((nominal_target k
                               - sensor_get (sensors (sim w)) k) / 10)
                             (nominal_target k) 0 |}])
      by reflexivity.
    rewrite F, filter_other_handles by reflexivity. clear F.
    split; [reflexivity |].
    intros t I. apply in_app_or in I. destruct I as [I | [<- | []]].
    + apply filter_In in I. destruct I as [_ B].
      intro X. rewrite X, Nat.eqb_refl in B. discriminate B.
    + cbn [handle]. change (nextHandle (snd (setInterval _ _ w)))
        with (S (nextHandle w)). lia.
  - intros h later. rewrite restore_step_last by lia. cbn [fst].
    split; [apply sensor_after_forced_target |].
    split; [reflexivity |].
    split; [apply timers_after_last_step |].
    eexists. split; [reflexivity |].
    rewrite sim_on_sim. unfold assign_sensor.
    change (sensors (set_sensors ?x _)) with x. apply sensor_get_set.
Qed.

End Recovery.

(** Pressure read at 120 bar: the fourth step of the ramp adds the
    step of the closure, a tenth of the gap of 20 bar, and three
    uninterrupted steps leave the interval armed. *)
Lemma gradualRestore_ramp_witness :
  let w := on_sim (assign_sensor K_pressure 120) (boot 0) in
  let closure := RestoreStepCb K_pressure 10 ((140 - 120) / 10) 140 in
  let w0 := gradualRestore K_pressure 5000 w in
  pressure (sensors (sim (fst (run_callback half 2 (closure 3%Z) w0))))
  = 120 + (140 - 120) / 10
  /\ exists w',
       run_callback_times half 3 2 (closure 0%Z) w0 = (w', closure 3%Z)
       /\ timers w' = timers w0.
Proof.
  intros w closure w0.
  destruct (gradualRestore_ramp half K_pressure 5000 w)
    as (_ & _ & _ & Step & Run & _).
  split.
  - destruct (Step 2%nat 3%Z w0) as (_ & V & _); [lia |]. exact V.
  - destruct (Run 2%nat 3%nat) as (w' & E & T); [lia |].
    exists w'. split; [exact E | exact T].
Defined.

(** The same restore through the event loop: the ten firings that
    follow the action are those of the ramp, 500 ms apart, and leave
    the pressure at exactly 140 with no scenario active. *)
Example increase_pressure_from_120 :
  let w := on_sim (assign_sensor K_pressure 120) (boot 0) in
  let w' := run half (Operator "increase_pressure" :: repeat TimerFires 10)
                w in
  pressure (sensors (sim w')) = 140
  /\ clock w' = 5000%Z
  /\ ActiveScenario.active (activeScenario (sim w')) = false
  /\ map callback (timers w') = [TickCb; NextScenarioCb].
Proof. vm_compute. repeat split. Qed.

Section Scenarios.

Variable random : nat -> Q.

(** *** The scenario record *)

Lemma scenario_inv_same s s' :
  activeScenario s' = activeScenario s -> scenario_inv s -> scenario_inv s'.
Proof. unfold scenario_inv. intros E. now rewrite E. Qed.

Lemma scenario_inv_active s :
  ActiveScenario.active (activeScenario s) = true -> scenario_inv s.
Proof. unfold scenario_inv. congruence. Qed.

Lemma activeScenario_updateState s :
  activeScenario (updateState s) = activeScenario s.
Proof. unfold updateState. open_tests; reflexivity. Qed.

Lemma scenario_inv_manageScenarios elapsed w :
  scenario_inv (sim w) -> scenario_inv (sim (manageScenarios random elapsed w)).
Proof.
  intro H. unfold manageScenarios.
  destruct (elapsed <? SIMULATION.STARTUP_STABLE_DURATION)%Z;
    [exact H |].
  destruct (STATES_eqb (state (sim w)) PAUSED); [exact H |].
  destruct (scenarioScheduled (sim w)); [exact H |].
  destruct (ActiveScenario.active (activeScenario (sim w))) eqn:A;
    cbn [negb].
  - apply scenario_inv_active. exact A.
  - destruct (SIMULATION.SCENARIO_DELAY
              <=? Date_now w - lastScenarioEndTime (sim w))%Z;
      [| exact H].
    apply scenario_inv_active. reflexivity.
Qed.

Lemma activeScenario_set_sensorHistory h s :
  activeScenario (set_sensorHistory h s) = activeScenario s.
Proof. reflexivity. Qed.

Lemma activeScenario_calculateStability s :
  activeScenario (calculateStability s) = activeScenario s.
Proof. reflexivity. Qed.

Lemma activeScenario_tick w :
  activeScenario (sim (tick random w))
  = activeScenario (sim (tick_scenario_check random w)).
Proof.
  destruct (sim_tick random w) as (h & E). rewrite E.
  rewrite activeScenario_set_sensorHistory, activeScenario_updateState,
    activeScenario_calculateStability.
  apply activeScenario_updateSensors.
Qed.

Lemma scenario_inv_tick w :
  scenario_inv (sim w) -> scenario_inv (sim (tick random w)).
Proof.
  intro H. apply (scenario_inv_same _ _ (activeScenario_tick w)).
  unfold tick_scenario_check. cbv zeta.
  apply scenario_inv_manageScenarios. exact H.
Qed.

Lemma scenario_inv_endScenarioAndScheduleNext w :
  scenario_inv (sim (endScenarioAndScheduleNext w)).
Proof. intro H. reflexivity. Qed.

Lemma scenario_inv_run_callback h cb w :
  scenario_inv (sim w) -> scenario_inv (sim (fst (run_callback random h cb w))).
Proof.
  intro H. destruct cb as [| | | k steps sc tv step]; cbn [run_callback fst].
  - apply scenario_inv_tick, H.
  - apply scenario_inv_endScenarioAndScheduleNext.
  - apply scenario_inv_active. reflexivity.
  - cbv zeta. destruct (steps <=? step + 1)%Z.
    + apply scenario_inv_endScenarioAndScheduleNext.
    + exact H.
Qed.

Lemma scenario_inv_dispatch t w :
  scenario_inv (sim w) -> scenario_inv (sim (dispatch random t w)).
Proof.
  intro H. unfold dispatch. cbv zeta.
  pose proof (scenario_inv_run_callback (handle t) (callback t)
                (reschedule t (set_clock (Z.max (clock w) (due t)) w))) as R.
  destruct (run_callback random (handle t) (callback t) _) as [w' cb'].
  rewrite sim_store_closure. apply R.
  rewrite sim_reschedule. exact H.
Qed.

(** The actions other than [pause_line]. *)
Lemma activeScenario_executeAction a w :
  a <> ACTIONS.PAUSE_LINE ->
  activeScenario (sim (snd (executeAction a w))) = activeScenario (sim w).
Proof.
  intro H. unfold executeAction.
  destruct (String.eqb a ACTIONS.SWITCH_BACKUP_POWER); [reflexivity |].
  destruct (String.eqb a ACTIONS.INCREASE_PRESSURE); [reflexivity |].
  destruct (String.eqb a ACTIONS.DECREASE_PRESSURE); [reflexivity |].
  destruct (String.eqb a ACTIONS.INCREASE_COOLING); [reflexivity |].
  destruct (String.eqb a ACTIONS.PAUSE_LINE) eqn:E.
  - apply String.eqb_eq in E. contradiction.
  - destruct (String.eqb a ACTIONS.RESUME_LINE); [| reflexivity].
    unfold resumeLine. open_tests; reflexivity.
Qed.

Lemma scenario_inv_react w e :
  e <> Operator ACTIONS.PAUSE_LINE ->
  scenario_inv (sim w) -> scenario_inv (sim (react random w e)).
Proof.
  intros N H. destruct e as [| a | dt]; cbn [react].
  - unfold runNextTimer. destruct (next_due (timers w)); [| exact H].
    apply scenario_inv_dispatch, H.
  - refine (scenario_inv_same _ _ (activeScenario_executeAction a w _) H).
    congruence.
  - exact H.
Qed.

Lemma scenario_inv_run es :
  ~ In (Operator ACTIONS.PAUSE_LINE) es ->
  forall w, scenario_inv (sim w) -> scenario_inv (sim (run random es w)).
Proof.
  unfold run. induction es as [|e es IH]; intros N w H; [exact H |].
  cbn [fold_left]. apply IH.
  - intro I. apply N. now right.
  - apply scenario_inv_react; [| exact H].
    intro E. apply N. now left.
Qed.

(** C5, amended. Starting from a fresh engine, as long as [pause_line]
    is not issued, an inactive scenario record has kind NONE: ticks,
    the callbacks of all timers and the five other actions preserve
    this.  [pause_line] clears the [active] flag and keeps the kind. *)
Theorem scenario_inv_without_pause :
  (forall w e, e <> Operator ACTIONS.PAUSE_LINE ->
     scenario_inv (sim w) -> scenario_inv (sim (react random w e)))
  /\ (forall now es, ~ In (Operator ACTIONS.PAUSE_LINE) es ->
        scenario_inv (sim (run random es (boot now))))
  /\ (forall w,
        let a := activeScenario (sim w) in
        let a' := activeScenario (sim (snd (pauseLine w))) in
        ActiveScenario.active a' = false
        /\ ActiveScenario.type a' = ActiveScenario.type a).
Proof.
  split; [exact scenario_inv_react | split].
  - intros now es N. apply scenario_inv_run; [exact N |].
    intro H. reflexivity.
  - intro w. split; reflexivity.
Qed.

End Scenarios.

(** Three ticks, the third of which starts a scenario, then a pressure
    restore and its first step. *)
Lemma scenario_inv_without_pause_witness :
  scenario_inv
    (sim (run half [TimerFires; TimerFires; TimerFires;
                    Operator "increase_pressure"; TimerFires] (boot 0))).
Proof.
  apply (proj1 (proj2 (scenario_inv_without_pause half))).
  simpl. intros [H | [H | [H | [H | [H | []]]]]]; discriminate H.
Defined.

(** C5, as stated, fails: the third tick after start-up begins a
    scenario, and [pause_line] then leaves the record inactive with the
    fault kind still in place. *)
Lemma pause_line_breaks_scenario_inv :
  let w := run half [TimerFires; TimerFires; TimerFires] (boot 0) in
  let w' := react half w (Operator "pause_line") in
  scenario_inv (sim w)
  /\ ActiveScenario.active (activeScenario (sim w')) = false
  /\ ActiveScenario.type (activeScenario (sim w')) = PRESSURE_DRIFT
  /\ ~ scenario_inv (sim w').
Proof.
  intros w w'. split; [| split; [| split]].
  - intro H. vm_compute in H. discriminate H.
  - vm_compute. reflexivity.
  - vm_compute. reflexivity.
  - intro H.
    assert (A : ActiveScenario.active (activeScenario (sim w')) = false)
      by (vm_compute; reflexivity).
    specialize (H A). vm_compute in H. discriminate H.
Qed.

Section PausedLine.

Variable random : nat -> Q.

(** *** Scenario starts while the line is paused *)

(** The scenario check of a tick starts nothing on a paused line. *)
Lemma manageScenarios_paused elapsed w :
  state (sim w) = PAUSED ->
  activeScenario (sim (manageScenarios random elapsed w))
  = activeScenario (sim w).
Proof.
  intro H. unfold manageScenarios. rewrite H.
  destruct (elapsed <? SIMULATION.STARTUP_STABLE_DURATION)%Z; reflexivity.
Qed.

Lemma tick_paused_keeps_scenario w :
  state (sim w) = PAUSED ->
  activeScenario (sim (tick random w)) = activeScenario (sim w).
Proof.
  intro H. rewrite activeScenario_tick. unfold tick_scenario_check.
  cbv zeta. now rewrite manageScenarios_paused.
Qed.

(** The callback of the next-scenario timeout starts a scenario
    whatever the operating state is, and leaves that state alone. *)
Lemma NextScenario_starts_anyway h w :
  let w' := fst (run_callback random h NextScenarioCb w) in
  ActiveScenario.active (activeScenario (sim w')) = true
  /\ state (sim w') = state (sim w).
Proof. split; reflexivity. Qed.

End PausedLine.

(** C9 fails on the code. One second after start-up the operator
    switches to backup power; two seconds later the restore callback
    ends the scenario and arms the next-scenario timeout; the operator
    pauses the line.  The two ticks that follow start nothing, but the
    timeout, ten seconds after it was armed, starts a scenario on the
    paused line. *)
Theorem scenario_started_while_paused :
  let paused :=
    run half [TimePasses 1000; Operator "switch_backup_power"; TimerFires;
              Operator "pause_line"] (boot 0) in
  let tick1 := react half paused TimerFires in
  let tick2 := react half tick1 TimerFires in
  let fired := react half tick2 TimerFires in
  map (fun w => (clock w, state (sim w),
                 ActiveScenario.active (activeScenario (sim w))))
      [paused; tick1; tick2; fired]
  = [(3000%Z, PAUSED, false); (6000%Z, PAUSED, false);
     (12000%Z, PAUSED, false); (13000%Z, PAUSED, true)].
Proof. vm_compute. reflexivity. Qed.

Section ScenarioChoice.

Variable random : nat -> Q.

(** *** The choice of a scenario *)

Lemma scenario_index_in_range (r : Q) :
  0 <= r -> r < 1 -> (0 <= Qfloor (r * 3) < 3)%Z.
Proof.
  intros L U.
  pose proof (Qfloor_le (r * 3)) as F.
  pose proof (Qlt_floor (r * 3)) as G.
  split.
  - assert (H : inject_Z 0 < inject_Z (Qfloor (r * 3) + 1)).
    { eapply Qle_lt_trans; [| exact G]. change (inject_Z 0) with 0. lra. }
    rewrite <- Zlt_Qlt in H. lia.
  - rewrite Zlt_Qlt. eapply Qle_lt_trans; [exact F |].
    change (inject_Z 3) with 3. lra.
Qed.

(** The kind drawn by [startRandomScenario], as a function of the value
    [r] returned by [Math.random()]: each kind takes a third of
    [0,1). *)
Lemma startRandomScenario_thirds (w : World) :
  let r := random (drawn w) in
  let kind :=
    ActiveScenario.type
      (activeScenario (sim (startRandomScenario random w))) in
  0 <= r -> r < 1 ->
  (kind = POWER_SAG <-> r < 1 / 3)
  /\ (kind = PRESSURE_DRIFT <-> 1 / 3 <= r /\ r < 2 / 3)
  /\ (kind = OVERHEAT <-> 2 / 3 <= r).
Proof.
  intros r kind L U.
  assert (K : kind = nth (Z.to_nat (Qfloor (r * 3)))
                         [POWER_SAG; PRESSURE_DRIFT; OVERHEAT] NONE)
    by reflexivity.
  clearbody kind r.
  change (1 / 3) with (1 # 3). change (2 / 3) with (2 # 3).
  pose proof (scenario_index_in_range r L U) as R.
  pose proof (Qfloor_le (r * 3)) as F.
  pose proof (Qlt_floor (r * 3)) as G.
  assert (C : (Qfloor (r * 3) = 0 \/ Qfloor (r * 3) = 1
               \/ Qfloor (r * 3) = 2)%Z) by lia.
  destruct C as [C | [C | C]]; rewrite C in K, F, G;
    simpl Z.to_nat in K; simpl nth in K;
    unfold inject_Z in F, G; simpl Z.add in G;
    rewrite K; repeat split; intros; try discriminate;
    try lra; exfalso;
    repeat match goal with H : _ /\ _ |- _ => destruct H end; lra.
Qed.

End ScenarioChoice.

(** C4 fails on the code: the draw is uniform over the three kinds and
    does not read the configured weights.  A draw of 0.35 lies below
    the weight 0.40 of POWER_SAG and yet selects PRESSURE_DRIFT, and
    the shares of the kinds on a grid of a hundred draws are 0.34, 0.33
    and 0.33, not 0.40, 0.35 and 0.25. *)
Theorem startRandomScenario_ignores_weights :
  (0.35 < SCENARIO_WEIGHTS.POWER_SAG /\ kind_drawn 0.35 = PRESSURE_DRIFT)
  /\ (share POWER_SAG == 0.34
      /\ ~ share POWER_SAG == SCENARIO_WEIGHTS.POWER_SAG)
  /\ (share PRESSURE_DRIFT == 0.33
      /\ ~ share PRESSURE_DRIFT == SCENARIO_WEIGHTS.PRESSURE_DRIFT)
  /\ (share OVERHEAT == 0.33
      /\ ~ share OVERHEAT == SCENARIO_WEIGHTS.OVERHEAT).
Proof.
  repeat split; try (vm_compute; reflexivity);
    intro H; vm_compute in H; discriminate H.
Qed.

(** * Further properties of the engine *)

(** Maxima and minima in the goal and the hypotheses, by cases. *)
Ltac qminmax :=
  repeat match goal with
    | |- context [Qmax ?a ?b] =>
        let m := fresh "m" in
        pose proof (Q.max_spec a b); set (m := Qmax a b) in *; clearbody m
    | |- context [Qmin ?a ?b] =>
        let m := fresh "m" in
        pose proof (Q.min_spec a b); set (m := Qmin a b) in *; clearbody m
    | _ : context [Qmax ?a ?b] |- _ =>
        let m := fresh "m" in
        pose proof (Q.max_spec a b); set (m := Qmax a b) in *; clearbody m
    | _ : context [Qmin ?a ?b] |- _ =>
        let m := fresh "m" in
        pose proof (Q.min_spec a b); set (m := Qmin a b) in *; clearbody m
    end;
  repeat match goal with
    | H : _ \/ _ |- _ => destruct H
    | H : _ /\ _ |- _ => destruct H
    end.

Lemma unit_draws_half : unit_draws half.
Proof. intro k. split; [discriminate | reflexivity]. Qed.

Section Footprints.

Variable random : nat -> Q.

(** *** What the phases of a tick leave untouched *)

Lemma blank_rechargeBattery w :
  blank_sensor_update (on_sim rechargeBattery w) = blank_sensor_update w.
Proof. unfold on_sim at 1, rechargeBattery. open_tests; reflexivity. Qed.

Lemma blank_perturbPower sc w :
  blank_sensor_update (perturbPower random sc w) = blank_sensor_update w.
Proof.
  destruct sc as [[]|]; try reflexivity.
  unfold perturbPower. open_tests; reflexivity.
Qed.

Lemma blank_perturbPressure sc w :
  blank_sensor_update (perturbPressure random sc w) = blank_sensor_update w.
Proof. destruct sc as [[]|]; reflexivity. Qed.

Lemma blank_perturbTemperature sc w :
  blank_sensor_update (perturbTemperature random sc w)
  = blank_sensor_update w.
Proof. destruct sc as [[]|]; reflexivity. Qed.

Lemma blank_updateSensors w :
  blank_sensor_update (updateSensors random w) = blank_sensor_update w.
Proof.
  unfold updateSensors. cbv zeta.
  change (blank_sensor_update (on_sim clampSensors ?x))
    with (blank_sensor_update x).
  change (blank_sensor_update (fluctuate random ?x))
    with (blank_sensor_update x).
  rewrite blank_perturbTemperature, blank_perturbPressure,
    blank_perturbPower.
  apply blank_rechargeBattery.
Qed.

Lemma blank_manageScenarios elapsed w :
  blank_scenario_check (manageScenarios random elapsed w)
  = blank_scenario_check w.
Proof. unfold manageScenarios. open_tests; reflexivity. Qed.

Lemma blank_updateState s :
  blank_state_update (updateState s) = blank_state_update s.
Proof. unfold updateState. open_tests; reflexivity. Qed.

Lemma blank_tick_scenario_check w :
  blank_scenario_check (tick_scenario_check random w)
  = blank_scenario_check
      (on_sim (fun s => set_previousSensors (sensors s) s)
         (on_sim (fun s => set_tickCount (tickCount s + 1)%Z s) w)).
Proof. unfold tick_scenario_check. cbv zeta. apply blank_manageScenarios. Qed.

End Footprints.

Section Batteries.

Variable random : nat -> Q.

(** *** Batteries *)

Lemma power_supply_fields s s' :
  power_supply s' = power_supply s ->
  backupPower s' = backupPower s
  /\ batteryRechargeRate s' = batteryRechargeRate s
  /\ mainBatteryLevel s' = mainBatteryLevel s
  /\ backupBatteryLevel s' = backupBatteryLevel s
  /\ activeBattery s' = activeBattery s
  /\ inactiveBattery s' = inactiveBattery s.
Proof.
  unfold power_supply, activeBattery, inactiveBattery. intro E.
  injection E as -> -> -> ->. repeat split.
Qed.

Lemma power_supply_updateSensors w :
  power_supply (sim (updateSensors random w))
  = power_supply
      (sim (perturbPower random (current_scenario (sim w))
              (on_sim rechargeBattery w))).
Proof.
  unfold updateSensors, current_scenario. cbv zeta.
  destruct (ActiveScenario.active (activeScenario (sim w)));
    [destruct (ActiveScenario.type (activeScenario (sim w))) |];
    reflexivity.
Qed.

Lemma rechargeBattery_levels s :
  0 <= batteryRechargeRate s ->
  let s' := rechargeBattery s in
  backupPower s' = backupPower s
  /\ batteryRechargeRate s' = batteryRechargeRate s
  /\ activeBattery s' = activeBattery s
  /\ inactiveBattery s <= inactiveBattery s'
  /\ inactiveBattery s' <= Qmax 100 (inactiveBattery s).
Proof.
  intro R. unfold rechargeBattery, activeBattery, inactiveBattery.
  cbv zeta.
  destruct (backupPower s) eqn:B;
    match goal with |- context [Qlt_bool ?a ?b] =>
      destruct (Qlt_bool a b) eqn:L end;
    cbn [backupPower batteryRechargeRate mainBatteryLevel backupBatteryLevel
         set_mainBatteryLevel set_backupBatteryLevel];
    rewrite ?B; qbool; (split; [reflexivity |]); (split; [reflexivity |]);
    (split; [reflexivity |]); split; qminmax; lra.
Qed.

Lemma perturbPower_levels w :
  let s := sim w in
  let s' := sim (perturbPower random (Some POWER_SAG) w) in
  backupPower s' = backupPower s
  /\ batteryRechargeRate s' = batteryRechargeRate s
  /\ inactiveBattery s' = inactiveBattery s
  /\ activeBattery s'
     = Qmax 0 (activeBattery s - (random (S (drawn w)) * 8 + 5)).
Proof.
  unfold perturbPower, activeBattery, inactiveBattery. reduce_draws.
  cbn [sim drawn on_sim set_sim set_drawn assign_sensor set_sensors
       backupPower batteryRechargeRate mainBatteryLevel backupBatteryLevel
       set_backupBatteryLevel set_mainBatteryLevel].
  destruct (backupPower (sim w)) eqn:B;
    cbn [sim drawn on_sim set_sim set_drawn assign_sensor set_sensors
         backupPower batteryRechargeRate mainBatteryLevel backupBatteryLevel
         set_backupBatteryLevel set_mainBatteryLevel];
    rewrite ?B; repeat split.
Qed.

Lemma perturbPower_idle sc w :
  sc <> Some POWER_SAG ->
  power_supply (sim (perturbPower random sc w)) = power_supply (sim w).
Proof. destruct sc as [[]|]; try reflexivity. congruence. Qed.

Lemma current_scenario_running kind s :
  current_scenario s = Some kind <-> running kind s.
Proof.
  unfold current_scenario, running.
  destruct (ActiveScenario.active (activeScenario s)); split.
  - intro E. injection E as <-. now split.
  - intros [_ <-]. reflexivity.
  - discriminate.
  - intros [E _]. discriminate.
Qed.

Hypothesis draws : unit_draws random.

Lemma updateSensors_battery_levels w :
  0 <= batteryRechargeRate (sim w) ->
  let s := sim w in
  let s' := sim (updateSensors random w) in
  backupPower s' = backupPower s
  /\ (inactiveBattery s <= inactiveBattery s'
      /\ inactiveBattery s' <= Qmax 100 (inactiveBattery s))
  /\ (running POWER_SAG s ->
      0 <= activeBattery s'
      /\ activeBattery s' <= Qmax 0 (activeBattery s - 5))
  /\ (~ running POWER_SAG s -> activeBattery s' = activeBattery s).
Proof.
  intros R s s'.
  destruct (power_supply_fields _ _ (power_supply_updateSensors w))
    as (Ebp & Er & _ & _ & Ea & Ei).
  fold s' in Ebp, Er, Ea, Ei. rewrite Ebp, Ea, Ei. clear Ebp Er Ea Ei.
  destruct (rechargeBattery_levels s R) as (Bp & Rr & Ac & I1 & I2).
  change (sim (on_sim rechargeBattery w)) with (rechargeBattery s) in *.
  assert (Sc : current_scenario (sim w) = Some POWER_SAG
               \/ current_scenario (sim w) <> Some POWER_SAG).
  { destruct (current_scenario (sim w)) as [[]|];
      first [now left | right; discriminate]. }
  destruct Sc as [Sc | Sc].
  - rewrite Sc.
    destruct (perturbPower_levels (on_sim rechargeBattery w))
      as (Bp' & _ & In' & Ac').
    change (sim (on_sim rechargeBattery w)) with (rechargeBattery s) in *.
    rewrite Bp', In', Ac', Ac, Bp.
    apply current_scenario_running in Sc.
    destruct (draws (S (drawn (on_sim rechargeBattery w)))) as [D0 D1].
    split; [reflexivity |]. split; [split; assumption |].
    split; [| intro N; contradiction].
    intros _. split; qminmax; lra.
  - destruct (power_supply_fields _ _
                (perturbPower_idle _ (on_sim rechargeBattery w) Sc))
      as (Bp' & _ & _ & _ & Ac' & In').
    change (sim (on_sim rechargeBattery w)) with (rechargeBattery s) in *.
    rewrite Bp', In', Ac', Ac, Bp.
    split; [reflexivity |]. split; [split; assumption |].
    split; [| reflexivity].
    intro Run. apply current_scenario_running in Run. contradiction.
Qed.

(** X1. One sensor update: the battery at rest never loses charge and is
    never pushed above 100, the battery in use is drained under a power
    sag only, by at least 5 points and not below 0. *)
Theorem updateSensors_batteries w :
  0 <= batteryRechargeRate (sim w) ->
  let s := sim w in
  let s' := sim (updateSensors random w) in
  backupPower s' = backupPower s
  /\ (inactiveBattery s <= inactiveBattery s'
      /\ inactiveBattery s' <= Qmax 100 (inactiveBattery s))
  /\ (running POWER_SAG s ->
      0 <= activeBattery s'
      /\ activeBattery s' <= Qmax 0 (activeBattery s - 5))
  /\ (~ running POWER_SAG s -> activeBattery s' = activeBattery s).
Proof. exact (updateSensors_battery_levels w). Qed.

End Batteries.

Section BatteryRange.

Variable random : nat -> Q.
Hypothesis draws : unit_draws random.

Lemma batteries_in_range_same s s' :
  power_supply s' = power_supply s ->
  batteries_in_range s -> batteries_in_range s'.
Proof.
  intros E. destruct (power_supply_fields _ _ E) as (_ & R & M & B & _ & _).
  unfold batteries_in_range. now rewrite R, M, B.
Qed.

Lemma batteries_in_range_split s :
  batteries_in_range s
  <-> batteryRechargeRate s = 2
      /\ (0 <= activeBattery s /\ activeBattery s <= 100)
      /\ (0 <= inactiveBattery s /\ inactiveBattery s <= 100).
Proof.
  unfold batteries_in_range, activeBattery, inactiveBattery.
  destruct (backupPower s); tauto.
Qed.

Lemma power_supply_blank_sensor_update w w' :
  blank_sensor_update w' = blank_sensor_update w ->
  batteryRechargeRate (sim w') = batteryRechargeRate (sim w).
Proof. intro E. exact (f_equal (fun x => batteryRechargeRate (sim x)) E). Qed.

Lemma batteries_in_range_updateSensors w :
  batteries_in_range (sim w) ->
  batteries_in_range (sim (updateSensors random w)).
Proof.
  rewrite !batteries_in_range_split. intros (R & [A0 A1] & [I0 I1]).
  assert (R0 : 0 <= batteryRechargeRate (sim w))
    by (rewrite R; discriminate).
  destruct (updateSensors_battery_levels random draws w R0)
    as (_ & [J0 J1] & Run & Idle).
  split.
  - rewrite <- R.
    apply power_supply_blank_sensor_update, blank_updateSensors.
  - split; [| split; qminmax; lra].
    assert (Sc : running POWER_SAG (sim w) \/ ~ running POWER_SAG (sim w)).
    { unfold running.
      destruct (ActiveScenario.active (activeScenario (sim w)));
        [destruct (ActiveScenario.type (activeScenario (sim w))) |];
        first [now left | right; intros [? ?]; discriminate]. }
    destruct Sc as [Sc | Sc].
    + destruct (Run Sc) as [K0 K1]. split; qminmax; lra.
    + rewrite (Idle Sc). now split.
Qed.

Lemma power_supply_updateState s :
  power_supply (updateState s) = power_supply s.
Proof. exact (f_equal power_supply (blank_updateState s)). Qed.

Lemma power_supply_tick_scenario_check w :
  power_supply (sim (tick_scenario_check random w)) = power_supply (sim w).
Proof.
  exact (f_equal (fun x => power_supply (sim x))
                 (blank_tick_scenario_check random w)).
Qed.

Lemma power_supply_set_sensorHistory h s :
  power_supply (set_sensorHistory h s) = power_supply s.
Proof. reflexivity. Qed.

Lemma power_supply_calculateStability s :
  power_supply (calculateStability s) = power_supply s.
Proof. reflexivity. Qed.

Lemma batteries_in_range_tick w :
  batteries_in_range (sim w) -> batteries_in_range (sim (tick random w)).
Proof.
  intro H. destruct (sim_tick random w) as (h & E). rewrite E.
  apply (batteries_in_range_same
           (sim (updateSensors random (tick_scenario_check random w)))).
  - now rewrite power_supply_set_sensorHistory, power_supply_updateState,
      power_supply_calculateStability.
  - apply batteries_in_range_updateSensors.
    apply (batteries_in_range_same (sim w)); [| exact H].
    apply power_supply_tick_scenario_check.
Qed.

Lemma batteries_in_range_endScenario w :
  batteries_in_range (sim w) ->
  batteries_in_range (sim (endScenarioAndScheduleNext w)).
Proof.
  intros (R & _). split; [exact R |].
  repeat split; discriminate.
Qed.

Lemma batteries_in_range_run_callback h cb w :
  batteries_in_range (sim w) ->
  batteries_in_range (sim (fst (run_callback random h cb w))).
Proof.
  intro H. destruct cb as [| | | k steps sc tv step]; cbn [run_callback fst].
  - apply batteries_in_range_tick, H.
  - apply batteries_in_range_endScenario. exact H.
  - exact H.
  - cbv zeta. destruct (steps <=? step + 1)%Z.
    + apply batteries_in_range_endScenario. exact H.
    + exact H.
Qed.

Lemma batteries_in_range_react w e :
  batteries_in_range (sim w) -> batteries_in_range (sim (react random w e)).
Proof.
  intro H. destruct e as [| a | dt]; cbn [react]; [| | exact H].
  - unfold runNextTimer. destruct (next_due (timers w)) as [t |]; [| exact H].
    unfold dispatch. cbv zeta.
    pose proof (batteries_in_range_run_callback (handle t) (callback t)
                  (reschedule t (set_clock (Z.max (clock w) (due t)) w))) as R.
    destruct (run_callback random (handle t) (callback t) _) as [w' cb'].
    rewrite sim_store_closure. apply R. rewrite sim_reschedule. exact H.
  - unfold executeAction.
    destruct (String.eqb a ACTIONS.SWITCH_BACKUP_POWER).
    { destruct H as (R & _ & B). split; [exact R |].
      split; [split; discriminate | exact B]. }
    destruct (String.eqb a ACTIONS.INCREASE_PRESSURE); [exact H |].
    destruct (String.eqb a ACTIONS.DECREASE_PRESSURE); [exact H |].
    destruct (String.eqb a ACTIONS.INCREASE_COOLING); [exact H |].
    destruct (String.eqb a ACTIONS.PAUSE_LINE); [exact H |].
    destruct (String.eqb a ACTIONS.RESUME_LINE); [| exact H].
    unfold resumeLine. open_tests; exact H.
Qed.

(** X2. Whatever happens after start-up, both battery levels stay within
    [0,100] and the recharge rate stays at 2. *)
Theorem batteries_in_range_run now es :
  batteries_in_range (sim (run random es (boot now))).
Proof.
  assert (G : forall w, batteries_in_range (sim w) ->
                        batteries_in_range (sim (run random es w))).
  { unfold run. induction es as [|e es IH]; intros w H; [exact H |].
    cbn [fold_left]. apply IH, batteries_in_range_react, H. }
  apply G. split; [reflexivity |]. repeat split; discriminate.
Qed.

End BatteryRange.

(** Draws at one half; ticks, a power sag answered by the backup
    battery, and the ticks after it. *)
Lemma batteries_in_range_run_witness :
  batteries_in_range
    (sim (run half
            [TimerFires; TimerFires; TimerFires; TimerFires;
             Operator "switch_backup_power"; TimerFires; TimerFires]
            (boot 0))).
Proof. apply (batteries_in_range_run half unit_draws_half). Defined.

(** A power sag on the main battery at level 50 with the backup battery
    at 99. *)
Lemma updateSensors_batteries_witness :
  let s0 := set_backupBatteryLevel 99
              (set_mainBatteryLevel 50 (new_FactorySimulation 0)) in
  let sag :=
    {| ActiveScenario.type := POWER_SAG; ActiveScenario.active := true;
       ActiveScenario.tickCount := 0; ActiveScenario.duration := None |} in
  let w := on_sim (fun _ => set_activeScenario sag s0) (boot 0) in
  activeBattery (sim (updateSensors half w)) <= Qmax 0 (50 - 5)
  /\ 99 <= inactiveBattery (sim (updateSensors half w)).
Proof.
  intros s0 sag w.
  assert (R : 0 <= batteryRechargeRate (sim w)) by discriminate.
  destruct (updateSensors_batteries half unit_draws_half w R)
    as (_ & [I _] & Run & _).
  split; [| exact I].
  apply Run. split; reflexivity.
Defined.

Section Drift.

Variable random : nat -> Q.

(** *** How a sensor update moves the channels *)

Lemma sensors_rechargeBattery s : sensors (rechargeBattery s) = sensors s.
Proof. unfold rechargeBattery. open_tests; reflexivity. Qed.

(** The perturbation of the scenario, one draw [r] of which reaches the
    sensors. *)
Lemma sensors_perturbPower w :
  sensors (sim (perturbPower random (Some POWER_SAG) w))
  = sensor_set (sensors (sim w)) K_power
      (power (sensors (sim w)) - (random (drawn w) * 4 + 2)).
Proof. unfold perturbPower. open_tests; reflexivity. Qed.

Lemma sensors_perturbPressure w :
  sensors (sim (perturbPressure random (Some PRESSURE_DRIFT) w))
  = sensor_set (sensors (sim w)) K_pressure
      (pressure (sensors (sim w)) - (random (drawn w) * 3 + 2)).
Proof. reflexivity. Qed.

Lemma sensors_perturbTemperature w :
  sensors (sim (perturbTemperature random (Some OVERHEAT) w))
  = sensor_set (sensors (sim w)) K_temperature
      (temperature (sensors (sim w)) + (random (drawn w) * 2 + 2)).
Proof. reflexivity. Qed.

Lemma perturbPower_skip sc w :
  sc <> Some POWER_SAG -> perturbPower random sc w = w.
Proof. destruct sc as [[]|]; try reflexivity. congruence. Qed.

Lemma perturbPressure_skip sc w :
  sc <> Some PRESSURE_DRIFT -> perturbPressure random sc w = w.
Proof. destruct sc as [[]|]; try reflexivity. congruence. Qed.

Lemma perturbTemperature_skip sc w :
  sc <> Some OVERHEAT -> perturbTemperature random sc w = w.
Proof. destruct sc as [[]|]; try reflexivity. congruence. Qed.

Lemma sensors_fluctuate_clamp w :
  let x := sensors (sim w) in
  let d := drawn w in
  sensors (sim (on_sim clampSensors (fluctuate random w)))
  = {| power := clamp 0 100 (power x + (random d - 0.5) * 2);
       pressure :=
         clamp 100 200 (pressure x + (random (S (S d)) - 0.5) * 2);
       temperature :=
         clamp 20 120 (temperature x + (random (S d) - 0.5) * 1) |}.
Proof. reflexivity. Qed.

(** The value each channel holds before the ambient fluctuation, and
    the draws of the fluctuation. *)
Lemma updateSensors_sensors w :
  let x := sensors (sim w) in
  let sc := current_scenario (sim w) in
  exists (r : Q) (d : nat),
    r = random (drawn w)
    /\ sensors (sim (updateSensors random w))
       = {| power :=
              clamp 0 100
                ((match sc with
                  | Some POWER_SAG => power x - (r * 4 + 2)
                  | _ => power x
                  end) + (random d - 0.5) * 2);
            pressure :=
              clamp 100 200
                ((match sc with
                  | Some PRESSURE_DRIFT => pressure x - (r * 3 + 2)
                  | _ => pressure x
                  end) + (random (S (S d)) - 0.5) * 2);
            temperature :=
              clamp 20 120
                ((match sc with
                  | Some OVERHEAT => temperature x + (r * 2 + 2)
                  | _ => temperature x
                  end) + (random (S d) - 0.5) * 1) |}.
Proof.
  intros x sc. exists (random (drawn w)).
  unfold updateSensors. fold (current_scenario (sim w)).
  subst sc. cbv zeta.
  assert (X : sensors (sim (on_sim rechargeBattery w)) = x)
    by apply sensors_rechargeBattery.
  assert (D : drawn (on_sim rechargeBattery w) = drawn w) by reflexivity.
  destruct (current_scenario (sim w)) as [[]|];
    rewrite ?perturbPower_skip, ?perturbPressure_skip,
      ?perturbTemperature_skip by discriminate;
    match goal with |- context [fluctuate random ?u] =>
      exists (drawn u); split; [reflexivity |];
      rewrite (sensors_fluctuate_clamp u); cbv zeta
    end;
    rewrite ?sensors_perturbPower, ?sensors_perturbPressure,
      ?sensors_perturbTemperature, ?X, ?D;
    reflexivity.
Qed.

Hypothesis draws : unit_draws random.

(** X3. While a fault runs, each sensor update moves the channel it targets
    in the fault's direction: power by more than 1 and less than 7 kW
    down, pressure by more than 1 and less than 6 bar down, temperature
    by at least 1.5 and less than 4.5 degrees up, before the clamp to
    the hard range; so a reading strictly inside its range strictly
    worsens. *)
Theorem fault_drift w :
  let x := sensors (sim w) in
  let x' := sensors (sim (updateSensors random w)) in
  (running POWER_SAG (sim w) ->
   (exists v, power x - 7 < v /\ v < power x - 1
              /\ power x' = clamp 0 100 v)
   /\ (0 < power x -> power x <= 100 -> power x' < power x))
  /\ (running PRESSURE_DRIFT (sim w) ->
      (exists v, pressure x - 6 < v /\ v < pressure x - 1
                 /\ pressure x' = clamp 100 200 v)
      /\ (100 < pressure x -> pressure x <= 200 ->
          pressure x' < pressure x))
  /\ (running OVERHEAT (sim w) ->
      (exists v, temperature x + 1.5 <= v /\ v < temperature x + 4.5
                 /\ temperature x' = clamp 20 120 v)
      /\ (20 <= temperature x -> temperature x < 120 ->
          temperature x < temperature x')).
Proof.
  intros x x'.
  destruct (updateSensors_sensors w) as (r & d & Er & E).
  fold x in E. fold x' in E. rewrite E. clear E.
  cbn [power pressure temperature].
  assert (R : 0 <= r /\ r < 1) by (rewrite Er; apply draws).
  destruct (draws d) as [A0 A1]. destruct (draws (S d)) as [B0 B1].
  destruct (draws (S (S d))) as [C0 C1]. destruct R as [R0 R1].
  split; [| split]; intro Run; apply current_scenario_running in Run;
    rewrite Run; (split; [eexists; split; [| split; [| reflexivity]] |]);
    try lra; intros; unfold clamp; qminmax; lra.
Qed.

(** X4. A channel that no running fault targets moves by the ambient
    fluctuation alone: by at most 1 kW, 1 bar and half a degree before
    the clamp, and so by no more than that for a reading inside its hard
    range. *)
Theorem ambient_fluctuation w :
  let x := sensors (sim w) in
  let x' := sensors (sim (updateSensors random w)) in
  (~ running POWER_SAG (sim w) ->
   (exists v, power x - 1 <= v /\ v < power x + 1
              /\ power x' = clamp 0 100 v)
   /\ (0 <= power x -> power x <= 100 ->
       power x - 1 <= power x' /\ power x' <= power x + 1))
  /\ (~ running PRESSURE_DRIFT (sim w) ->
      (exists v, pressure x - 1 <= v /\ v < pressure x + 1
                 /\ pressure x' = clamp 100 200 v)
      /\ (100 <= pressure x -> pressure x <= 200 ->
          pressure x - 1 <= pressure x' /\ pressure x' <= pressure x + 1))
  /\ (~ running OVERHEAT (sim w) ->
      (exists v, temperature x - 0.5 <= v /\ v < temperature x + 0.5
                 /\ temperature x' = clamp 20 120 v)
      /\ (20 <= temperature x -> temperature x <= 120 ->
          temperature x - 0.5 <= temperature x'
          /\ temperature x' <= temperature x + 0.5)).
Proof.
  intros x x'.
  destruct (updateSensors_sensors w) as (r & d & Er & E).
  fold x in E. fold x' in E. rewrite E. clear E.
  cbn [power pressure temperature].
  destruct (draws d) as [A0 A1]. destruct (draws (S d)) as [B0 B1].
  destruct (draws (S (S d))) as [C0 C1].
  split; [| split]; intro Idle;
    rewrite <- current_scenario_running in Idle;
    destruct (current_scenario (sim w)) as [[]|]; try (now elim Idle);
    (split; [eexists; split; [| split; [| reflexivity]] |]);
    try lra; intros; unfold clamp; split; qminmax; lra.
Qed.

End Drift.

(** A power sag at 42 kW, draws at one half: the reading falls. *)
Lemma fault_drift_witness :
  let sag :=
    {| ActiveScenario.type := POWER_SAG; ActiveScenario.active := true;
       ActiveScenario.tickCount := 0; ActiveScenario.duration := None |} in
  let w := on_sim (set_activeScenario sag) (boot 0) in
  power (sensors (sim (updateSensors half w))) < 42.
Proof.
  intros sag w.
  apply (proj1 (fault_drift half unit_draws_half w)).
  - split; reflexivity.
  - reflexivity.
  - discriminate.
Defined.

(** No scenario, pressure at 140 bar: the next reading lies within one
    bar of it. *)
Lemma ambient_fluctuation_witness :
  let w := boot 0 in
  140 - 1 <= pressure (sensors (sim (updateSensors half w)))
  /\ pressure (sensors (sim (updateSensors half w))) <= 140 + 1.
Proof.
  intro w.
  apply (proj1 (proj2 (ambient_fluctuation half unit_draws_half w))).
  - intros [A _]. discriminate A.
  - discriminate.
  - discriminate.
Defined.

(** *** Scores and states that can occur *)

Lemma some_channel_is_status st s :
  some_channel_is st (sensors s) = true
  <-> exists k, getSensorStatus s k = st.
Proof.
  unfold some_channel_is. rewrite existsb_exists. split.
  - intros (k & _ & E). exists k.
    rewrite getSensorStatus_classify. now apply SensorStatus_eqb_eq.
  - intros (k & E). exists k. split.
    + destruct k; simpl; auto.
    + apply SensorStatus_eqb_eq. now rewrite <- getSensorStatus_classify.
Qed.

(** A worsening trend is only ever seen on a channel that is outside
    its nominal band. *)
Lemma trend_needs_alert s :
  trend_penalty_applies s = true ->
  exists k, getSensorStatus s k <> normal.
Proof.
  unfold trend_penalty_applies.
  destruct (rev (sensorHistory s)) as [|prev [|y rest]]; try discriminate.
  unfold moving_away. rewrite !orb_true_iff.
  intros [[H | H] | H];
    [exists K_power | exists K_pressure | exists K_temperature];
    rewrite getSensorStatus_classify; unfold classify_spec, sensor_get;
    repeat match goal with
      | _ : context [Qlt_le_dec ?a ?b] |- _ => destruct (Qlt_le_dec a b)
      | |- context [Qlt_le_dec ?a ?b] => destruct (Qlt_le_dec a b)
      end;
    try discriminate; exfalso; lra.
Qed.

Lemma score_cases s :
  exists bw bc bt : bool,
    stability (calculateStability s)
    == 100 - (if bw then 10 else 0) - (if bc then 25 else 0)
       - (if bt then 5 else 0)
    /\ (bw = true <-> exists k, getSensorStatus s k = warning)
    /\ (bc = true <-> exists k, getSensorStatus s k = critical)
    /\ (bt = true -> bw = true \/ bc = true).
Proof.
  exists (some_channel_is warning (sensors s)),
         (some_channel_is critical (sensors s)),
         (trend_penalty_applies s).
  split; [| split; [| split]].
  - rewrite calculateStability_score. unfold stability_spec. cbv zeta.
    destruct (some_channel_is warning (sensors s));
      destruct (some_channel_is critical (sensors s));
      destruct (trend_penalty_applies s); reflexivity.
  - apply some_channel_is_status.
  - apply some_channel_is_status.
  - intro T. destruct (trend_needs_alert s T) as (k & N).
    destruct (getSensorStatus s k) eqn:E; [now elim N | left | right];
      apply some_channel_is_status; eauto.
Qed.

(** X5. The score is one of eight values, 60 at the least, so that the
    clamp of [calculateStability] is never reached; it is 100 when all
    three channels classify normal. *)
Theorem score_values s :
  let v := stability (calculateStability s) in
  (v == 100 \/ v == 95 \/ v == 90 \/ v == 85
   \/ v == 75 \/ v == 70 \/ v == 65 \/ v == 60)
  /\ ((forall k, getSensorStatus s k = normal) -> v == 100).
Proof.
  intro v. subst v.
  destruct (score_cases s) as (bw & bc & bt & E & W & C & T).
  split.
  - rewrite E. destruct bw, bc, bt; cbv iota;
      first [ left; reflexivity
            | right; left; reflexivity
            | right; right; left; reflexivity
            | right; right; right; left; reflexivity
            | right; right; right; right; left; reflexivity
            | right; right; right; right; right; left; reflexivity
            | right; right; right; right; right; right; left; reflexivity
            | right; right; right; right; right; right; right; reflexivity ].
  - intro N. rewrite E.
    assert (Bw : bw = false).
    { destruct bw; trivial. destruct (proj1 W eq_refl) as (k & K).
      rewrite N in K. discriminate. }
    assert (Bc : bc = false).
    { destruct bc; trivial. destruct (proj1 C eq_refl) as (k & K).
      rewrite N in K. discriminate. }
    assert (Bt : bt = false).
    { destruct bt; trivial. destruct (T eq_refl); congruence. }
    rewrite Bw, Bc, Bt. reflexivity.
Qed.

Lemma state_of_score_eq (a b : Q) :
  a == b -> state_of_score a = state_of_score b.
Proof.
  intro E. unfold state_of_score.
  destruct (Qlt_le_dec a 71), (Qlt_le_dec b 71),
    (Qlt_le_dec a 86), (Qlt_le_dec b 86); trivial; exfalso; lra.
Qed.

(** X6. On a line that is not paused, scoring followed by the state update
    gives NORMAL when all channels are normal, never CRITICAL when no
    channel is critical, and never NORMAL when some channel is. *)
Theorem state_after_scoring s :
  state s <> PAUSED ->
  let s' := updateState (calculateStability s) in
  ((forall k, getSensorStatus s k = normal) -> state s' = NORMAL)
  /\ ((forall k, getSensorStatus s k <> critical) -> state s' <> CRITICAL)
  /\ ((exists k, getSensorStatus s k = critical) -> state s' <> NORMAL).
Proof.
  intros P s'. subst s'.
  rewrite (updateState_not_paused (calculateStability s) P).
  destruct (score_cases s) as (bw & bc & bt & E & W & C & T).
  rewrite (state_of_score_eq _ _ E).
  split; [| split].
  - intro N.
    assert (Bw : bw = false).
    { destruct bw; trivial. destruct (proj1 W eq_refl) as (k & K).
      rewrite N in K. discriminate. }
    assert (Bc : bc = false).
    { destruct bc; trivial. destruct (proj1 C eq_refl) as (k & K).
      rewrite N in K. discriminate. }
    assert (Bt : bt = false).
    { destruct bt; trivial. destruct (T eq_refl); congruence. }
    rewrite Bw, Bc, Bt. reflexivity.
  - intro N.
    assert (Bc : bc = false).
    { destruct bc; trivial. destruct (proj1 C eq_refl) as (k & K).
      now elim (N k). }
    rewrite Bc. destruct bw, bt; discriminate.
  - intro X. rewrite (proj2 C X). destruct bw, bt; discriminate.
Qed.

(** Temperature at 90 degrees on an otherwise nominal line. *)
Lemma state_after_scoring_witness :
  let s := assign_sensor K_temperature 90 (new_FactorySimulation 0) in
  state (updateState (calculateStability s)) <> NORMAL.
Proof.
  intro s.
  refine (proj2 (proj2 (state_after_scoring s _)) _).
  - discriminate.
  - exists K_temperature. reflexivity.
Defined.

Section HistoryAndTelemetry.

Variable random : nat -> Q.

(** *** History and telemetry of a tick *)

Lemma tick_unfold w :
  tick random w = emitTelemetry (recordHistory (tick_scored random w)).
Proof. reflexivity. Qed.

Lemma ledger_fields w c t n d h p :
  ledger w = (c, t, n, d, h, p) ->
  clock w = c /\ timers w = t /\ nextHandle w = n /\ dispatched w = d
  /\ sensorHistory (sim w) = h /\ previousSensors (sim w) = p.
Proof. unfold ledger. intro H. injection H as -> -> -> -> -> ->. auto 10. Qed.

Lemma ledger_updateState w :
  ledger (on_sim updateState w) = ledger w.
Proof.
  unfold ledger, on_sim.
  cbn [sim clock timers nextHandle dispatched set_sim].
  pose proof (f_equal sensorHistory (blank_updateState (sim w))) as H.
  pose proof (f_equal previousSensors (blank_updateState (sim w))) as P.
  cbn [blank_state_update sensorHistory previousSensors set_state
       set_stableTickCount] in H, P.
  now rewrite H, P.
Qed.

Lemma ledger_calculateStability w :
  ledger (on_sim calculateStability w) = ledger w.
Proof. reflexivity. Qed.

Lemma ledger_updateSensors w : ledger (updateSensors random w) = ledger w.
Proof. exact (f_equal ledger (blank_updateSensors random w)). Qed.

Lemma ledger_tick_scored w :
  ledger (tick_scored random w)
  = (clock w, timers w, nextHandle w, dispatched w, sensorHistory (sim w),
     sensors (sim w)).
Proof.
  unfold tick_scored.
  rewrite ledger_updateState, ledger_calculateStability,
    ledger_updateSensors.
  exact (f_equal ledger (blank_tick_scenario_check random w)).
Qed.

(** The history with one more entry, the oldest one dropped beyond
    capacity. *)
Lemma recordHistory_eq w :
  recordHistory w
  = on_sim (set_sensorHistory
              (if (CHARTS.MAX_DATA_POINTS
                   <? List.length (sensorHistory (sim w) ++ [reading w]))%nat
               then tl (sensorHistory (sim w) ++ [reading w])
               else sensorHistory (sim w) ++ [reading w])) w.
Proof.
  unfold recordHistory, Date_now. fold (reading w). cbv zeta.
  cbn [sensorHistory sim on_sim set_sim set_sensorHistory].
  destruct (CHARTS.MAX_DATA_POINTS
            <? List.length (sensorHistory (sim w) ++ [reading w]))%nat;
    reflexivity.
Qed.

(** The last two steps of a tick, on any world. *)
Lemma reading_emit_record u :
  reading (emitTelemetry (recordHistory u)) = reading u.
Proof. rewrite recordHistory_eq. reflexivity. Qed.

Lemma sensorHistory_emit_record u :
  sensorHistory (sim (emitTelemetry (recordHistory u)))
  = if (CHARTS.MAX_DATA_POINTS
        <? List.length (sensorHistory (sim u) ++ [reading u]))%nat
    then tl (sensorHistory (sim u) ++ [reading u])
    else sensorHistory (sim u) ++ [reading u].
Proof. rewrite recordHistory_eq. reflexivity. Qed.

Lemma telemetry_emit_record u :
  dispatched (emitTelemetry (recordHistory u))
  = dispatched u ++ [getTelemetrySnapshot (emitTelemetry (recordHistory u))]
  /\ clock (emitTelemetry (recordHistory u)) = clock u
  /\ sensors (sim (emitTelemetry (recordHistory u))) = sensors (sim u)
  /\ previousSensors (sim (emitTelemetry (recordHistory u)))
     = previousSensors (sim u).
Proof. rewrite recordHistory_eq. repeat split. Qed.

Lemma tick_scored_ledger w :
  clock (tick_scored random w) = clock w
  /\ dispatched (tick_scored random w) = dispatched w
  /\ sensorHistory (sim (tick_scored random w)) = sensorHistory (sim w)
  /\ previousSensors (sim (tick_scored random w)) = sensors (sim w).
Proof.
  destruct (ledger_fields _ _ _ _ _ _ _ (ledger_tick_scored w))
    as (Hc & _ & _ & Hd & Hh & Hp).
  auto.
Qed.

Lemma reading_tick w :
  reading (tick random w) = reading (tick_scored random w).
Proof. rewrite tick_unfold. apply reading_emit_record. Qed.

Lemma sensorHistory_tick w :
  sensorHistory (sim (tick random w))
  = if (CHARTS.MAX_DATA_POINTS
        <? List.length (sensorHistory (sim w) ++ [reading (tick random w)]))%nat
    then tl (sensorHistory (sim w) ++ [reading (tick random w)])
    else sensorHistory (sim w) ++ [reading (tick random w)].
Proof.
  rewrite reading_tick, tick_unfold, sensorHistory_emit_record.
  destruct (tick_scored_ledger w) as (_ & _ & H & _).
  rewrite H. reflexivity.
Qed.

Lemma tick_history_step w :
  let h := sensorHistory (sim w) in
  let h' := sensorHistory (sim (tick random w)) in
  let e := reading (tick random w) in
  HistoryEntry.time e = clock w
  /\ ((List.length h < 60)%nat -> h' = h ++ [e])
  /\ ((60 <= List.length h)%nat -> h' = tl h ++ [e]).
Proof.
  intros h h' e. subst h'. rewrite sensorHistory_tick. fold h. fold e.
  split; [| split].
  - subst e. rewrite reading_tick. unfold reading.
    cbn [HistoryEntry.time]. apply tick_scored_ledger.
  - intro L. rewrite length_app. cbn [List.length].
    destruct (CHARTS.MAX_DATA_POINTS <? List.length h + 1)%nat eqn:E;
      trivial.
    apply Nat.ltb_lt in E. unfold CHARTS.MAX_DATA_POINTS in E. lia.
  - intro L. rewrite length_app. cbn [List.length].
    destruct (CHARTS.MAX_DATA_POINTS <? List.length h + 1)%nat eqn:E.
    + destruct h; [simpl in L; lia | reflexivity].
    + apply Nat.ltb_ge in E. unfold CHARTS.MAX_DATA_POINTS in E. lia.
Qed.

(** X7. A tick appends one entry to the history, the reading it ends with:
    its time is the clock of the tick and its values, score and state
    are those the tick leaves.  At 60 entries the oldest one goes. *)
Theorem tick_records_reading w :
  let h := sensorHistory (sim w) in
  let h' := sensorHistory (sim (tick random w)) in
  let e := reading (tick random w) in
  HistoryEntry.time e = clock w
  /\ ((List.length h < 60)%nat -> h' = h ++ [e])
  /\ ((60 <= List.length h)%nat -> h' = tl h ++ [e]).
Proof. exact (tick_history_step w). Qed.

Lemma history_length_tick w :
  (List.length (sensorHistory (sim w)) <= 60)%nat ->
  (List.length (sensorHistory (sim (tick random w))) <= 60)%nat.
Proof.
  intro L.
  destruct (tick_history_step w) as (_ & A & B).
  revert L A B.
  generalize (sensorHistory (sim (tick random w))) as h'.
  generalize (reading (tick random w)) as e.
  generalize (sensorHistory (sim w)) as h.
  intros h e h' L A B.
  destruct (Nat.lt_ge_cases (List.length h) 60) as [C | C].
  - rewrite (A C), length_app. simpl. lia.
  - rewrite (B C), length_app. destruct h; simpl in *; lia.
Qed.

Lemma history_run_callback h cb w :
  (List.length (sensorHistory (sim w)) <= 60)%nat ->
  (List.length
     (sensorHistory (sim (fst (run_callback random h cb w)))) <= 60)%nat.
Proof.
  intro H. destruct cb as [| | | k steps sc tv step]; cbn [run_callback fst].
  - apply history_length_tick, H.
  - exact H.
  - exact H.
  - cbv zeta. destruct (steps <=? step + 1)%Z; exact H.
Qed.

Lemma history_react w e :
  (List.length (sensorHistory (sim w)) <= 60)%nat ->
  (List.length (sensorHistory (sim (react random w e))) <= 60)%nat.
Proof.
  intro H. destruct e as [| a | dt]; cbn [react]; [| | exact H].
  - unfold runNextTimer. destruct (next_due (timers w)) as [t |]; [| exact H].
    unfold dispatch. cbv zeta.
    pose proof (history_run_callback (handle t) (callback t)
                  (reschedule t (set_clock (Z.max (clock w) (due t)) w))) as R.
    destruct (run_callback random (handle t) (callback t) _) as [w' cb'].
    rewrite sim_store_closure. apply R. rewrite sim_reschedule. exact H.
  - unfold executeAction.
    destruct (String.eqb a ACTIONS.SWITCH_BACKUP_POWER); [exact H |].
    destruct (String.eqb a ACTIONS.INCREASE_PRESSURE); [exact H |].
    destruct (String.eqb a ACTIONS.DECREASE_PRESSURE); [exact H |].
    destruct (String.eqb a ACTIONS.INCREASE_COOLING); [exact H |].
    destruct (String.eqb a ACTIONS.PAUSE_LINE); [exact H |].
    destruct (String.eqb a ACTIONS.RESUME_LINE); [| exact H].
    unfold resumeLine. open_tests; exact H.
Qed.

(** X8. The history never holds more than 60 entries, whatever happens
    after start-up. *)
Theorem history_bounded_run now es :
  (List.length (sensorHistory (sim (run random es (boot now)))) <= 60)%nat.
Proof.
  assert (G : forall w,
             (List.length (sensorHistory (sim w)) <= 60)%nat ->
             (List.length (sensorHistory (sim (run random es w))) <= 60)%nat).
  { unfold run. induction es as [|e es IH]; intros w H; [exact H |].
    cbn [fold_left]. apply IH, history_react, H. }
  apply G. simpl. lia.
Qed.

(** X9. A tick dispatches exactly one telemetry event, stamped with the
    clock of the tick; it is the snapshot of the world the tick leaves,
    and its deltas are the changes of the three channels over this
    tick. *)
Theorem tick_telemetry w :
  let w' := tick random w in
  let t := getTelemetrySnapshot w' in
  dispatched w' = dispatched w ++ [t]
  /\ Telemetry.timestamp t = clock w
  /\ Telemetry.powerDelta t
     = power (sensors (sim w')) - power (sensors (sim w))
  /\ Telemetry.pressureDelta t
     = pressure (sensors (sim w')) - pressure (sensors (sim w))
  /\ Telemetry.tempDelta t
     = temperature (sensors (sim w')) - temperature (sensors (sim w)).
Proof.
  intros w' t. subst t w'. rewrite tick_unfold.
  destruct (telemetry_emit_record (tick_scored random w))
    as (D & C & S & P).
  destruct (tick_scored_ledger w) as (Hc & Hd & _ & Hp).
  split; [rewrite D, Hd; reflexivity |].
  unfold getTelemetrySnapshot, Date_now.
  cbn [Telemetry.timestamp Telemetry.powerDelta Telemetry.pressureDelta
       Telemetry.tempDelta].
  rewrite C, P, Hc, Hp. repeat split.
Qed.

End HistoryAndTelemetry.

(** The sixty-first tick of a run drops the reading of the first. *)
Lemma tick_records_reading_witness :
  let w := run half (repeat TimerFires 60) (boot 0) in
  sensorHistory (sim (tick half w))
  = tl (sensorHistory (sim w)) ++ [reading (tick half w)].
Proof.
  intro w. apply (tick_records_reading half w).
  apply Nat.leb_le. vm_compute. reflexivity.
Defined.

Section ScenarioStart.

Variable random : nat -> Q.

(** *** When a tick starts a scenario *)

Lemma manageScenarios_starts elapsed w :
  ActiveScenario.active (activeScenario (sim w)) = false ->
  (ActiveScenario.active
     (activeScenario (sim (manageScenarios random elapsed w))) = true
   <-> (SIMULATION.STARTUP_STABLE_DURATION <= elapsed)%Z
       /\ state (sim w) <> PAUSED
       /\ scenarioScheduled (sim w) = false
       /\ (SIMULATION.SCENARIO_DELAY
           <= clock w - lastScenarioEndTime (sim w))%Z).
Proof.
  intro A. unfold manageScenarios, Date_now.
  destruct (elapsed <? SIMULATION.STARTUP_STABLE_DURATION)%Z eqn:E.
  { apply Z.ltb_lt in E.
    change (activeScenario (sim (on_sim ?f w)))
      with (activeScenario (f (sim w))).
    cbn [activeScenario set_stableTickCount]. rewrite A.
    split; [discriminate | intros (? & _); lia]. }
  apply Z.ltb_ge in E.
  destruct (STATES_eqb (state (sim w)) PAUSED) eqn:P.
  { apply STATES_eqb_eq in P. rewrite A.
    split; [discriminate | intros (_ & N & _); contradiction]. }
  assert (N : state (sim w) <> PAUSED).
  { intro X. apply STATES_eqb_eq in X. congruence. }
  destruct (scenarioScheduled (sim w)) eqn:S.
  { rewrite A. split; [discriminate | intros (_ & _ & X & _); discriminate]. }
  rewrite A. cbn [negb].
  destruct (SIMULATION.SCENARIO_DELAY
            <=? clock w - lastScenarioEndTime (sim w))%Z eqn:D.
  - apply Z.leb_le in D. split; [auto | reflexivity].
  - apply Z.leb_gt in D. rewrite A.
    split; [discriminate | intros (_ & _ & _ & X); lia].
Qed.

(** X10. A tick turns an inactive scenario record into an active one exactly
    when the start-up window has elapsed, the line is not paused, no
    start is scheduled by timer and the delay since the last scenario
    end has passed. *)
Theorem tick_starts_scenario_iff w :
  ActiveScenario.active (activeScenario (sim w)) = false ->
  (ActiveScenario.active (activeScenario (sim (tick random w))) = true
   <-> start_conditions w).
Proof.
  intro A. rewrite activeScenario_tick. unfold tick_scenario_check.
  cbv zeta. rewrite manageScenarios_starts by exact A. reflexivity.
Qed.

Hypothesis draws : unit_draws random.

(** X11. A started scenario is active, at tick count 0, and of one of the
    three fault kinds; the start consumes one draw and writes nothing
    but the scenario record. *)
Theorem startRandomScenario_fault_kind w :
  let w' := startRandomScenario random w in
  let a := activeScenario (sim w') in
  (ActiveScenario.type a = POWER_SAG
   \/ ActiveScenario.type a = PRESSURE_DRIFT
   \/ ActiveScenario.type a = OVERHEAT)
  /\ ActiveScenario.active a = true
  /\ ActiveScenario.tickCount a = 0%Z
  /\ drawn w' = S (drawn w)
  /\ w' = set_drawn (S (drawn w)) (on_sim (set_activeScenario a) w).
Proof.
  intros w' a.
  destruct (draws (drawn w)) as [L U].
  pose proof (scenario_index_in_range (random (drawn w)) L U) as R.
  assert (K : ActiveScenario.type a
              = nth (Z.to_nat (Qfloor (random (drawn w) * 3)))
                    [POWER_SAG; PRESSURE_DRIFT; OVERHEAT] NONE)
    by reflexivity.
  split; [| repeat split].
  rewrite K.
  assert (C : (Qfloor (random (drawn w) * 3) = 0
               \/ Qfloor (random (drawn w) * 3) = 1
               \/ Qfloor (random (drawn w) * 3) = 2)%Z) by lia.
  destruct C as [C | [C | C]]; rewrite C; simpl; auto.
Qed.

End ScenarioStart.

(** Eighteen seconds after start-up, the line running: the tick starts
    a scenario. *)
Lemma tick_starts_scenario_iff_witness :
  let w := set_clock 18000 (boot 0) in
  ActiveScenario.active (activeScenario (sim (tick half w))) = true.
Proof.
  intro w. apply (tick_starts_scenario_iff half w).
  - reflexivity.
  - repeat split; try discriminate; vm_compute; discriminate.
Defined.

Lemma startRandomScenario_fault_kind_witness :
  ActiveScenario.active
    (activeScenario (sim (startRandomScenario half (boot 0)))) = true.
Proof.
  apply (startRandomScenario_fault_kind half unit_draws_half (boot 0)).
Defined.

(** *** Actions that fail *)

(** X12. A name outside the six known ones is answered "Unknown action", and
    an action that reports failure, whatever its name, has changed
    nothing. *)
Theorem executeAction_failure a w :
  (~ In a known_actions ->
   executeAction a w
   = ({| success := false; message := "Unknown action" |}, w))
  /\ (success (fst (executeAction a w)) = false ->
      snd (executeAction a w) = w).
Proof.
  unfold executeAction, known_actions. split.
  - intro N.
    repeat match goal with
      | |- context [String.eqb a ?n] =>
          destruct (String.eqb a n) eqn:?;
          [ exfalso; apply N;
            match goal with H : String.eqb _ _ = true |- _ =>
              apply String.eqb_eq in H; rewrite H end;
            simpl; tauto
          | ]
      end.
    reflexivity.
  - repeat match goal with
      | |- context [String.eqb a ?n] =>
          destruct (String.eqb a n);
          [ try (cbn; discriminate) | ]
      end; try reflexivity.
    unfold resumeLine. open_tests; cbn; try discriminate; reflexivity.
Qed.

Lemma executeAction_failure_witness :
  executeAction "restart_line" (boot 0)
  = ({| success := false; message := "Unknown action" |}, boot 0).
Proof.
  apply (executeAction_failure "restart_line" (boot 0)).
  simpl. intros [H | [H | [H | [H | [H | [H | []]]]]]]; discriminate H.
Defined.

(** *** Starting and stopping the tick timer *)

Lemma filter_fresh (ts : list Timer) (h : nat) :
  (forall t, In t ts -> (handle t < h)%nat) ->
  filter (fun t => negb (Nat.eqb (handle t) h)) ts = ts.
Proof.
  induction ts as [|t ts IH]; intro F; trivial.
  cbn [filter].
  destruct (Nat.eqb (handle t) h) eqn:E.
  - apply Nat.eqb_eq in E. specialize (F t (or_introl eq_refl)). lia.
  - cbn [negb]. f_equal. apply IH. intros u I. apply F. now right.
Qed.

(** X13. [stop] after [start] cancels the tick timer and nothing else. *)
Theorem stop_cancels_tick w :
  fresh_handles w ->
  timers (stop (start w)) = timers w
  /\ tickInterval (sim (stop (start w))) = None
  /\ timers (start w)
     = timers w ++ [{| handle := nextHandle w;
                       due := clock w + SIMULATION.TICK_INTERVAL;
                       period := Some SIMULATION.TICK_INTERVAL;
                       callback := TickCb |}].
Proof.
  intro F. split; [| split; reflexivity].
  unfold stop, start, setInterval, arm. cbv zeta.
  cbn [sim on_sim set_sim set_tickInterval tickInterval set_nextHandle
       set_timers clearInterval timers].
  rewrite filter_app, (filter_fresh _ _ F).
  cbn [filter handle]. rewrite Nat.eqb_refl. cbn [negb].
  apply app_nil_r.
Qed.

(** X14. A second [start] overwrites the handle kept in [tickInterval]: the
    [stop] that follows cancels the second tick timer only, the first
    one stays pending, and no further [stop] can reach it. *)
Theorem second_start_leaks_timer w :
  fresh_handles w ->
  let w' := stop (start (start w)) in
  timers w'
  = timers w ++ [{| handle := nextHandle w;
                    due := clock w + SIMULATION.TICK_INTERVAL;
                    period := Some SIMULATION.TICK_INTERVAL;
                    callback := TickCb |}]
  /\ tickInterval (sim w') = None
  /\ stop w' = w'.
Proof.
  intro F. split; [| split; reflexivity].
  unfold stop, start, setInterval, arm. cbv zeta.
  cbn [sim on_sim set_sim set_tickInterval tickInterval set_nextHandle
       set_timers clearInterval timers nextHandle clock].
  rewrite !filter_app.
  rewrite (filter_fresh (timers w) (S (nextHandle w))).
  - cbn [filter handle]. rewrite Nat.eqb_refl.
    replace (Nat.eqb (nextHandle w) (S (nextHandle w))) with false
      by (symmetry; apply Nat.eqb_neq; lia).
    cbn [negb]. now rewrite app_nil_r.
  - intros t I. specialize (F t I). lia.
Qed.

Lemma fresh_handles_new now :
  fresh_handles {| sim := new_FactorySimulation now; clock := now;
                   drawn := 0; timers := []; nextHandle := 1;
                   dispatched := [] |}.
Proof. intros t []. Qed.

Lemma stop_cancels_tick_witness :
  timers (stop (boot 0)) = [].
Proof.
  exact (proj1 (stop_cancels_tick _ (fresh_handles_new 0))).
Defined.

Lemma second_start_leaks_timer_witness :
  map callback (timers (stop (start (boot 0)))) = [TickCb].
Proof.
  exact (f_equal (map callback)
           (proj1 (second_start_leaks_timer _ (fresh_handles_new 0)))).
Defined.

(** *** Pausing, then resuming *)

Lemma resumeLine_paused w :
  state (sim w) = PAUSED ->
  resumeLine w
  = if SensorStatus_eqb (getSensorStatus (sim w) K_power) critical
       || SensorStatus_eqb (getSensorStatus (sim w) K_pressure) critical
       || SensorStatus_eqb (getSensorStatus (sim w) K_temperature) critical
    then ({| success := false;
             message := "Cannot resume: Sensors still critical" |}, w)
    else
      let st := state_of_score (stability (sim w)) in
      ({| success := true;
          message := "Production line resumed (" ++ STATES_name st ++ ")" |},
       on_sim (fun s =>
         set_lastScenarioEndTime (clock w)
           (set_criticalTickCount 0
              (set_stableTickCount 0 (set_state st s)))) w).
Proof.
  intro P. unfold resumeLine. rewrite P. cbn [STATES_eqb negb].
  cbv zeta.
  match goal with |- context [if ?b then (_, w) else _] => destruct b end;
    trivial.
  rewrite <- (state_of_score_code (stability (sim w))).
  destruct (Qge_bool (stability (sim w)) STABILITY.THRESHOLD_NORMAL);
    [| destruct (Qge_bool (stability (sim w))
                          STABILITY.THRESHOLD_DEGRADED)];
    reflexivity.
Qed.

(** X15. Resuming right after a pause: with a critical channel the resume is
    refused and the line stays as the pause left it; otherwise the line
    goes to the state its score maps to, the scenario that the pause
    halted stays halted with its kind, the sensors are untouched and
    the scenario delay starts anew. *)
Theorem pause_then_resume w :
  let p := snd (pauseLine w) in
  let r := resumeLine p in
  ((exists k, getSensorStatus (sim w) k = critical) ->
   success (fst r) = false /\ snd r = p /\ state (sim (snd r)) = PAUSED)
  /\ ((forall k, getSensorStatus (sim w) k <> critical) ->
      success (fst r) = true
      /\ state (sim (snd r)) = state_of_score (stability (sim w))
      /\ ActiveScenario.active (activeScenario (sim (snd r))) = false
      /\ ActiveScenario.type (activeScenario (sim (snd r)))
         = ActiveScenario.type (activeScenario (sim w))
      /\ sensors (sim (snd r)) = sensors (sim w)
      /\ lastScenarioEndTime (sim (snd r)) = clock w).
Proof.
  intros p r. subst r.
  rewrite (resumeLine_paused p eq_refl).
  change (getSensorStatus (sim p)) with (getSensorStatus (sim w)).
  split.
  - intro C. apply some_critical_iff in C. rewrite C. now repeat split.
  - intro N.
    match goal with |- context [if ?b then _ else _] =>
      destruct b eqn:E end.
    + apply some_critical_iff in E. destruct E as (k & E).
      now elim (N k).
    + cbv zeta. repeat split.
Qed.

(** A running overheat scenario at nominal readings, paused and
    resumed. *)
Lemma pause_then_resume_witness :
  let heat :=
    {| ActiveScenario.type := OVERHEAT; ActiveScenario.active := true;
       ActiveScenario.tickCount := 2; ActiveScenario.duration := None |} in
  let w := on_sim (set_activeScenario heat) (boot 0) in
  let w' := snd (resumeLine (snd (pauseLine w))) in
  state (sim w') = NORMAL
  /\ ActiveScenario.active (activeScenario (sim w')) = false
  /\ ActiveScenario.type (activeScenario (sim w')) = OVERHEAT.
Proof.
  intros heat w w'.
  destruct (proj2 (pause_then_resume w)) as (_ & S & A & T & _).
  - intro k. destruct k; vm_compute; discriminate.
  - split; [| split].
    + exact S.
    + exact A.
    + exact T.
Defined.

Section RampDirection.

Variable random : nat -> Q.

(** *** The direction of a ramp *)

(** The steps before the last move the channel one way, the way of the
    step held by the closure. *)
Lemma ramp_steps_one_way h k sc tv (n : nat) w :
  (n <= 9)%nat ->
  exists w',
    run_callback_times random n h (RestoreStepCb k 10 sc tv 0) w
    = (w', RestoreStepCb k 10 sc tv (Z.of_nat n))
    /\ (0 <= sc ->
        sensor_get (sensors (sim w)) k <= sensor_get (sensors (sim w')) k)
    /\ (sc <= 0 ->
        sensor_get (sensors (sim w')) k <= sensor_get (sensors (sim w)) k).
Proof.
  induction n as [|n IH]; intro H.
  - exists w. split; [reflexivity |]. split; intros _; apply Qle_refl.
  - destruct IH as (w' & E & Up & Down); [lia |].
    rewrite run_callback_times_S, E.
    rewrite restore_step_mid by lia.
    eexists. split; [f_equal; f_equal; lia |].
    rewrite sim_on_sim. unfold assign_sensor.
    change (sensors (set_sensors ?x _)) with x.
    rewrite sensor_get_set.
    split; intro S; [specialize (Up S) | specialize (Down S)]; lra.
Qed.

(** X16. During an uninterrupted ramp the channel is never left farther from
    the nominal target than where it started, on the side it started
    from: a ramp that has to raise the channel never leaves it below the
    starting value, a ramp that has to lower it never above. *)
Theorem ramp_never_behind_start (h : nat) (k : SensorName) (duration : Z)
        (w : World) (n : nat) :
  (n <= 10)%nat ->
  let start := sensor_get (sensors (sim w)) k in
  let target := nominal_target k in
  let v :=
    sensor_get
      (sensors
         (sim (fst (run_callback_times random n h
                      (RestoreStepCb k 10 ((target - start) / 10) target 0)
                      (gradualRestore k duration w))))) k in
  (start <= target -> start <= v) /\ (target <= start -> v <= start).
Proof.
  intros N start target v.
  destruct (Nat.eq_dec n 10) as [-> | D].
  - destruct (restore_steps_complete random h k ((target - start) / 10)
                target (gradualRestore k duration w)) as (w9 & E & _).
    subst v. rewrite E, sensor_after_forced_target.
    split; intro O; exact O.
  - destruct (ramp_steps_one_way h k ((target - start) / 10)
                target n (gradualRestore k duration w))
      as (w' & E & Up & Down); [lia |].
    subst v. rewrite E. cbn [fst].
    assert (S : sensor_get (sensors (sim (gradualRestore k duration w))) k
                = start)
      by (rewrite gradualRestore_arms; reflexivity).
    rewrite S in Up, Down.
    split; intro O; [apply Up | apply Down];
      unfold Qdiv; setoid_replace (/ 10) with (1 # 10) by reflexivity; lra.
Qed.

End RampDirection.

(** Temperature read at 95 degrees: after four steps of the cooling
    ramp it is not above 95. *)
Lemma ramp_never_behind_start_witness :
  let w := on_sim (assign_sensor K_temperature 95) (boot 0) in
  let v :=
    temperature
      (sensors
         (sim (fst (run_callback_times half 4 2
                      (RestoreStepCb K_temperature 10 ((70 - 95) / 10) 70 0)
                      (gradualRestore K_temperature 10000 w))))) in
  v <= 95.
Proof.
  intros w v.
  apply (ramp_never_behind_start half 2 K_temperature 10000 w 4).
  - lia.
  - discriminate.
Defined.

(** *** The scheduled start of the next scenario *)

Lemma next_due_In ts t : next_due ts = Some t -> In t ts.
Proof.
  revert t. induction ts as [|a ts IH]; intros t; cbn [next_due].
  - discriminate.
  - destruct (next_due ts) as [u |].
    + destruct (due u <? due a)%Z; intro E; injection E as <-.
      * right. now apply IH.
      * now left.
    + intro E. injection E as <-. now left.
Qed.

Lemma handle_determines ts (t u : Timer) :
  NoDup (map handle ts) -> In t ts -> In u ts -> handle u = handle t ->
  u = t.
Proof.
  induction ts as [|a ts IH]; cbn [map In]; [contradiction |].
  intros N It Iu E. inversion N as [|? ? Na N']; subst.
  destruct It as [-> | It], Iu as [-> | Iu]; trivial.
  - elim Na. rewrite <- E. now apply in_map.
  - elim Na. rewrite E. now apply in_map.
  - now apply IH.
Qed.

Lemma NoDup_handles_filter (p : Timer -> bool) ts :
  NoDup (map handle ts) -> NoDup (map handle (filter p ts)).
Proof.
  induction ts as [|a ts IH]; cbn [map filter]; [trivial |].
  intro N. inversion N as [|? ? Na N']; subst.
  destruct (p a); [| now apply IH].
  cbn [map]. constructor; [| now apply IH].
  intro I. apply Na. apply in_map_iff in I. destruct I as (x & E & I).
  apply filter_In in I. rewrite <- E. apply in_map, I.
Qed.

Lemma arm_fields cb delay per w :
  timers (snd (arm cb delay per w))
  = timers w ++ [{| handle := nextHandle w; due := clock w + delay;
                    period := per; callback := cb |}]
  /\ nextHandle (snd (arm cb delay per w)) = S (nextHandle w)
  /\ sim (snd (arm cb delay per w)) = sim w.
Proof. repeat split. Qed.

Lemma clearInterval_fields h w :
  timers (clearInterval h w)
  = filter (fun t => negb (Nat.eqb (handle t) h)) (timers w)
  /\ nextHandle (clearInterval h w) = nextHandle w
  /\ sim (clearInterval h w) = sim w.
Proof. repeat split. Qed.

Lemma reschedule_fields t w :
  timers (reschedule t w)
  = filter (fun u => negb (same_handle (handle t) u)) (timers w)
    ++ match period t with
       | Some p => [{| handle := handle t; due := (due t + p)%Z;
                       period := period t; callback := callback t |}]
       | None => []
       end
  /\ nextHandle (reschedule t w) = nextHandle w.
Proof.
  unfold reschedule. destruct (period t); split; try reflexivity.
  cbn [timers set_timers]. now rewrite app_nil_r.
Qed.

Lemma store_closure_fields h cb w :
  timers (store_closure h cb w)
  = map (fun u => if same_handle h u
                  then {| handle := handle u; due := due u;
                          period := period u; callback := cb |}
                  else u) (timers w)
  /\ nextHandle (store_closure h cb w) = nextHandle w.
Proof. repeat split. Qed.

Lemma handles_store_closure h cb w :
  map handle (timers (store_closure h cb w)) = map handle (timers w)
  /\ nextHandle (store_closure h cb w) = nextHandle w.
Proof.
  destruct (store_closure_fields h cb w) as [T N]. split; [| exact N].
  rewrite T, map_map. apply map_ext.
  intro u. now destruct (same_handle h u).
Qed.

Lemma unique_handles_same w w' :
  map handle (timers w') = map handle (timers w) ->
  nextHandle w' = nextHandle w ->
  unique_handles w -> unique_handles w'.
Proof.
  intros T N [D F]. split; [now rewrite T |].
  intros t I. rewrite N.
  assert (J : In (handle t) (map handle (timers w)))
    by (rewrite <- T; now apply in_map).
  apply in_map_iff in J. destruct J as (u & <- & J). now apply F.
Qed.

Lemma unique_handles_arm cb delay per w :
  unique_handles w -> unique_handles (snd (arm cb delay per w)).
Proof.
  intros [D F]. destruct (arm_fields cb delay per w) as (T & N & _).
  unfold unique_handles, fresh_handles in *. rewrite T, N. clear T N.
  split.
  - rewrite map_app. cbn [map handle].
    apply NoDup_app; [exact D | repeat constructor; intros [] |].
    intros x I [<- | []]. apply in_map_iff in I.
    destruct I as (u & E & I). specialize (F u I). lia.
  - intros t I. apply in_app_or in I. destruct I as [I | [<- | []]].
    + specialize (F t I). lia.
    + cbn [handle]. lia.
Qed.

Lemma unique_handles_clearInterval h w :
  unique_handles w -> unique_handles (clearInterval h w).
Proof.
  intros [D F]. destruct (clearInterval_fields h w) as (T & N & _).
  unfold unique_handles, fresh_handles in *. rewrite T, N. clear T N.
  split.
  - now apply NoDup_handles_filter.
  - intros t I. apply filter_In in I. now apply F.
Qed.

Lemma unique_handles_reschedule t w :
  unique_handles w -> In t (timers w) -> unique_handles (reschedule t w).
Proof.
  intros [D F] It. pose proof (F t It) as Ft.
  destruct (reschedule_fields t w) as (T & N).
  unfold unique_handles, fresh_handles in *. rewrite T, N. clear T N.
  assert (R : NoDup (map handle
                       (filter (fun u => negb (same_handle (handle t) u))
                               (timers w))))
    by now apply NoDup_handles_filter.
  assert (Fr : forall u,
             In u (filter (fun u => negb (same_handle (handle t) u))
                          (timers w)) ->
             (handle u < nextHandle w)%nat /\ handle u <> handle t).
  { intros u I. apply filter_In in I. destruct I as [I B]. split.
    - now apply F.
    - unfold same_handle in B. intro E. rewrite E, Nat.eqb_refl in B.
      discriminate. }
  destruct (period t) as [p |].
  - split.
    + rewrite map_app. cbn [map handle].
      apply NoDup_app; [exact R | repeat constructor; intros [] |].
      intros x I [<- | []]. apply in_map_iff in I.
      destruct I as (u & E & I). now apply (Fr u I).
    + intros u I. apply in_app_or in I. destruct I as [I | [<- | []]].
      * now apply Fr.
      * exact Ft.
  - rewrite app_nil_r. split; [exact R |]. intros u I. now apply Fr.
Qed.

Lemma unique_handles_push w w' t :
  timers w' = timers w ++ [t] -> handle t = nextHandle w ->
  nextHandle w' = S (nextHandle w) ->
  unique_handles w -> unique_handles w'.
Proof.
  intros T H N [D F]. unfold unique_handles, fresh_handles in *.
  rewrite T, N. split.
  - rewrite map_app. cbn [map].
    apply NoDup_app; [exact D | repeat constructor; intros [] |].
    intros x I [<- | []]. apply in_map_iff in I.
    destruct I as (u & E & I). specialize (F u I). lia.
  - intros u I. apply in_app_or in I. destruct I as [I | [<- | []]].
    + specialize (F u I). lia.
    + lia.
Qed.

Lemma start_pending_besides_same h w w' :
  timers w' = timers w ->
  start_pending_besides h w -> start_pending_besides h w'.
Proof. intros T (u & I & C). exists u. now rewrite T. Qed.

Lemma start_pending_besides_push h w w' t :
  timers w' = timers w ++ [t] ->
  start_pending_besides h w -> start_pending_besides h w'.
Proof.
  intros T (u & I & C). exists u. rewrite T. split; [| exact C].
  apply in_or_app. now left.
Qed.

Lemma start_pending_besides_new h w' ts t :
  timers w' = ts ++ [t] -> callback t = NextScenarioCb ->
  period t = None -> handle t <> h ->
  start_pending_besides h w'.
Proof.
  intros T C P H. exists t. rewrite T. split; [| auto].
  apply in_or_app. right. now left.
Qed.

Lemma start_pending_store_closure h cb w :
  start_pending_besides h w -> start_pending (store_closure h cb w).
Proof.
  intros (u & I & C & P & H). exists u.
  destruct (store_closure_fields h cb w) as [T _]. rewrite T.
  split; [| now split].
  apply in_map_iff. exists u. split; [| exact I].
  unfold same_handle. apply Nat.eqb_neq in H. now rewrite H.
Qed.

Lemma start_pending_reschedule t w :
  unique_handles w -> In t (timers w) -> callback t <> NextScenarioCb ->
  start_pending w -> start_pending_besides (handle t) (reschedule t w).
Proof.
  intros [D _] It Ct (u & I & C & P).
  assert (H : handle u <> handle t).
  { intro E. apply Ct. now rewrite <- (handle_determines _ _ _ D It I E). }
  exists u. destruct (reschedule_fields t w) as [T _]. rewrite T.
  split; [| auto]. apply in_or_app. left. apply filter_In.
  split; [exact I |]. unfold same_handle. apply Nat.eqb_neq in H.
  now rewrite H.
Qed.

Section ScheduledStart.

Variable random : nat -> Q.

Lemma emit_record_timers u :
  timers (emitTelemetry (recordHistory u)) = timers u
  /\ nextHandle (emitTelemetry (recordHistory u)) = nextHandle u.
Proof. rewrite recordHistory_eq. split; reflexivity. Qed.

Lemma tick_timers w :
  timers (tick random w) = timers w
  /\ nextHandle (tick random w) = nextHandle w.
Proof.
  rewrite tick_unfold.
  destruct (emit_record_timers (tick_scored random w)) as [T N].
  rewrite T, N.
  destruct (ledger_fields _ _ _ _ _ _ _ (ledger_tick_scored random w))
    as (_ & Ht & Hn & _).
  now split.
Qed.

Lemma scenarioScheduled_updateState s :
  scenarioScheduled (updateState s) = scenarioScheduled s.
Proof. exact (f_equal scenarioScheduled (blank_updateState s)). Qed.

Lemma scenarioScheduled_calculateStability s :
  scenarioScheduled (calculateStability s) = scenarioScheduled s.
Proof. reflexivity. Qed.

Lemma scenarioScheduled_set_sensorHistory h s :
  scenarioScheduled (set_sensorHistory h s) = scenarioScheduled s.
Proof. reflexivity. Qed.

Lemma scenarioScheduled_tick w :
  scenarioScheduled (sim (tick random w)) = scenarioScheduled (sim w).
Proof.
  destruct (sim_tick random w) as (h & E). rewrite E.
  rewrite scenarioScheduled_set_sensorHistory,
    scenarioScheduled_updateState, scenarioScheduled_calculateStability.
  transitivity
    (scenarioScheduled (sim (tick_scenario_check random w))).
  - exact (f_equal (fun x => scenarioScheduled (sim x))
                   (blank_updateSensors random
                      (tick_scenario_check random w))).
  - exact (f_equal (fun x => scenarioScheduled (sim x))
                   (blank_tick_scenario_check random w)).
Qed.

Lemma endScenarioAndScheduleNext_fields w :
  timers (endScenarioAndScheduleNext w)
  = timers w ++ [{| handle := nextHandle w;
                    due := clock w + SIMULATION.SCENARIO_DELAY;
                    period := None; callback := NextScenarioCb |}]
  /\ nextHandle (endScenarioAndScheduleNext w) = S (nextHandle w)
  /\ scenarioScheduled (sim (endScenarioAndScheduleNext w)) = true.
Proof. repeat split. Qed.

Lemma startRandomScenario_timers w :
  timers (startRandomScenario random w) = timers w
  /\ nextHandle (startRandomScenario random w) = nextHandle w
  /\ scenarioScheduled (sim (startRandomScenario random w))
     = scenarioScheduled (sim w).
Proof. repeat split. Qed.

Lemma unique_handles_endScenario w :
  unique_handles w -> unique_handles (endScenarioAndScheduleNext w).
Proof.
  destruct (endScenarioAndScheduleNext_fields w) as (T & N & _).
  now apply (unique_handles_push w _ _ T).
Qed.

Lemma unique_handles_run_callback h cb w :
  unique_handles w -> unique_handles (fst (run_callback random h cb w)).
Proof.
  intro U. destruct cb as [| | | k steps sc tv step]; cbn [run_callback fst].
  - destruct (tick_timers w) as [T N].
    apply (unique_handles_same w); [now rewrite T | exact N | exact U].
  - apply unique_handles_endScenario. exact U.
  - exact U.
  - cbv zeta. destruct (steps <=? step + 1)%Z; [| exact U].
    apply unique_handles_endScenario.
    apply (unique_handles_clearInterval h) in U. exact U.
Qed.

Lemma pending_run_callback h cb w :
  (h < nextHandle w)%nat ->
  cb = NextScenarioCb
  \/ (scenarioScheduled (sim w) = true -> start_pending_besides h w) ->
  scenarioScheduled (sim (fst (run_callback random h cb w))) = true ->
  start_pending_besides h (fst (run_callback random h cb w)).
Proof.
  intros L P.
  destruct cb as [| | | k steps sc tv step]; cbn [run_callback fst].
  - destruct P as [P | P]; [discriminate |].
    rewrite scenarioScheduled_tick. intro S.
    apply (start_pending_besides_same h w); [apply tick_timers | auto].
  - intros _.
    match goal with |- context [endScenarioAndScheduleNext ?x] =>
      destruct (endScenarioAndScheduleNext_fields x) as (T & _) end.
    apply (start_pending_besides_new h _ _ _ T); try reflexivity.
    cbn [handle]. change (nextHandle (on_sim _ w)) with (nextHandle w). lia.
  - intro S. destruct (startRandomScenario_timers
                         (on_sim (set_scenarioScheduled false) w))
      as (_ & _ & E).
    rewrite E in S. discriminate S.
  - destruct P as [P | P]; [discriminate |].
    cbv zeta. destruct (steps <=? step + 1)%Z.
    + intros _.
      match goal with |- context [endScenarioAndScheduleNext ?x] =>
        destruct (endScenarioAndScheduleNext_fields x) as (T & _) end.
      apply (start_pending_besides_new h _ _ _ T); try reflexivity.
      cbn [handle].
      change (nextHandle (on_sim _ (clearInterval h (on_sim _ w))))
        with (nextHandle w).
      lia.
    + intro S. apply (start_pending_besides_same h w); [reflexivity |].
      apply P. exact S.
Qed.

Lemma scheduled_inv_dispatch t w :
  In t (timers w) ->
  unique_handles w /\ scheduled_start_pending w ->
  unique_handles (dispatch random t w)
  /\ scheduled_start_pending (dispatch random t w).
Proof.
  intros It [U P]. unfold dispatch. cbv zeta.
  set (w0 := set_clock (Z.max (clock w) (due t)) w).
  assert (U0 : unique_handles w0) by exact U.
  assert (It0 : In t (timers w0)) by exact It.
  assert (P0 : scheduled_start_pending w0) by exact P.
  clearbody w0. clear U P It w.
  pose proof (unique_handles_reschedule t w0 U0 It0) as U1.
  assert (L : (handle t < nextHandle (reschedule t w0))%nat).
  { destruct (reschedule_fields t w0) as [_ N]. rewrite N.
    now apply (proj2 U0). }
  assert (P1 : callback t = NextScenarioCb
               \/ (scenarioScheduled (sim (reschedule t w0)) = true ->
                   start_pending_besides (handle t) (reschedule t w0))).
  { destruct (callback t) eqn:C; [right | right | now left | right];
      rewrite sim_reschedule; intro S;
      (apply start_pending_reschedule;
       [exact U0 | exact It0 | rewrite C; discriminate | exact (P0 S)]). }
  pose proof (unique_handles_run_callback (handle t) (callback t) _ U1)
    as U2.
  pose proof (pending_run_callback (handle t) (callback t) _ L P1) as P2.
  destruct (run_callback random (handle t) (callback t) (reschedule t w0))
    as [w2 cb'].
  cbn [fst] in U2, P2. split.
  - destruct (handles_store_closure (handle t) cb' w2) as [T N].
    now apply (unique_handles_same w2).
  - intro S. rewrite sim_store_closure in S.
    apply start_pending_store_closure. exact (P2 S).
Qed.

Lemma start_pending_push w w' t :
  timers w' = timers w ++ [t] -> start_pending w -> start_pending w'.
Proof.
  intros T (u & I & C). exists u. rewrite T. split; [| exact C].
  apply in_or_app. now left.
Qed.

Lemma scheduled_inv_arm cb delay per w :
  unique_handles w /\ scheduled_start_pending w ->
  unique_handles (snd (arm cb delay per w))
  /\ scheduled_start_pending (snd (arm cb delay per w)).
Proof.
  intros [U P]. split; [now apply unique_handles_arm |].
  destruct (arm_fields cb delay per w) as (T & _ & S).
  unfold scheduled_start_pending. rewrite S. intro H.
  apply (start_pending_push w _ _ T). exact (P H).
Qed.

Lemma scheduled_inv_react w e :
  unique_handles w /\ scheduled_start_pending w ->
  unique_handles (react random w e)
  /\ scheduled_start_pending (react random w e).
Proof.
  intro H. destruct e as [| a | dt]; cbn [react]; [| | exact H].
  - unfold runNextTimer.
    destruct (next_due (timers w)) as [t |] eqn:E; [| exact H].
    apply scheduled_inv_dispatch; [| exact H].
    now apply next_due_In.
  - unfold executeAction.
    destruct (String.eqb a ACTIONS.SWITCH_BACKUP_POWER).
    { apply (scheduled_inv_arm PowerRestoredCb 2000 None
               (on_sim (set_mainBatteryLevel 100)
                  (on_sim (set_backupPower true) w))).
      exact H. }
    destruct (String.eqb a ACTIONS.INCREASE_PRESSURE).
    { cbn [increasePressure snd]. unfold gradualRestore, setInterval.
      cbv zeta. apply scheduled_inv_arm. exact H. }
    destruct (String.eqb a ACTIONS.DECREASE_PRESSURE).
    { cbn [decreasePressure snd]. unfold gradualRestore, setInterval.
      cbv zeta. apply scheduled_inv_arm. exact H. }
    destruct (String.eqb a ACTIONS.INCREASE_COOLING).
    { cbn [increaseCooling snd]. unfold gradualRestore, setInterval.
      cbv zeta. apply scheduled_inv_arm. exact H. }
    destruct (String.eqb a ACTIONS.PAUSE_LINE); [exact H |].
    destruct (String.eqb a ACTIONS.RESUME_LINE); [| exact H].
    unfold resumeLine. open_tests; exact H.
Qed.

(** X29. Whatever happens after start-up, no two pending timers share a
    handle, and whenever [scenarioScheduled] keeps the ticks from
    starting a scenario, a one-shot timer that clears the flag and
    starts the next scenario is pending: scheduling cannot get stuck
    with the flag set. *)
Theorem scheduled_start_is_pending now es :
  let w := run random es (boot now) in
  unique_handles w
  /\ (scenarioScheduled (sim w) = true -> start_pending w).
Proof.
  cbv zeta.
  assert (G : forall w,
             unique_handles w /\ scheduled_start_pending w ->
             unique_handles (run random es w)
             /\ scheduled_start_pending (run random es w)).
  { unfold run. induction es as [|e es IH]; intros w H; [exact H |].
    cbn [fold_left]. apply IH, scheduled_inv_react, H. }
  apply G. split.
  - split.
    + repeat constructor. intros [].
    + intros t [<- | []]. cbn. lia.
  - intro S. discriminate S.
Qed.

End ScheduledStart.

(** Backup power switched on at start-up: when its timeout has fired,
    the flag is set and the timeout of the next scenario is pending. *)
Lemma scheduled_start_is_pending_witness :
  start_pending
    (run half [Operator "switch_backup_power"; TimerFires] (boot 0)).
Proof.
  apply (proj2 (scheduled_start_is_pending half 0
                  [Operator "switch_backup_power"; TimerFires])).
  vm_compute. reflexivity.
Defined.

(** * Properties of the classes around the engine *)

(** ** One classification, four readers *)

(** X17. The status class shown next to a chart is the status the engine
    gives the channel: the high-side tests of power and pressure read
    thresholds that the configuration does not define and never
    fire. *)
Theorem getStatusClass_agrees (s : FactorySimulation) (k : SensorName) :
  ChartsManager.getStatusClass k (sensor_get (sensors s) k)
  = getSensorStatus s k.
Proof.
  unfold ChartsManager.getStatusClass, getSensorStatus, CRITICAL_HIGH,
    WARNING_HIGH, Number_ge.
  destruct k; cbv zeta; rewrite ?orb_false_r; reflexivity.
Qed.

(** X18. The status that the AI adapter computes for a channel is the one the
    engine computes, under the names NOMINAL, WARNING and CRITICAL. *)
Theorem ai_getSensorStatus_agrees (s : FactorySimulation) (k : SensorName) :
  AIIntegration.getSensorStatus k (sensor_get (sensors s) k)
  = ai_status_of (getSensorStatus s k).
Proof.
  unfold AIIntegration.getSensorStatus, getSensorStatus.
  destruct k; cbv zeta;
    repeat match goal with
      | |- context [if ?b then _ else _] => destruct b
      end; reflexivity.
Qed.

(** X19. Fed as the telemetry listener feeds them, the oil and pressure
    lights of the scene show the status the engine gives temperature and
    pressure, whatever the lights showed before. *)
Theorem status_lights_agree (w : World) (sm : SceneManager.t) :
  let data := SceneManager.lights_input (getTelemetrySnapshot w) in
  exists lights,
    SceneManager.statusLightStates (SceneManager.updateStatusLights data sm)
    = Some lights
    /\ SceneManager.Light.status
         (SceneManager.StatusLightStates.oilBarrel lights)
       = light_of (getSensorStatus (sim w) K_temperature)
    /\ SceneManager.Light.status
         (SceneManager.StatusLightStates.pressureTank lights)
       = light_of (getSensorStatus (sim w) K_pressure).
Proof.
  cbv zeta. eexists. split; [reflexivity |].
  cbn [SceneManager.StatusLightStates.oilBarrel
       SceneManager.StatusLightStates.pressureTank
       SceneManager.lights_input SceneManager.SensorData.oilTemp
       SceneManager.SensorData.pressure option_map
       SceneManager.with_status SceneManager.Light.status
       getTelemetrySnapshot Telemetry.sensors].
  rewrite !getSensorStatus_classify.
  unfold SceneManager.oilLight, SceneManager.pressureLight, classify_spec,
    sensor_get, Qgt_bool.
  split;
    repeat match goal with
      | |- context [Qlt_bool ?a ?b] => destruct (Qlt_bool a b) eqn:?
      | |- context [Qlt_le_dec ?a ?b] => destruct (Qlt_le_dec a b)
      end;
    qbool; trivial; exfalso; lra.
Qed.

(** X20. The colour in which the score is displayed is the colour of the
    state that the engine's state update derives from that score. *)
Theorem getStabilityColor_agrees (s : FactorySimulation) :
  state s <> PAUSED ->
  FactoryApp.getStabilityColor (stability s)
  = COLORS_of (state (updateState s)).
Proof.
  intro P. rewrite (updateState_not_paused s P).
  rewrite <- state_of_score_code. unfold FactoryApp.getStabilityColor.
  destruct (Qge_bool (stability s) STABILITY.THRESHOLD_NORMAL);
    [| destruct (Qge_bool (stability s) STABILITY.THRESHOLD_DEGRADED)];
    reflexivity.
Qed.

Lemma getStabilityColor_agrees_witness :
  FactoryApp.getStabilityColor 80 = COLORS.DEGRADED.
Proof.
  refine (eq_trans (getStabilityColor_agrees
                      (set_stability 80 (new_FactorySimulation 0)) _) _).
  - discriminate.
  - reflexivity.
Defined.

(** ** Charts *)

(** X21. An update appends the readings of the telemetry to the three series
    and a label to the labels, and drops the oldest point of all four
    beyond capacity: series of equal length stay so, a chart within
    capacity stays within, and with room for at least one point the
    newest point of each series is the reading just received. *)
Theorem charts_update (f : Z -> string) (t : Telemetry.t)
        (c : ChartsManager.t) :
  let c' := ChartsManager.update f t c in
  in_sync c ->
  (List.length (ChartsManager.labels c) <= ChartsManager.maxDataPoints c)%nat ->
  in_sync c'
  /\ (List.length (ChartsManager.labels c')
      <= ChartsManager.maxDataPoints c')%nat
  /\ ChartsManager.maxDataPoints c' = ChartsManager.maxDataPoints c
  /\ ((0 < ChartsManager.maxDataPoints c)%nat ->
      last (ChartsManager.dataPoints_power c') 0
      = power (Telemetry.sensors t)
      /\ last (ChartsManager.dataPoints_pressure c') 0
         = pressure (Telemetry.sensors t)
      /\ last (ChartsManager.dataPoints_temperature c') 0
         = temperature (Telemetry.sensors t)
      /\ last (ChartsManager.labels c') EmptyString
         = f (Telemetry.timestamp t)).
Proof.
  destruct c as [ls ps rs ts m]. unfold in_sync.
  cbn [ChartsManager.labels ChartsManager.dataPoints_power
       ChartsManager.dataPoints_pressure
       ChartsManager.dataPoints_temperature ChartsManager.maxDataPoints].
  intros (Ep & Er & Et) L. unfold ChartsManager.update.
  cbn [ChartsManager.labels ChartsManager.dataPoints_power
       ChartsManager.dataPoints_pressure
       ChartsManager.dataPoints_temperature ChartsManager.maxDataPoints].
  rewrite length_app. cbn [List.length].
  destruct (m <? List.length ls + 1)%nat eqn:E;
    cbn [ChartsManager.labels ChartsManager.dataPoints_power
         ChartsManager.dataPoints_pressure
         ChartsManager.dataPoints_temperature ChartsManager.maxDataPoints].
  - apply Nat.ltb_lt in E.
    destruct ls as [|l0 ls], ps as [|p0 ps], rs as [|r0 rs],
      ts as [|t0 ts]; try discriminate; cbn [List.length] in *.
    + repeat split; cbn; lia.
    + cbn [app tl]. rewrite !length_app. cbn [List.length].
      repeat split; try lia; intros; apply last_last.
  - apply Nat.ltb_ge in E. rewrite !length_app. cbn [List.length].
    repeat split; try lia; intros; apply last_last.
Qed.

Lemma charts_update_witness :
  let t := getTelemetrySnapshot (boot 0) in
  last (ChartsManager.dataPoints_power
          (ChartsManager.update (fun _ => "12:00:00"%string) t
             ChartsManager.new)) 0 = 42.0.
Proof.
  intro t.
  destruct (charts_update (fun _ => "12:00:00"%string) t ChartsManager.new)
    as (_ & _ & _ & H).
  - repeat split.
  - apply Nat.leb_le. reflexivity.
  - apply H. apply Nat.ltb_lt. reflexivity.
Defined.

(** ** The conveyor of the scene *)

Lemma moveItems_cons movement a its :
  SceneManager.moveItems movement (a :: its)
  = let a' := {| SceneManager.Item.x := SceneManager.Item.x a + movement;
                 SceneManager.Item.welded := SceneManager.Item.welded a |} in
    if Qgt_bool (SceneManager.Item.x a') 4.5
    then SceneManager.moveItems movement its
    else a' :: SceneManager.moveItems movement its.
Proof. reflexivity. Qed.







Lemma moveItems_still its :
  Forall (fun a => SceneManager.Item.x a <= 4.5) its ->
  same_items (SceneManager.moveItems 0 its) its.
Proof.
  induction its as [|a its IH]; intro F; [constructor |].
  inversion F as [|? ? Ha Hr]; subst.
  rewrite moveItems_cons. cbv zeta. cbn [SceneManager.Item.x].
  unfold Qgt_bool.
  destruct (Qlt_bool 4.5 (SceneManager.Item.x a + 0)) eqn:E.
  - qbool. exfalso. lra.
  - constructor; [| now apply IH].
    cbn [SceneManager.Item.x SceneManager.Item.welded].
    split; [ring | reflexivity].
Qed.

(** X23. Once the scene is told that the line is CRITICAL or PAUSED, the
    conveyor stands still: [updateItems] moves no item, removes none
    and spawns none. *)
Theorem conveyor_stands_still (st : STATES) (sm : SceneManager.t) :
  st = CRITICAL \/ st = PAUSED ->
  Forall (fun a => SceneManager.Item.x a <= 4.5) (SceneManager.items sm) ->
  same_items
    (SceneManager.items
       (SceneManager.updateItems (SceneManager.updateState st sm)))
    (SceneManager.items sm).
Proof.
  intros H F. unfold SceneManager.updateItems. cbv zeta.
  assert (M : (if SceneManager.isWelding (SceneManager.updateState st sm)
               then 0
               else SceneManager.conveyorSpeed
                      (SceneManager.updateState st sm)) = 0).
  { destruct H as [-> | ->];
      cbn [SceneManager.updateState SceneManager.isWelding
           SceneManager.conveyorSpeed snd];
      now destruct (SceneManager.isWelding sm). }
  rewrite M.
  assert (N : negb (STATES_eqb st PAUSED) && negb (STATES_eqb st CRITICAL)
              = false) by (destruct H as [-> | ->]; reflexivity).
  cbn [SceneManager.isWelding SceneManager.state SceneManager.items
       SceneManager.set_items SceneManager.updateState].
  rewrite <- andb_assoc, N, andb_false_r.
  now apply moveItems_still.
Qed.

Lemma spaced_In gap its a b :
  0 < gap -> spaced gap its -> In a its -> In b its ->
  a = b
  \/ SceneManager.Item.x a + gap <= SceneManager.Item.x b
  \/ SceneManager.Item.x b + gap <= SceneManager.Item.x a.
Proof.
  intro G. induction its as [|c its IH]; [intros _ [] |].
  intros [F S] [<- | Ia] [<- | Ib]; auto.
  - rewrite Forall_forall in F. right. right. now apply F.
  - rewrite Forall_forall in F. right. left. now apply F.
Qed.

(** X24. With the work pieces spaced, the welding zone holds one item at
    most: the item that [findItemToWeld] returns is in the array, not
    welded and in the zone, and any item in the zone is that one. *)
Theorem findItemToWeld_unique (sm : SceneManager.t) (a : SceneManager.Item.t) :
  spaced CONVEYOR.ITEM_SPACING (SceneManager.items sm) ->
  SceneManager.findItemToWeld sm = Some a ->
  In a (SceneManager.items sm)
  /\ SceneManager.Item.welded a = false
  /\ in_weld_zone sm a
  /\ (forall b, In b (SceneManager.items sm) -> in_weld_zone sm b -> b = a).
Proof.
  intros S H. unfold SceneManager.findItemToWeld in H.
  apply find_some in H. destruct H as [I H].
  apply andb_true_iff in H. destruct H as [W Z].
  apply negb_true_iff in W. apply Qlt_bool_iff in Z.
  repeat split; trivial.
  intros b Ib Zb. unfold in_weld_zone in Zb.
  destruct (spaced_In CONVEYOR.ITEM_SPACING _ b a eq_refl S Ib I)
    as [E | [E | E]]; trivial; exfalso;
    unfold CONVEYOR.ITEM_SPACING in E;
    apply Qabs_Qlt_condition in Z; apply Qabs_Qlt_condition in Zb; lra.
Qed.


Lemma conveyor_stands_still_witness :
  let line :=
    [ {| SceneManager.Item.x := 2.1; SceneManager.Item.welded := false |};
      {| SceneManager.Item.x := 0; SceneManager.Item.welded := false |} ] in
  same_items
    (SceneManager.items
       (SceneManager.updateItems
          (SceneManager.updateState PAUSED
             (SceneManager.set_items line SceneManager.new))))
    line.
Proof.
  intro line. apply conveyor_stands_still; [now right |].
  cbn. repeat constructor; discriminate.
Defined.

Lemma findItemToWeld_unique_witness :
  let a := {| SceneManager.Item.x := 2.1;
              SceneManager.Item.welded := false |} in
  let line :=
    [ {| SceneManager.Item.x := 4.2; SceneManager.Item.welded := true |};
      a;
      {| SceneManager.Item.x := 0; SceneManager.Item.welded := false |} ] in
  let sm := SceneManager.set_items line SceneManager.new in
  SceneManager.findItemToWeld sm = Some a
  /\ In a line /\ in_weld_zone sm a.
Proof.
  intros a line sm.
  assert (F : SceneManager.findItemToWeld sm = Some a) by reflexivity.
  split; [exact F |].
  destruct (findItemToWeld_unique sm a) as (I & _ & Z & _).
  - cbn. repeat split; repeat constructor; discriminate.
  - exact F.
  - split; [exact I | exact Z].
Defined.

(** ** Easing *)

(** X25. [easeInOutQuad] maps 0, one half and 1 to themselves and [0,1] into
    [0,1], and does not decrease on [0,1]. *)
Theorem easeInOutQuad_shape :
  (SceneManager.easeInOutQuad 0 == 0
   /\ SceneManager.easeInOutQuad 0.5 == 0.5
   /\ SceneManager.easeInOutQuad 1 == 1)
  /\ (forall t, 0 <= t -> t <= 1 ->
        0 <= SceneManager.easeInOutQuad t
        /\ SceneManager.easeInOutQuad t <= 1)
  /\ (forall t u, 0 <= t -> t <= u -> u <= 1 ->
        SceneManager.easeInOutQuad t <= SceneManager.easeInOutQuad u).
Proof.
  split; [repeat split |].
  split.
  - intros t L U. unfold SceneManager.easeInOutQuad.
    destruct (Qlt_bool t 0.5) eqn:E; qbool; split.
    + nra.
    + nra.
    + assert (X : (-2 * t + 2) * (-2 * t + 2) / 2
                  == 2 * (1 - t) * (1 - t)) by field.
      rewrite X. nra.
    + assert (X : (-2 * t + 2) * (-2 * t + 2) / 2
                  == 2 * (1 - t) * (1 - t)) by field.
      rewrite X. nra.
  - intros t u L O U. unfold SceneManager.easeInOutQuad.
    assert (X : forall v, (-2 * v + 2) * (-2 * v + 2) / 2
                          == 2 * (1 - v) * (1 - v)) by (intro; field).
    destruct (Qlt_bool t 0.5) eqn:E; destruct (Qlt_bool u 0.5) eqn:F;
      qbool; rewrite ?X; nra.
Qed.

(** ** Alerts to the AI *)

Lemma Status_eqb_eq (a b : AIIntegration.Status) :
  AIIntegration.Status_eqb a b = true <-> a = b.
Proof. destruct a, b; simpl; split; congruence. Qed.

(** The loop body of [sendTelemetry] sends a message for a sensor
    exactly when its status differs from the recorded one. *)
Lemma alert_for_changed (sensor : AIIntegration.SensorView.t) :
  AIIntegration.SensorView.changed sensor
  = negb (AIIntegration.Status_eqb
            (AIIntegration.SensorView.status sensor)
            (AIIntegration.SensorView.lastStatus sensor)) ->
  (AIIntegration.SensorView.status sensor
   = AIIntegration.SensorView.lastStatus sensor ->
   AIIntegration.alert_for sensor = None)
  /\ (AIIntegration.SensorView.status sensor
      <> AIIntegration.SensorView.lastStatus sensor ->
      exists m, AIIntegration.alert_for sensor = Some m
                /\ AIIntegration.triggerResponse m = true
                /\ AIIntegration.role m = "user"%string).
Proof.
  destruct sensor as [n v u st f c lst].
  unfold AIIntegration.alert_for.
  cbn [AIIntegration.SensorView.changed AIIntegration.SensorView.status
       AIIntegration.SensorView.lastStatus].
  intros ->. cbv zeta. split.
  - intros <-. destruct st; reflexivity.
  - intro N.
    destruct st, lst; try (now elim N);
      cbn [AIIntegration.Status_eqb negb andb orb];
      eexists; repeat split.
Qed.

Lemma first_alert_none sensors :
  Forall (fun s => AIIntegration.alert_for s = None) sensors ->
  AIIntegration.first_alert sensors = None.
Proof.
  induction 1 as [|s rest H _ IH]; [reflexivity |].
  cbn [AIIntegration.first_alert]. now rewrite H.
Qed.

Lemma first_alert_some sensors :
  Forall (fun s => AIIntegration.alert_for s = None
                   \/ exists m, AIIntegration.alert_for s = Some m
                                /\ AIIntegration.triggerResponse m = true
                                /\ AIIntegration.role m = "user"%string)
         sensors ->
  Exists (fun s => AIIntegration.alert_for s <> None) sensors ->
  exists m, AIIntegration.first_alert sensors = Some m
            /\ AIIntegration.triggerResponse m = true
            /\ AIIntegration.role m = "user"%string.
Proof.
  induction 1 as [|s rest H _ IH]; intro E; [inversion E |].
  cbn [AIIntegration.first_alert].
  destruct H as [H | (m & H & T)].
  - rewrite H. apply IH. inversion E as [? ? X | ? ? X]; subst; trivial.
    congruence.
  - rewrite H. now exists m.
Qed.

(** The run of [sendTelemetry] past the start-up phase, in terms of the
    three statuses. *)
Lemma sendTelemetry_steady w ai sent :
  AIIntegration.spacesInstance ai = Some sent ->
  (AIIntegration.minTelemetryBeforeAlert ai
   < AIIntegration.telemetrySendCount ai + 1)%Z ->
  let ai' := AIIntegration.sendTelemetry w ai in
  AIIntegration.lastSensorStatus ai' = ai_statuses w
  /\ AIIntegration.telemetrySendCount ai'
     = (AIIntegration.telemetrySendCount ai + 1)%Z
  /\ AIIntegration.minTelemetryBeforeAlert ai'
     = AIIntegration.minTelemetryBeforeAlert ai
  /\ (AIIntegration.lastSensorStatus ai = ai_statuses w ->
      AIIntegration.spacesInstance ai' = Some sent)
  /\ (AIIntegration.lastSensorStatus ai <> ai_statuses w ->
      exists m, AIIntegration.spacesInstance ai' = Some (sent ++ [m])
                /\ AIIntegration.triggerResponse m = true
                /\ AIIntegration.role m = "user"%string).
Proof.
  intros I C. unfold AIIntegration.sendTelemetry. rewrite I. cbv zeta.
  destruct (AIIntegration.telemetrySendCount ai + 1
            <=? AIIntegration.minTelemetryBeforeAlert ai)%Z eqn:E;
    [apply Z.leb_le in E; lia |].
  cbn [getTelemetrySnapshot Telemetry.sensors].
  destruct (AIIntegration.lastSensorStatus ai) as [lp lr lt].
  unfold ai_statuses.
  set (p := AIIntegration.getSensorStatus K_power _).
  set (r := AIIntegration.getSensorStatus K_pressure _).
  set (t := AIIntegration.getSensorStatus K_temperature _).
  cbn [AIIntegration.LastSensorStatus.power
       AIIntegration.LastSensorStatus.pressure
       AIIntegration.LastSensorStatus.temperature
       AIIntegration.lastSensorStatus AIIntegration.telemetrySendCount
       AIIntegration.minTelemetryBeforeAlert AIIntegration.spacesInstance].
  match goal with |- context [AIIntegration.first_alert ?l] =>
    set (sensors := l) end.
  assert (A : Forall
                (fun s =>
                   (AIIntegration.SensorView.status s
                    = AIIntegration.SensorView.lastStatus s ->
                    AIIntegration.alert_for s = None)
                   /\ (AIIntegration.SensorView.status s
                       <> AIIntegration.SensorView.lastStatus s ->
                       exists m, AIIntegration.alert_for s = Some m
                                 /\ AIIntegration.triggerResponse m = true
                                 /\ AIIntegration.role m = "user"%string))
                sensors).
  { repeat constructor; apply alert_for_changed; reflexivity. }
  inversion A as [|? ? [Ap Ap'] A1]; subst.
  inversion A1 as [|? ? [Ar Ar'] A2]; subst.
  inversion A2 as [|? ? [At At'] _]; subst.
  cbn [AIIntegration.SensorView.status AIIntegration.SensorView.lastStatus]
    in Ap, Ap', Ar, Ar', At, At'.
  split; [reflexivity |]. split; [reflexivity |]. split; [reflexivity |].
  split.
  - intro Eq. injection Eq as -> -> ->.
    subst sensors. cbn [AIIntegration.first_alert].
    now rewrite (Ap eq_refl), (Ar eq_refl), (At eq_refl).
  - intro N.
    assert (X : exists m, AIIntegration.first_alert sensors = Some m
                          /\ AIIntegration.triggerResponse m = true
                          /\ AIIntegration.role m = "user"%string).
    { subst sensors. cbn [AIIntegration.first_alert].
      destruct (Status_eqb_eq p lp) as [_ Hp].
      destruct (AIIntegration.Status_eqb p lp) eqn:Bp.
      - apply Status_eqb_eq in Bp. rewrite (Ap Bp).
        destruct (AIIntegration.Status_eqb r lr) eqn:Br.
        + apply Status_eqb_eq in Br. rewrite (Ar Br).
          destruct (AIIntegration.Status_eqb t lt) eqn:Bt.
          * apply Status_eqb_eq in Bt. subst. now elim N.
          * destruct At' as (m & -> & T); [| now exists m].
            intro Y. apply Status_eqb_eq in Y. congruence.
        + destruct Ar' as (m & -> & T); [| now exists m].
          intro Y. apply Status_eqb_eq in Y. congruence.
      - destruct Ap' as (m & -> & T); [| now exists m].
        intro Y. apply Status_eqb_eq in Y. congruence. }
    destruct X as (m & -> & T). now exists m.
Qed.

(** X26. Past the start-up phase, a telemetry send records the current
    status of the three channels; it sends one message, which asks for
    a response in the role of the user, when the status of some channel
    differs from the recorded one, and no message otherwise. *)
Theorem sendTelemetry_alerts w ai sent :
  AIIntegration.spacesInstance ai = Some sent ->
  (AIIntegration.minTelemetryBeforeAlert ai
   < AIIntegration.telemetrySendCount ai + 1)%Z ->
  let ai' := AIIntegration.sendTelemetry w ai in
  AIIntegration.lastSensorStatus ai' = ai_statuses w
  /\ (AIIntegration.lastSensorStatus ai = ai_statuses w ->
      AIIntegration.sent_messages ai' = sent)
  /\ (AIIntegration.lastSensorStatus ai <> ai_statuses w ->
      exists m, AIIntegration.sent_messages ai' = sent ++ [m]
                /\ AIIntegration.triggerResponse m = true
                /\ AIIntegration.role m = "user"%string).
Proof.
  intros I C.
  destruct (sendTelemetry_steady w ai sent I C) as (L & _ & _ & S & A).
  cbv zeta. unfold AIIntegration.sent_messages. split; [exact L |]. split.
  - intro E. now rewrite (S E).
  - intro N. destruct (A N) as (m & -> & T). now exists m.
Qed.

Lemma sendTelemetry_twice w ai sent :
  AIIntegration.spacesInstance ai = Some sent ->
  (AIIntegration.minTelemetryBeforeAlert ai
   < AIIntegration.telemetrySendCount ai + 1)%Z ->
  AIIntegration.sent_messages
    (AIIntegration.sendTelemetry w (AIIntegration.sendTelemetry w ai))
  = AIIntegration.sent_messages (AIIntegration.sendTelemetry w ai).
Proof.
  intros I C.
  destruct (sendTelemetry_steady w ai sent I C) as (L & Cn & Mn & S & A).
  assert (X : exists sent', AIIntegration.spacesInstance
                              (AIIntegration.sendTelemetry w ai)
                            = Some sent').
  { destruct (AIIntegration.lastSensorStatus ai) as [lp lr lt] eqn:El.
    destruct (ai_statuses w) as [p r t] eqn:Es.
    destruct (AIIntegration.Status_eqb lp p) eqn:Bp;
      destruct (AIIntegration.Status_eqb lr r) eqn:Br;
      destruct (AIIntegration.Status_eqb lt t) eqn:Bt;
      try (destruct A as (m & -> & _);
           [ intro Y; injection Y as -> -> ->;
             rewrite ?(proj2 (Status_eqb_eq _ _) eq_refl) in *; discriminate
           | eauto ]).
    apply Status_eqb_eq in Bp, Br, Bt. subst. rewrite S; eauto. }
  destruct X as (sent' & I').
  destruct (sendTelemetry_steady w (AIIntegration.sendTelemetry w ai) sent' I')
    as (_ & _ & _ & S' & _); [rewrite Cn, Mn; lia |].
  unfold AIIntegration.sent_messages at 1. rewrite (S' L).
  unfold AIIntegration.sent_messages. now rewrite I'.
Qed.

Lemma announcement_cases (b1 b2 b3 : bool) (w : World) :
  match (if b1 then Some K_power
         else if b2 then Some K_pressure
         else if b3 then Some K_temperature else None) with
  | Some k => [announcement k w]
  | None => []
  end
  = if b1 then [announcement K_power w]
    else if b2 then [announcement K_pressure w]
    else if b3 then [announcement K_temperature w] else [].
Proof. destruct b1, b2, b3; reflexivity. Qed.

(** The message of a send past the start-up phase, channel by
    channel. *)
Lemma sendTelemetry_message w ai sent :
  AIIntegration.spacesInstance ai = Some sent ->
  (AIIntegration.minTelemetryBeforeAlert ai
   < AIIntegration.telemetrySendCount ai + 1)%Z ->
  AIIntegration.sent_messages (AIIntegration.sendTelemetry w ai)
  = sent ++ match first_changed (AIIntegration.lastSensorStatus ai)
                                (ai_statuses w) with
            | Some k => [announcement k w]
            | None => []
            end.
Proof.
  intros I C. unfold AIIntegration.sent_messages, AIIntegration.sendTelemetry.
  rewrite I. cbv zeta.
  destruct (AIIntegration.telemetrySendCount ai + 1
            <=? AIIntegration.minTelemetryBeforeAlert ai)%Z eqn:E;
    [apply Z.leb_le in E; lia |].
  cbn [AIIntegration.spacesInstance getTelemetrySnapshot Telemetry.sensors].
  unfold first_changed. rewrite announcement_cases.
  unfold ai_statuses, announcement, reported_as.
  cbn [AIIntegration.LastSensorStatus.power
       AIIntegration.LastSensorStatus.pressure
       AIIntegration.LastSensorStatus.temperature sensor_get].
  destruct (AIIntegration.lastSensorStatus ai) as [lp lr lt].
  cbn [AIIntegration.LastSensorStatus.power
       AIIntegration.LastSensorStatus.pressure
       AIIntegration.LastSensorStatus.temperature].
  unfold AIIntegration.first_alert, AIIntegration.alert_for.
  cbn [AIIntegration.SensorView.changed AIIntegration.SensorView.status
       AIIntegration.SensorView.lastStatus AIIntegration.SensorView.name
       AIIntegration.SensorView.value AIIntegration.SensorView.unit
       AIIntegration.SensorView.fix_].
  generalize (Number_toFixed0 (power (sensors (sim w)))) as sp.
  generalize (Number_toFixed0 (pressure (sensors (sim w)))) as sr.
  generalize (Number_toFixed0 (temperature (sensors (sim w)))) as st.
  generalize (AIIntegration.getSensorStatus K_power
                (power (sensors (sim w)))) as p.
  generalize (AIIntegration.getSensorStatus K_pressure
                (pressure (sensors (sim w)))) as r.
  generalize (AIIntegration.getSensorStatus K_temperature
                (temperature (sensors (sim w)))) as t.
  intros t r p st sr sp.
  destruct p, lp; cbn [AIIntegration.Status_eqb negb andb orb];
    try reflexivity;
    destruct r, lr; cbn [AIIntegration.Status_eqb negb andb orb];
    try reflexivity;
    destruct t, lt; cbn [AIIntegration.Status_eqb negb andb orb];
    rewrite ?app_nil_r; reflexivity.
Qed.

(** X27. Past the start-up phase a send announces the first channel, in the
    order power, pressure, temperature, whose status differs from the
    recorded one, and no other: a recovery notice when that channel is
    nominal again, an alert with the recommended action otherwise.  A
    second send on an unchanged world sends nothing further, so an
    alert is not repeated and a channel that changed together with an
    earlier one is not announced while its status stays. *)
Theorem sendTelemetry_first_change_only w ai sent :
  AIIntegration.spacesInstance ai = Some sent ->
  (AIIntegration.minTelemetryBeforeAlert ai
   < AIIntegration.telemetrySendCount ai + 1)%Z ->
  AIIntegration.sent_messages (AIIntegration.sendTelemetry w ai)
  = sent ++ match first_changed (AIIntegration.lastSensorStatus ai)
                                (ai_statuses w) with
            | Some k => [announcement k w]
            | None => []
            end
  /\ AIIntegration.sent_messages
       (AIIntegration.sendTelemetry w (AIIntegration.sendTelemetry w ai))
     = AIIntegration.sent_messages (AIIntegration.sendTelemetry w ai).
Proof.
  intros I C. split.
  - now apply sendTelemetry_message.
  - now apply (sendTelemetry_twice w ai sent).
Qed.

Lemma sendTelemetry_startup_step w ai sent :
  AIIntegration.spacesInstance ai = Some sent ->
  (AIIntegration.telemetrySendCount ai + 1
   <= AIIntegration.minTelemetryBeforeAlert ai)%Z ->
  let ai' := AIIntegration.sendTelemetry w ai in
  AIIntegration.spacesInstance ai' = Some sent
  /\ AIIntegration.lastSensorStatus ai' = AIIntegration.lastSensorStatus ai
  /\ AIIntegration.telemetrySendCount ai'
     = (AIIntegration.telemetrySendCount ai + 1)%Z
  /\ AIIntegration.minTelemetryBeforeAlert ai'
     = AIIntegration.minTelemetryBeforeAlert ai.
Proof.
  intros I C. cbv zeta. unfold AIIntegration.sendTelemetry. rewrite I.
  cbv zeta. apply Z.leb_le in C. rewrite C. repeat split.
Qed.

(** X28. While the count of sends stays within the start-up phase, whatever
    the engine goes through from one send to the next, nothing is sent
    to the AI and the recorded statuses stay as they were. *)
Theorem sendTelemetry_startup (ws : list World) ai sent :
  AIIntegration.spacesInstance ai = Some sent ->
  (AIIntegration.telemetrySendCount ai + Z.of_nat (List.length ws)
   <= AIIntegration.minTelemetryBeforeAlert ai)%Z ->
  let ai' :=
    fold_left (fun ai w => AIIntegration.sendTelemetry w ai) ws ai in
  AIIntegration.sent_messages ai' = sent
  /\ AIIntegration.lastSensorStatus ai' = AIIntegration.lastSensorStatus ai.
Proof.
  cbv zeta. revert ai.
  induction ws as [|w ws IH]; intros ai I C.
  - unfold AIIntegration.sent_messages. cbn [fold_left]. now rewrite I.
  - cbn [fold_left]. cbn [List.length] in C.
    destruct (sendTelemetry_startup_step w ai sent I) as (I' & L & N & M);
      [lia |].
    destruct (IH (AIIntegration.sendTelemetry w ai) I') as (S & L').
    + rewrite N, M. lia.
    + split; [exact S | now rewrite L', L].
Qed.

(** Power at 36 kW when the sixth send takes place: one alert, and none
    on the seventh. *)
Lemma sendTelemetry_alerts_witness :
  let w := on_sim (assign_sensor K_power 36) (boot 0) in
  let ai := Nat.iter 5 (AIIntegration.sendTelemetry w)
                     (AIIntegration.new (Some [])) in
  exists m, AIIntegration.sent_messages (AIIntegration.sendTelemetry w ai)
            = [m]
            /\ AIIntegration.triggerResponse m = true.
Proof.
  intros w ai.
  destruct (sendTelemetry_alerts w ai [] eq_refl) as (_ & _ & A).
  - vm_compute. reflexivity.
  - destruct A as (m & E & T & _).
    + intro X. vm_compute in X. discriminate X.
    + exists m. split; [exact E | exact T].
Defined.

(** Power at 36 kW and pressure at 130 bar when the sixth send takes
    place: the alert is about power, and the seventh send adds
    nothing. *)
Lemma sendTelemetry_first_change_only_witness :
  let w := on_sim (assign_sensor K_pressure 130)
                  (on_sim (assign_sensor K_power 36) (boot 0)) in
  let ai := Nat.iter 5 (AIIntegration.sendTelemetry w)
                     (AIIntegration.new (Some [])) in
  AIIntegration.sent_messages (AIIntegration.sendTelemetry w ai)
  = [announcement K_power w]
  /\ AIIntegration.sent_messages
       (AIIntegration.sendTelemetry w (AIIntegration.sendTelemetry w ai))
     = [announcement K_power w].
Proof.
  intros w ai.
  destruct (sendTelemetry_first_change_only w ai [] eq_refl) as [M T].
  - vm_compute. reflexivity.
  - split; [exact M | rewrite T; exact M].
Defined.

Lemma sendTelemetry_startup_witness :
  let w := on_sim (assign_sensor K_power 36) (boot 0) in
  AIIntegration.sent_messages
    (fold_left (fun ai w => AIIntegration.sendTelemetry w ai)
               [w; boot 0; w; w; boot 0] (AIIntegration.new (Some [])))
  = [].
Proof.
  intro w.
  refine (proj1 (sendTelemetry_startup [w; boot 0; w; w; boot 0]
                   (AIIntegration.new (Some [])) [] eq_refl _)).
  vm_compute. discriminate.
Defined.
